(** * ACG scene binary codec: data model, exporter, importer, validation

    A shallow embedding of the Python sources
      - loader/data_structures.py  (Vertex, Mesh, the seven layers, Material,
                                    Texture, SceneData)
      - loader/binary_exporter.py  (BinarySceneExporter, BinarySceneImporter)
      - loader/base_loader.py      (BaseLoader.validate_scene and
                                    log_statistics, LoaderRegistry)
      - loader/wavefront_loader.py (the texture and material indices of
                                    WavefrontLoader)
      - loader/bpy_loader.py       (the layer extractors and the vertex data
                                    of BlenderLoader)
    followed by the properties of the codec and of the loaders.

    Conventions of the embedding.
      - A Python exception is a value of [exn]; a call that may raise returns
        a [result].
      - A file opened for reading is a cursor over its bytes ([BinaryIO]);
        reading code runs in the monad [M], which keeps the cursor also when
        an exception is raised, so that the position of a failure is
        observable.
      - A file opened for writing is the list of the bytes written so far;
        writing code returns the bytes it appends.
      - [struct] formats are in native mode; as in the wire format, integers
        are little-endian and 4 bytes wide.
      - A [float] is an IEEE-754 binary64 value, in the form of the Standard
        Library's [spec_float]; [struct.pack('f', _)] converts it to
        binary32 as the C cast of native mode does: to nearest, ties to
        even, and a finite value beyond the range of binary32 to the
        infinity of its sign, without an exception.  Of a NaN only the
        quiet pattern 0x7FC00000 is kept. *)

From Stdlib Require Import ZArith List String Ascii Bool Lia DecimalString.
From Stdlib Require Import SpecFloat.
From Stdlib.Strings Require Import Byte.
Import ListNotations.
Open Scope Z_scope.

(** ** Python values and exceptions *)

Inductive exn : Type :=
| ValueError (msg : string)
| TypeError (msg : string)
| StructError
| UnicodeEncodeError
| UnicodeDecodeError.

Inductive result (A : Type) : Type :=
| Ok (a : A)
| Raise (e : exn).
Arguments Ok {A} a.
Arguments Raise {A} e.

Definition rbind {A B} (r : result A) (k : A -> result B) : result B :=
  match r with
  | Ok a => k a
  | Raise e => Raise e
  end.

Declare Scope result_scope.
Delimit Scope result_scope with result.
Notation "x <- r ;; k" := (rbind r (fun x => k))
  (at level 61, r at next level, right associativity) : result_scope.

Definition bytes := list byte.

(** A [str] is its sequence of Unicode code points. *)
Definition pystr := list Z.

Definition byte_of_Z (z : Z) : byte :=
  match Byte.of_N (Z.to_N (z mod 256)) with
  | Some b => b
  | None => x00
  end.

Definition Z_of_byte (b : byte) : Z := Z.of_N (Byte.to_N b).

(** An ASCII literal as a [str] and as [bytes]. *)
Fixpoint str_of (s : string) : pystr :=
  match s with
  | EmptyString => []
  | String c s' => Z.of_N (N_of_ascii c) :: str_of s'
  end.

Fixpoint bytes_of (s : string) : bytes :=
  match s with
  | EmptyString => []
  | String c s' => byte_of_ascii c :: bytes_of s'
  end.

Definition bytes_eqb (a b : bytes) : bool :=
  if list_eq_dec Byte.byte_eq_dec a b then true else false.

(** *** [str.encode('utf-8')] and [bytes.decode('utf-8')] *)

Definition utf8_encode_char (cp : Z) : result bytes :=
  if (cp <? 0) then Raise UnicodeEncodeError
  else if cp <? 0x80 then Ok [byte_of_Z cp]
  else if cp <? 0x800 then
    Ok [byte_of_Z (Z.lor 0xC0 (Z.shiftr cp 6));
        byte_of_Z (Z.lor 0x80 (Z.land cp 0x3F))]
  else if (0xD800 <=? cp) && (cp <=? 0xDFFF) then Raise UnicodeEncodeError
  else if cp <? 0x10000 then
    Ok [byte_of_Z (Z.lor 0xE0 (Z.shiftr cp 12));
        byte_of_Z (Z.lor 0x80 (Z.land (Z.shiftr cp 6) 0x3F));
        byte_of_Z (Z.lor 0x80 (Z.land cp 0x3F))]
  else if cp <=? 0x10FFFF then
    Ok [byte_of_Z (Z.lor 0xF0 (Z.shiftr cp 18));
        byte_of_Z (Z.lor 0x80 (Z.land (Z.shiftr cp 12) 0x3F));
        byte_of_Z (Z.lor 0x80 (Z.land (Z.shiftr cp 6) 0x3F));
        byte_of_Z (Z.lor 0x80 (Z.land cp 0x3F))]
  else Raise UnicodeEncodeError.

Fixpoint utf8_encode (s : pystr) : result bytes :=
  match s with
  | [] => Ok []
  | cp :: s' =>
      (b <- utf8_encode_char cp ;;
       bs <- utf8_encode s' ;;
       Ok (b ++ bs))%result
  end.

Definition in_range (lo hi x : Z) : bool := (lo <=? x) && (x <=? hi).

Definition cont (b : Z) : Z := Z.land b 0x3F.

Fixpoint utf8_decode (bs : bytes) : result pystr :=
  match bs with
  | [] => Ok []
  | c0 :: tl =>
      let b0 := Z_of_byte c0 in
      if b0 <? 0x80 then
        (s <- utf8_decode tl ;; Ok (b0 :: s))%result
      else if in_range 0xC2 0xDF b0 then
        match tl with
        | c1 :: tl1 =>
            let b1 := Z_of_byte c1 in
            if in_range 0x80 0xBF b1 then
              (s <- utf8_decode tl1 ;;
               Ok (Z.lor (Z.shiftl (Z.land b0 0x1F) 6) (cont b1) :: s))%result
            else Raise UnicodeDecodeError
        | _ => Raise UnicodeDecodeError
        end
      else if in_range 0xE0 0xEF b0 then
        match tl with
        | c1 :: c2 :: tl2 =>
            let b1 := Z_of_byte c1 in
            let b2 := Z_of_byte c2 in
            let lo := if b0 =? 0xE0 then 0xA0 else 0x80 in
            let hi := if b0 =? 0xED then 0x9F else 0xBF in
            if in_range lo hi b1 && in_range 0x80 0xBF b2 then
              (s <- utf8_decode tl2 ;;
               Ok (Z.lor (Z.shiftl (Z.land b0 0x0F) 12)
                     (Z.lor (Z.shiftl (cont b1) 6) (cont b2)) :: s))%result
            else Raise UnicodeDecodeError
        | _ => Raise UnicodeDecodeError
        end
      else if in_range 0xF0 0xF4 b0 then
        match tl with
        | c1 :: c2 :: c3 :: tl3 =>
            let b1 := Z_of_byte c1 in
            let b2 := Z_of_byte c2 in
            let b3 := Z_of_byte c3 in
            let lo := if b0 =? 0xF0 then 0x90 else 0x80 in
            let hi := if b0 =? 0xF4 then 0x8F else 0xBF in
            if in_range lo hi b1 && in_range 0x80 0xBF b2
               && in_range 0x80 0xBF b3 then
              (s <- utf8_decode tl3 ;;
               Ok (Z.lor (Z.shiftl (Z.land b0 0x07) 18)
                     (Z.lor (Z.shiftl (cont b1) 12)
                        (Z.lor (Z.shiftl (cont b2) 6) (cont b3))) :: s))%result
            else Raise UnicodeDecodeError
        | _ => Raise UnicodeDecodeError
        end
      else Raise UnicodeDecodeError
  end.

(** *** [repr] of a [bytes] object and [str] of an [int], as f-strings
    render them *)

Definition squote : ascii := ascii_of_nat 39.
Definition dquote : ascii := ascii_of_nat 34.
Definition backslash : ascii := ascii_of_nat 92.

Definition hex_digit (d : Z) : ascii :=
  if d <? 10 then ascii_of_nat (Z.to_nat (48 + d))
  else ascii_of_nat (Z.to_nat (87 + d)).

Definition repr_byte (quote : ascii) (c : byte) : string :=
  let a := ascii_of_byte c in
  let z := Z_of_byte c in
  if Ascii.eqb a quote || Ascii.eqb a backslash then
    String backslash (String a EmptyString)
  else if z =? 9 then String backslash "t"
  else if z =? 10 then String backslash "n"
  else if z =? 13 then String backslash "r"
  else if (z <? 32) || (127 <=? z) then
    String backslash
      (String "x" (String (hex_digit (z / 16))
                     (String (hex_digit (z mod 16)) EmptyString)))
  else String a EmptyString.

Definition has_byte (a : ascii) (bs : bytes) : bool :=
  existsb (fun c => Ascii.eqb (ascii_of_byte c) a) bs.

Definition repr_bytes (bs : bytes) : string :=
  let quote :=
    if has_byte squote bs && negb (has_byte dquote bs)
    then dquote else squote in
  ("b" ++ String quote
      (List.fold_right (fun c acc => repr_byte quote c ++ acc)
         (String quote EmptyString) bs))%string.

Definition str_int (n : Z) : string :=
  NilZero.string_of_int (Z.to_int n).

(** *** Floats *)

Definition pyfloat : Type := spec_float.

(** The double [m * 2 ^ e]. *)
Definition double (m : positive) (e : Z) : pyfloat :=
  binary_round 53 1024 false m e.

Definition f0_0 : pyfloat := S754_zero false.
Definition f0_5 : pyfloat := double 1 (-1).
Definition f0_8 : pyfloat := double 0x1999999999999A (-53).
Definition f1_0 : pyfloat := double 1 0.
Definition f1_3 : pyfloat := double 0x14CCCCCCCCCCCD (-52).
Definition f1_5 : pyfloat := double 3 (-1).
Definition f400_0 : pyfloat := double 25 4.

(** [x > 0.0] *)
Definition float_gt0 (x : pyfloat) : bool := SFltb f0_0 x.

(** The conversion of a double to binary32. *)
Definition to_single (x : pyfloat) : spec_float :=
  match x with
  | S754_finite s m e => binary_round 24 128 s m e
  | _ => x
  end.

(** A value within the range of binary32: its conversion does not turn a
    finite value into an infinity. *)
Definition fits_single (x : pyfloat) : bool :=
  match x, to_single x with
  | S754_finite _ _ _, S754_infinity _ => false
  | _, _ => true
  end.

Definition sign_bit (s : bool) : Z := if s then 2 ^ 31 else 0.

(** The 32 bits of a binary32 value: sign, biased exponent, fraction. *)
Definition single_bits (x : spec_float) : Z :=
  match x with
  | S754_zero s => sign_bit s
  | S754_infinity s => sign_bit s + 0x7F800000
  | S754_nan => 0x7FC00000
  | S754_finite s m e =>
      if Z.pos m <? 2 ^ 23 then sign_bit s + Z.pos m
      else sign_bit s + (e + 150) * 2 ^ 23 + (Z.pos m - 2 ^ 23)
  end.

(** The double that a binary32 bit pattern denotes. *)
Definition single_of_bits (b : Z) : pyfloat :=
  let s := Z.testbit b 31 in
  let e := Z.land (Z.shiftr b 23) 0xFF in
  let frac := Z.land b 0x7FFFFF in
  if e =? 255 then (if frac =? 0 then S754_infinity s else S754_nan)
  else if e =? 0 then binary_normalize 53 1024 (if s then - frac else frac)
                        (-149) s
  else binary_normalize 53 1024
         (if s then - (frac + 2 ^ 23) else frac + 2 ^ 23) (e - 150) s.

(** The bytes written by a loop that writes [body x] for each [x] in turn;
    the first exception ends the loop. *)
Fixpoint write_each {A} (body : A -> result bytes) (xs : list A)
  : result bytes :=
  match xs with
  | [] => Ok []
  | x :: xs' =>
      (b <- body x ;; bs <- write_each body xs' ;; Ok (b ++ bs))%result
  end.

(** *** The [struct] module, for the formats the codec uses *)

Module pystruct.

Fixpoint le_bytes (k : nat) (n : Z) : bytes :=
  match k with
  | O => []
  | S k' => byte_of_Z n :: le_bytes k' (Z.shiftr n 8)
  end.

Fixpoint le_value (bs : bytes) : Z :=
  match bs with
  | [] => 0
  | b :: tl => Z_of_byte b + 256 * le_value tl
  end.

Definition signed32 (n : Z) : Z :=
  if n <? 2 ^ 31 then n else n - 2 ^ 32.

(** [struct.pack('I', n)] *)
Definition pack_I (n : Z) : result bytes :=
  if (0 <=? n) && (n <? 2 ^ 32) then Ok (le_bytes 4 n) else Raise StructError.

(** [struct.pack('i', n)] *)
Definition pack_i (n : Z) : result bytes :=
  if (- 2 ^ 31 <=? n) && (n <? 2 ^ 31) then Ok (le_bytes 4 (n mod 2 ^ 32))
  else Raise StructError.

(** [struct.pack('f', x)], native mode: the value is cast to a C [float]
    and its 4 bytes are written; no float makes it raise. *)
Definition pack_f (x : pyfloat) : result bytes :=
  Ok (le_bytes 4 (single_bits (to_single x))).

(** [struct.pack('<n>f', *xs)]: the argument count must be [n]. *)
Definition pack_nf (n : nat) (xs : list pyfloat) : result bytes :=
  if Nat.eqb (List.length xs) n then write_each pack_f xs
  else Raise StructError.

(** [struct.pack('<n>i', *xs)] *)
Definition pack_ni (n : nat) (xs : list Z) : result bytes :=
  if Nat.eqb (List.length xs) n then write_each pack_i xs else Raise StructError.

(** [struct.pack('<n>I', *xs)] *)
Definition pack_nI (n : nat) (xs : list Z) : result bytes :=
  if Nat.eqb (List.length xs) n then write_each pack_I xs else Raise StructError.

(** The buffer cut into 4-byte items. *)
Fixpoint items (n : nat) (bs : bytes) : list bytes :=
  match n with
  | O => []
  | S n' => firstn 4 bs :: items n' (skipn 4 bs)
  end.

(** [struct.unpack('<n>I', bs)]: the buffer must hold exactly [4 n]
    bytes. *)
Definition unpack_nI (n : nat) (bs : bytes) : result (list Z) :=
  if Nat.eqb (List.length bs) (4 * n) then Ok (map le_value (items n bs))
  else Raise StructError.

Definition unpack_ni (n : nat) (bs : bytes) : result (list Z) :=
  if Nat.eqb (List.length bs) (4 * n)
  then Ok (map (fun b => signed32 (le_value b)) (items n bs))
  else Raise StructError.

Definition unpack_nf (n : nat) (bs : bytes) : result (list pyfloat) :=
  if Nat.eqb (List.length bs) (4 * n)
  then Ok (map (fun b => single_of_bits (le_value b)) (items n bs))
  else Raise StructError.

(** [struct.unpack('I', bs)[0]] and [struct.unpack('f', bs)[0]] *)
Definition unpack_I (bs : bytes) : result Z :=
  (l <- unpack_nI 1 bs ;; Ok (nth 0 l 0))%result.

Definition unpack_f (bs : bytes) : result pyfloat :=
  (l <- unpack_nf 1 bs ;; Ok (nth 0 l f0_0))%result.

End pystruct.

(** ** Files opened for reading *)

Record BinaryIO : Type := { rest : bytes; pos : Z }.

Definition open_rb (contents : bytes) : BinaryIO :=
  {| rest := contents; pos := 0 |}.

Definition M (A : Type) : Type := BinaryIO -> result A * BinaryIO.

Definition ret {A} (a : A) : M A := fun f => (Ok a, f).

Definition raise {A} (e : exn) : M A := fun f => (Raise e, f).

Definition bind {A B} (c : M A) (k : A -> M B) : M B :=
  fun f =>
    match c f with
    | (Ok a, f') => k a f'
    | (Raise e, f') => (Raise e, f')
    end.

Definition lift {A} (r : result A) : M A := fun f => (r, f).

Declare Scope io_scope.
Delimit Scope io_scope with io.
Notation "x <- c ;; k" := (bind c (fun x => k))
  (at level 61, c at next level, right associativity) : io_scope.

(** [f.read(n)] for [n >= 0]: at most [n] bytes, fewer at the end of the
    file. *)
Definition read (n : Z) : M bytes :=
  fun f =>
    let got := firstn (Z.to_nat n) (rest f) in
    (Ok got,
     {| rest := skipn (Z.to_nat n) (rest f);
        pos := pos f + Z.of_nat (List.length got) |}).

(** ** The data model (data_structures.py)

    Each dataclass is a module holding its record [t]; [init] is the
    generated [__init__] where the code calls it, with [None] for an argument
    the caller leaves out. *)

Module Vertex.
Record t : Type := mk {
  position : list pyfloat;
  normal : list pyfloat;
  texcoord : list pyfloat;
  tangent : list pyfloat
}.
(** [Vertex(position=.., normal=.., texcoord=.., tangent=..)] *)
Definition init (position normal texcoord : list pyfloat)
           (tangent : option (list pyfloat)) : t :=
  mk position normal texcoord
     (match tangent with Some tg => tg | None => [f0_0; f0_0; f0_0] end).
End Vertex.

Module Mesh.
Record t : Type := mk {
  name : pystr;
  vertices : list Vertex.t;
  indices : list Z;
  material_index : Z
}.
(** [name], [vertices] and [indices] have no default. *)
Definition init (name : option pystr) (vertices : option (list Vertex.t))
           (indices : option (list Z)) : result t :=
  match name, vertices, indices with
  | Some n, Some vs, Some idx => Ok (mk n vs idx 0)
  | None, None, None =>
      Raise (TypeError
               "Mesh.__init__() missing 3 required positional arguments: 'name', 'vertices', and 'indices'")
  | _, _, _ =>
      Raise (TypeError "Mesh.__init__() missing required positional arguments")
  end.
Definition set_name (v : pystr) (m : t) : t :=
  mk v (vertices m) (indices m) (material_index m).
Definition set_vertices (v : list Vertex.t) (m : t) : t :=
  mk (name m) v (indices m) (material_index m).
Definition set_indices (v : list Z) (m : t) : t :=
  mk (name m) (vertices m) v (material_index m).
Definition set_material_index (v : Z) (m : t) : t :=
  mk (name m) (vertices m) (indices m) v.
End Mesh.

Module ClearcoatLayer.
Record t : Type := mk {
  strength : pyfloat;
  roughness : pyfloat;
  ior : pyfloat;
  texture_index : Z;
  color : list pyfloat;
  padding : pyfloat
}.
Definition default : t :=
  mk f0_0 f0_0 f1_5 (-1) [f1_0; f1_0; f1_0] f0_0.
Definition set_strength (v : pyfloat) (l : t) : t :=
  mk v (roughness l) (ior l) (texture_index l) (color l) (padding l).
End ClearcoatLayer.

Module TransmissionLayer.
Record t : Type := mk {
  strength : pyfloat;
  roughness : pyfloat;
  depth : pyfloat;
  texture_index : Z;
  color : list pyfloat;
  padding : pyfloat
}.
Definition default : t :=
  mk f0_0 f0_0 f0_0 (-1) [f1_0; f1_0; f1_0] f0_0.
Definition set_strength (v : pyfloat) (l : t) : t :=
  mk v (roughness l) (depth l) (texture_index l) (color l) (padding l).
End TransmissionLayer.

Module SheenLayer.
Record t : Type := mk {
  strength : pyfloat;
  roughness : pyfloat;
  tint : pyfloat;
  texture_index : Z;
  color : list pyfloat;
  padding : pyfloat
}.
Definition default : t :=
  mk f0_0 f0_0 f0_0 (-1) [f1_0; f1_0; f1_0] f0_0.
Definition set_strength (v : pyfloat) (l : t) : t :=
  mk v (roughness l) (tint l) (texture_index l) (color l) (padding l).
End SheenLayer.

Module SubsurfaceLayer.
Record t : Type := mk {
  strength : pyfloat;
  radius : pyfloat;
  scale : pyfloat;
  texture_index : Z;
  color : list pyfloat;
  padding : pyfloat
}.
Definition default : t :=
  mk f0_0 f1_0 f1_0 (-1) [f1_0; f1_0; f1_0] f0_0.
Definition set_strength (v : pyfloat) (l : t) : t :=
  mk v (radius l) (scale l) (texture_index l) (color l) (padding l).
End SubsurfaceLayer.

Module AnisotropyLayer.
Record t : Type := mk {
  strength : pyfloat;
  rotation : pyfloat;
  padding0 : pyfloat;
  texture_index : Z;
  tangent : list pyfloat;
  padding1 : pyfloat
}.
Definition default : t :=
  mk f0_0 f0_0 f0_0 (-1) [f1_0; f0_0; f0_0] f0_0.
Definition set_strength (v : pyfloat) (l : t) : t :=
  mk v (rotation l) (padding0 l) (texture_index l) (tangent l) (padding1 l).
End AnisotropyLayer.

Module IridescenceLayer.
Record t : Type := mk {
  strength : pyfloat;
  ior : pyfloat;
  thickness : pyfloat;
  texture_index : Z;
  padding : list pyfloat
}.
Definition default : t :=
  mk f0_0 f1_3 f400_0 (-1) [f0_0; f0_0; f0_0; f0_0].
Definition set_strength (v : pyfloat) (l : t) : t :=
  mk v (ior l) (thickness l) (texture_index l) (padding l).
End IridescenceLayer.

Module VolumeLayer.
Record t : Type := mk {
  density : pyfloat;
  anisotropy : pyfloat;
  padding0 : pyfloat;
  padding1 : pyfloat;
  absorption_color : list pyfloat;
  padding2 : pyfloat
}.
Definition default : t :=
  mk f0_0 f0_0 f0_0 f0_0 [f1_0; f1_0; f1_0] f0_0.
Definition set_density (v : pyfloat) (l : t) : t :=
  mk v (anisotropy l) (padding0 l) (padding1 l) (absorption_color l) (padding2 l).
End VolumeLayer.

(** A texture slot holds an [int], [-1] for no texture; the importer also
    stores [None] there, hence the [option]. *)
Module Material.
Record t : Type := mk {
  name : pystr;
  base_color : list pyfloat;
  metallic : pyfloat;
  emission : list pyfloat;
  roughness : pyfloat;
  ior : pyfloat;
  opacity : pyfloat;
  layer_flags : Z;
  extended_data_index : Z;
  base_color_texture : option Z;
  normal_texture : option Z;
  metallic_roughness_texture : option Z;
  emission_texture : option Z;
  clearcoat : option ClearcoatLayer.t;
  transmission : option TransmissionLayer.t;
  sheen : option SheenLayer.t;
  subsurface : option SubsurfaceLayer.t;
  anisotropy : option AnisotropyLayer.t;
  iridescence : option IridescenceLayer.t;
  volume : option VolumeLayer.t
}.

(** [Material(name=n)]: every other field takes its default. *)
Definition make (n : pystr) : t :=
  mk n [f0_8; f0_8; f0_8] f0_0 [f0_0; f0_0; f0_0] f0_5
       f1_5 f1_0 0 0
       (Some (-1)) (Some (-1)) (Some (-1)) (Some (-1))
       None None None None
       None None None.

(** [name] has no default. *)
Definition init (name : option pystr) : result t :=
  match name with
  | Some n => Ok (make n)
  | None =>
      Raise (TypeError
               "Material.__init__() missing 1 required positional argument: 'name'")
  end.

Definition set_name (v : pystr) (m : t) : t :=
  mk v (base_color m) (metallic m) (emission m) (roughness m) (ior m)
    (opacity m) (layer_flags m) (extended_data_index m)
    (base_color_texture m) (normal_texture m) (metallic_roughness_texture m)
    (emission_texture m) (clearcoat m) (transmission m) (sheen m)
    (subsurface m) (anisotropy m) (iridescence m) (volume m).
Definition set_base_color (v : list pyfloat) (m : t) : t :=
  mk (name m) v (metallic m) (emission m) (roughness m) (ior m) (opacity m)
    (layer_flags m) (extended_data_index m) (base_color_texture m)
    (normal_texture m) (metallic_roughness_texture m) (emission_texture m)
    (clearcoat m) (transmission m) (sheen m) (subsurface m) (anisotropy m)
    (iridescence m) (volume m).
Definition set_emission (v : list pyfloat) (m : t) : t :=
  mk (name m) (base_color m) (metallic m) v (roughness m) (ior m)
    (opacity m) (layer_flags m) (extended_data_index m)
    (base_color_texture m) (normal_texture m) (metallic_roughness_texture m)
    (emission_texture m) (clearcoat m) (transmission m) (sheen m)
    (subsurface m) (anisotropy m) (iridescence m) (volume m).
Definition set_metallic (v : pyfloat) (m : t) : t :=
  mk (name m) (base_color m) v (emission m) (roughness m) (ior m)
    (opacity m) (layer_flags m) (extended_data_index m)
    (base_color_texture m) (normal_texture m) (metallic_roughness_texture m)
    (emission_texture m) (clearcoat m) (transmission m) (sheen m)
    (subsurface m) (anisotropy m) (iridescence m) (volume m).
Definition set_roughness (v : pyfloat) (m : t) : t :=
  mk (name m) (base_color m) (metallic m) (emission m) v (ior m) (opacity m)
    (layer_flags m) (extended_data_index m) (base_color_texture m)
    (normal_texture m) (metallic_roughness_texture m) (emission_texture m)
    (clearcoat m) (transmission m) (sheen m) (subsurface m) (anisotropy m)
    (iridescence m) (volume m).
Definition set_ior (v : pyfloat) (m : t) : t :=
  mk (name m) (base_color m) (metallic m) (emission m) (roughness m) v
    (opacity m) (layer_flags m) (extended_data_index m)
    (base_color_texture m) (normal_texture m) (metallic_roughness_texture m)
    (emission_texture m) (clearcoat m) (transmission m) (sheen m)
    (subsurface m) (anisotropy m) (iridescence m) (volume m).
Definition set_opacity (v : pyfloat) (m : t) : t :=
  mk (name m) (base_color m) (metallic m) (emission m) (roughness m) (ior m)
    v (layer_flags m) (extended_data_index m) (base_color_texture m)
    (normal_texture m) (metallic_roughness_texture m) (emission_texture m)
    (clearcoat m) (transmission m) (sheen m) (subsurface m) (anisotropy m)
    (iridescence m) (volume m).
Definition set_base_color_texture (v : option Z) (m : t) : t :=
  mk (name m) (base_color m) (metallic m) (emission m) (roughness m) (ior m)
    (opacity m) (layer_flags m) (extended_data_index m) v (normal_texture m)
    (metallic_roughness_texture m) (emission_texture m) (clearcoat m)
    (transmission m) (sheen m) (subsurface m) (anisotropy m) (iridescence m)
    (volume m).
Definition set_clearcoat (v : option ClearcoatLayer.t) (m : t) : t :=
  mk (name m) (base_color m) (metallic m) (emission m) (roughness m) (ior m)
    (opacity m) (layer_flags m) (extended_data_index m)
    (base_color_texture m) (normal_texture m) (metallic_roughness_texture m)
    (emission_texture m) v (transmission m) (sheen m) (subsurface m)
    (anisotropy m) (iridescence m) (volume m).
Definition set_transmission (v : option TransmissionLayer.t) (m : t) : t :=
  mk (name m) (base_color m) (metallic m) (emission m) (roughness m) (ior m)
    (opacity m) (layer_flags m) (extended_data_index m)
    (base_color_texture m) (normal_texture m) (metallic_roughness_texture m)
    (emission_texture m) (clearcoat m) v (sheen m) (subsurface m)
    (anisotropy m) (iridescence m) (volume m).
Definition set_sheen (v : option SheenLayer.t) (m : t) : t :=
  mk (name m) (base_color m) (metallic m) (emission m) (roughness m) (ior m)
    (opacity m) (layer_flags m) (extended_data_index m)
    (base_color_texture m) (normal_texture m) (metallic_roughness_texture m)
    (emission_texture m) (clearcoat m) (transmission m) v (subsurface m)
    (anisotropy m) (iridescence m) (volume m).
Definition set_subsurface (v : option SubsurfaceLayer.t) (m : t) : t :=
  mk (name m) (base_color m) (metallic m) (emission m) (roughness m) (ior m)
    (opacity m) (layer_flags m) (extended_data_index m)
    (base_color_texture m) (normal_texture m) (metallic_roughness_texture m)
    (emission_texture m) (clearcoat m) (transmission m) (sheen m) v
    (anisotropy m) (iridescence m) (volume m).
Definition set_anisotropy (v : option AnisotropyLayer.t) (m : t) : t :=
  mk (name m) (base_color m) (metallic m) (emission m) (roughness m) (ior m)
    (opacity m) (layer_flags m) (extended_data_index m)
    (base_color_texture m) (normal_texture m) (metallic_roughness_texture m)
    (emission_texture m) (clearcoat m) (transmission m) (sheen m)
    (subsurface m) v (iridescence m) (volume m).
Definition set_iridescence (v : option IridescenceLayer.t) (m : t) : t :=
  mk (name m) (base_color m) (metallic m) (emission m) (roughness m) (ior m)
    (opacity m) (layer_flags m) (extended_data_index m)
    (base_color_texture m) (normal_texture m) (metallic_roughness_texture m)
    (emission_texture m) (clearcoat m) (transmission m) (sheen m)
    (subsurface m) (anisotropy m) v (volume m).
Definition set_volume (v : option VolumeLayer.t) (m : t) : t :=
  mk (name m) (base_color m) (metallic m) (emission m) (roughness m) (ior m)
    (opacity m) (layer_flags m) (extended_data_index m)
    (base_color_texture m) (normal_texture m) (metallic_roughness_texture m)
    (emission_texture m) (clearcoat m) (transmission m) (sheen m)
    (subsurface m) (anisotropy m) (iridescence m) v.

(** A layer attribute is truthy iff it is not [None]: the layer dataclasses
    define neither [__bool__] nor [__len__]. *)
Definition truthy {L} (layer : option L) : bool :=
  match layer with Some _ => true | None => false end.

(** [self.layer and self.layer.strength > 0.0] *)
Definition and_gt0 {L} (layer : option L) (strength : L -> pyfloat) : bool :=
  match layer with
  | Some l => float_gt0 (strength l)
  | None => false
  end.

Definition get_layer_flags (self : t) : Z :=
  let flags := 0 in
  let flags :=
    if and_gt0 (clearcoat self) ClearcoatLayer.strength
    then Z.lor flags (Z.shiftl 1 0) else flags in
  let flags :=
    if and_gt0 (transmission self) TransmissionLayer.strength
    then Z.lor flags (Z.shiftl 1 1) else flags in
  let flags :=
    if and_gt0 (sheen self) SheenLayer.strength
    then Z.lor flags (Z.shiftl 1 2) else flags in
  let flags :=
    if and_gt0 (subsurface self) SubsurfaceLayer.strength
    then Z.lor flags (Z.shiftl 1 3) else flags in
  let flags :=
    if and_gt0 (anisotropy self) AnisotropyLayer.strength
    then Z.lor flags (Z.shiftl 1 4) else flags in
  let flags :=
    if and_gt0 (iridescence self) IridescenceLayer.strength
    then Z.lor flags (Z.shiftl 1 5) else flags in
  let flags :=
    if and_gt0 (volume self) VolumeLayer.density
    then Z.lor flags (Z.shiftl 1 6) else flags in
  flags.
End Material.

Module Texture.
Record t : Type := mk { path : pystr; width : Z; height : Z }.
Definition init (path : pystr) : t := mk path 0 0.
End Texture.

(** An element of [SceneData.textures]: the loaders store [Texture] objects,
    the importer stores the path strings themselves. *)
Inductive texture_entry : Type :=
| TextureObj (t : Texture.t)
| TextureStr (s : pystr).

Module SceneData.
Record t : Type := mk {
  meshes : list Mesh.t;
  materials : list Material.t;
  textures : list texture_entry
}.
Definition init : t := mk [] [] [].
Definition set_meshes (v : list Mesh.t) (s : t) : t :=
  mk v (materials s) (textures s).
Definition set_materials (v : list Material.t) (s : t) : t :=
  mk (meshes s) v (textures s).
Definition set_textures (v : list texture_entry) (s : t) : t :=
  mk (meshes s) (materials s) v.
End SceneData.

(** ** The exporter (binary_exporter.py, BinarySceneExporter) *)

Module BinarySceneExporter.
Import pystruct.
Local Open Scope result_scope.

Definition MAGIC : bytes := bytes_of "ACGS".
Definition VERSION : Z := 1.

Definition _write_header : result bytes :=
  v <- pack_I VERSION ;;
  Ok (MAGIC ++ v).

Definition to_texture_index (val : option Z) : Z :=
  match val with
  | None => -1
  | Some v => if v =? -1 then -1 else v
  end.

(** The name and the PBR parameters of a material record, up to the four
    texture indices. *)
Definition material_base (mat : Material.t) : result bytes :=
  name_bytes <- utf8_encode (Material.name mat) ;;
  name_len <- pack_I (Z.of_nat (List.length name_bytes)) ;;
  base_color <- pack_nf 3 (Material.base_color mat) ;;
  emission <- pack_nf 3 (Material.emission mat) ;;
  metallic <- pack_f (Material.metallic mat) ;;
  roughness <- pack_f (Material.roughness mat) ;;
  ior <- pack_f (Material.ior mat) ;;
  opacity <- pack_f (Material.opacity mat) ;;
  tex <- pack_ni 4 [to_texture_index (Material.base_color_texture mat);
                    to_texture_index (Material.normal_texture mat);
                    to_texture_index (Material.metallic_roughness_texture mat);
                    to_texture_index (Material.emission_texture mat)] ;;
  Ok (name_len ++ name_bytes ++ base_color ++ emission
        ++ metallic ++ roughness ++ ior ++ opacity ++ tex).

(** The layer flags the exporter computes for a material record. *)
Definition material_flags (mat : Material.t) : Z :=
  let flags := 0 in
  let flags :=
    if Material.truthy (Material.transmission mat)
    then Z.lor flags 0x01 else flags in
  let flags :=
    if Material.truthy (Material.clearcoat mat)
    then Z.lor flags 0x02 else flags in
  let flags :=
    if Material.truthy (Material.sheen mat)
    then Z.lor flags 0x04 else flags in
  flags.

(** The bytes written after the flags. *)
Definition material_extension (mat : Material.t) : result bytes :=
  match Material.transmission mat with
  | Some t => pack_nf 2 [TransmissionLayer.strength t; Material.ior mat]
  | None => Ok []
  end.

(** One turn of the loop of [_write_materials]. *)
Definition write_material (mat : Material.t) : result bytes :=
  base <- material_base mat ;;
  flags <- pack_I (material_flags mat) ;;
  ext <- material_extension mat ;;
  Ok (base ++ flags ++ ext).

Definition _write_materials (materials : list Material.t) : result bytes :=
  count <- pack_I (Z.of_nat (List.length materials)) ;;
  records <- write_each write_material materials ;;
  Ok (count ++ records).

Definition write_texture (texture : texture_entry) : result bytes :=
  let tex_path :=
    match texture with
    | TextureObj t => Texture.path t
    | TextureStr s => s
    end in
  path_bytes <- utf8_encode tex_path ;;
  path_len <- pack_I (Z.of_nat (List.length path_bytes)) ;;
  Ok (path_len ++ path_bytes).

Definition _write_textures (textures : list texture_entry) : result bytes :=
  count <- pack_I (Z.of_nat (List.length textures)) ;;
  records <- write_each write_texture textures ;;
  Ok (count ++ records).

Definition write_vertex (v : Vertex.t) : result bytes :=
  position <- pack_nf 3 (Vertex.position v) ;;
  normal <- pack_nf 3 (Vertex.normal v) ;;
  texcoord <- pack_nf 2 (Vertex.texcoord v) ;;
  tangent <- pack_nf 3 (Vertex.tangent v) ;;
  Ok (position ++ normal ++ texcoord ++ tangent).

(** The bytes between the vertex count and the index count. *)
Definition vertex_block (mesh : Mesh.t) : result bytes :=
  write_each write_vertex (Mesh.vertices mesh).

(** The bytes after the index count. *)
Definition index_block (mesh : Mesh.t) : result bytes :=
  pack_nI (List.length (Mesh.indices mesh)) (Mesh.indices mesh).

Definition write_mesh (mesh : Mesh.t) : result bytes :=
  name_bytes <- utf8_encode (Mesh.name mesh) ;;
  name_len <- pack_I (Z.of_nat (List.length name_bytes)) ;;
  material_index <- pack_I (Mesh.material_index mesh) ;;
  vertex_count <- pack_I (Z.of_nat (List.length (Mesh.vertices mesh))) ;;
  vertices <- vertex_block mesh ;;
  index_count <- pack_I (Z.of_nat (List.length (Mesh.indices mesh))) ;;
  indices <- index_block mesh ;;
  Ok (name_len ++ name_bytes ++ material_index
        ++ vertex_count ++ vertices ++ index_count ++ indices).

Definition _write_meshes (meshes : list Mesh.t) : result bytes :=
  count <- pack_I (Z.of_nat (List.length meshes)) ;;
  records <- write_each write_mesh meshes ;;
  Ok (count ++ records).

(** The contents of the output file after a call that returns. *)
Definition export (scene : SceneData.t) : result bytes :=
  header <- _write_header ;;
  materials <- _write_materials (SceneData.materials scene) ;;
  textures <- _write_textures (SceneData.textures scene) ;;
  meshes <- _write_meshes (SceneData.meshes scene) ;;
  Ok (header ++ materials ++ textures ++ meshes).

End BinarySceneExporter.

(** ** The importer (binary_exporter.py, BinarySceneImporter) *)

Module BinarySceneImporter.
Import pystruct.
Local Open Scope io_scope.

(** The body of the loop of [_read_materials] after [mat = Material()]. *)
Definition read_material_fields (mat : Material.t) : M Material.t :=
  b <- read 4 ;;
  name_len <- lift (unpack_I b) ;;
  b <- read name_len ;;
  name <- lift (utf8_decode b) ;;
  let mat := Material.set_name name mat in
  b <- read 12 ;;
  base_color <- lift (unpack_nf 3 b) ;;
  let mat := Material.set_base_color base_color mat in
  b <- read 12 ;;
  emission <- lift (unpack_nf 3 b) ;;
  let mat := Material.set_emission emission mat in
  b <- read 4 ;;
  metallic <- lift (unpack_f b) ;;
  let mat := Material.set_metallic metallic mat in
  b <- read 4 ;;
  roughness <- lift (unpack_f b) ;;
  let mat := Material.set_roughness roughness mat in
  b <- read 4 ;;
  ior <- lift (unpack_f b) ;;
  let mat := Material.set_ior ior mat in
  b <- read 4 ;;
  opacity <- lift (unpack_f b) ;;
  let mat := Material.set_opacity opacity mat in
  b <- read 16 ;;
  tex_indices <- lift (unpack_ni 4 b) ;;
  let mat :=
    Material.set_base_color_texture
      (if 0 <=? nth 0 tex_indices 0 then Some (nth 0 tex_indices 0)
       else None) mat in
  b <- read 4 ;;
  flags <- lift (unpack_I b) ;;
  ret mat.

Fixpoint materials_loop (count : nat) (materials : list Material.t)
  : M (list Material.t) :=
  match count with
  | O => ret materials
  | S count' =>
      mat <- lift (Material.init None) ;;
      mat <- read_material_fields mat ;;
      materials_loop count' (materials ++ [mat])
  end.

Definition _read_materials : M (list Material.t) :=
  b <- read 4 ;;
  count <- lift (unpack_I b) ;;
  materials_loop (Z.to_nat count) [].

Fixpoint textures_loop (count : nat) (textures : list texture_entry)
  : M (list texture_entry) :=
  match count with
  | O => ret textures
  | S count' =>
      b <- read 4 ;;
      path_len <- lift (unpack_I b) ;;
      b <- read path_len ;;
      path <- lift (utf8_decode b) ;;
      textures_loop count' (textures ++ [TextureStr path])
  end.

Definition _read_textures : M (list texture_entry) :=
  b <- read 4 ;;
  count <- lift (unpack_I b) ;;
  textures_loop (Z.to_nat count) [].

Fixpoint vertices_loop (vert_count : nat) (mesh : Mesh.t) : M Mesh.t :=
  match vert_count with
  | O => ret mesh
  | S vert_count' =>
      b <- read 12 ;;
      position <- lift (unpack_nf 3 b) ;;
      b <- read 12 ;;
      normal <- lift (unpack_nf 3 b) ;;
      b <- read 8 ;;
      texcoord <- lift (unpack_nf 2 b) ;;
      b <- read 12 ;;
      tangent <- lift (unpack_nf 3 b) ;;
      let v := Vertex.init position normal texcoord (Some tangent) in
      vertices_loop vert_count'
        (Mesh.set_vertices (Mesh.vertices mesh ++ [v]) mesh)
  end.

(** The body of the loop of [_read_meshes] after [mesh = Mesh()]. *)
Definition read_mesh_fields (mesh : Mesh.t) : M Mesh.t :=
  b <- read 4 ;;
  name_len <- lift (unpack_I b) ;;
  b <- read name_len ;;
  name <- lift (utf8_decode b) ;;
  let mesh := Mesh.set_name name mesh in
  b <- read 4 ;;
  material_index <- lift (unpack_I b) ;;
  let mesh := Mesh.set_material_index material_index mesh in
  b <- read 4 ;;
  vert_count <- lift (unpack_I b) ;;
  mesh <- vertices_loop (Z.to_nat vert_count) mesh ;;
  b <- read 4 ;;
  idx_count <- lift (unpack_I b) ;;
  b <- read (idx_count * 4) ;;
  indices <- lift (unpack_nI (Z.to_nat idx_count) b) ;;
  ret (Mesh.set_indices indices mesh).

Fixpoint meshes_loop (count : nat) (meshes : list Mesh.t)
  : M (list Mesh.t) :=
  match count with
  | O => ret meshes
  | S count' =>
      mesh <- lift (Mesh.init None None None) ;;
      mesh <- read_mesh_fields mesh ;;
      meshes_loop count' (meshes ++ [mesh])
  end.

Definition _read_meshes : M (list Mesh.t) :=
  b <- read 4 ;;
  count <- lift (unpack_I b) ;;
  meshes_loop (Z.to_nat count) [].

(** The three sections after the header, in the order [load] reads
    them. *)
Definition read_data (scene : SceneData.t) : M SceneData.t :=
  materials <- _read_materials ;;
  let scene := SceneData.set_materials materials scene in
  textures <- _read_textures ;;
  let scene := SceneData.set_textures textures scene in
  meshes <- _read_meshes ;;
  let scene := SceneData.set_meshes meshes scene in
  ret scene.

(** [load] on an open file. *)
Definition load_from : M SceneData.t :=
  let scene := SceneData.init in
  magic <- read 4 ;;
  if negb (bytes_eqb magic BinarySceneExporter.MAGIC) then
    raise (ValueError ("Invalid file format: " ++ repr_bytes magic))
  else
    b <- read 4 ;;
    version <- lift (unpack_I b) ;;
    if negb (version =? BinarySceneExporter.VERSION) then
      raise (ValueError ("Unsupported version: " ++ str_int version))
    else
      read_data scene.

(** [load] of the file whose contents are [contents]: the scene returned or
    the exception raised, and the file cursor at that point. *)
Definition load (contents : bytes) : result SceneData.t * BinaryIO :=
  load_from (open_rb contents).

End BinarySceneImporter.

(** ** Scene validation (base_loader.py, BaseLoader.validate_scene) *)

Module BaseLoader.

(** The loop over the meshes: [false] at the first mesh whose
    [material_index >= num_materials]. *)
Fixpoint indices_valid (num_materials : Z) (meshes : list Mesh.t) : bool :=
  match meshes with
  | [] => true
  | mesh :: meshes' =>
      if num_materials <=? Mesh.material_index mesh then false
      else indices_valid num_materials meshes'
  end.

(** [validate_scene] on [self.scene]: the value returned (or the exception
    raised) and the scene afterwards. *)
Definition validate_scene (scene : SceneData.t)
  : result bool * SceneData.t :=
  match SceneData.meshes scene with
  | [] => (Ok false, scene)
  | _ :: _ =>
      let with_default :=
        match SceneData.materials scene with
        | [] =>
            match Material.init (Some (str_of "Default")) with
            | Ok m => Ok (SceneData.set_materials
                            (SceneData.materials scene ++ [m]) scene)
            | Raise e => Raise e
            end
        | _ :: _ => Ok scene
        end in
      match with_default with
      | Raise e => (Raise e, scene)
      | Ok scene =>
          let num_materials :=
            Z.of_nat (List.length (SceneData.materials scene)) in
          (Ok (indices_valid num_materials (SceneData.meshes scene)), scene)
      end
  end.

End BaseLoader.

(** ** Scene statistics (base_loader.py, BaseLoader.log_statistics)

    What [log_statistics] computes and logs.  [supports_advanced_materials]
    is the loader's answer to the abstract method of that name; the count of
    advanced materials is computed only when it is [True]. *)

Module Statistics.
Record t : Type := mk {
  meshes : Z;
  vertices : Z;
  triangles : Z;
  materials : Z;
  textures : Z;
  advanced : option Z
}.
End Statistics.

Fixpoint py_sum (xs : list Z) : Z :=
  match xs with
  | [] => 0
  | x :: xs' => x + py_sum xs'
  end.

Definition log_statistics (supports_advanced_materials : bool)
           (scene : SceneData.t) : Statistics.t :=
  let total_vertices :=
    py_sum (map (fun mesh => Z.of_nat (List.length (Mesh.vertices mesh)))
              (SceneData.meshes scene)) in
  let total_triangles :=
    py_sum (map (fun mesh => Z.of_nat (List.length (Mesh.indices mesh)) / 3)
              (SceneData.meshes scene)) in
  Statistics.mk
    (Z.of_nat (List.length (SceneData.meshes scene)))
    total_vertices
    total_triangles
    (Z.of_nat (List.length (SceneData.materials scene)))
    (Z.of_nat (List.length (SceneData.textures scene)))
    (if supports_advanced_materials then
       Some (py_sum
               (map (fun _ => 1)
                  (filter (fun mat => negb (Material.get_layer_flags mat =? 0))
                     (SceneData.materials scene))))
     else None).

(** ** Python dictionaries keyed by [str]

    A [dict] keeps its keys in insertion order: assigning to a key that is
    present replaces the value where it stands, assigning to a new key
    appends the pair.  [get] is [d.get(k)], with [None] for a missing
    key. *)

Definition str_eqb (a b : pystr) : bool :=
  if list_eq_dec Z.eq_dec a b then true else false.

Module pydict.
Definition t (V : Type) : Type := list (pystr * V).

Fixpoint get {V} (k : pystr) (d : t V) : option V :=
  match d with
  | [] => None
  | (k', v) :: d' => if str_eqb k k' then Some v else get k d'
  end.

Fixpoint set {V} (k : pystr) (v : V) (d : t V) : t V :=
  match d with
  | [] => [(k, v)]
  | (k', v') :: d' =>
      if str_eqb k k' then (k', v) :: d' else (k', v') :: set k v d'
  end.

(** [k in d] *)
Definition contains {V} (k : pystr) (d : t V) : bool :=
  match get k d with Some _ => true | None => false end.

Definition keys {V} (d : t V) : list pystr := map fst d.
End pydict.

(** ** The loader registry (base_loader.py, LoaderRegistry)

    [_loaders] maps a lower-cased extension to the loader class registered
    for it.  [str.lower] and [pathlib.Path(_).suffix] are functions from
    [str] to [str]; the registry is modelled for any two such functions and
    any type of loader classes. *)

Module LoaderRegistry.
Section Registry.
Variable lower : pystr -> pystr.
Variable suffix : pystr -> pystr.
Variable loader_class : Type.

(** The decorator [LoaderRegistry.register] applied to [extensions] and
    then to [loader_class]: the registry after it has run. *)
Definition register (extensions : list pystr) (cls : loader_class)
           (_loaders : pydict.t loader_class) : pydict.t loader_class :=
  fold_left (fun loaders ext =>
               let ext_lower := lower ext in
               pydict.set ext_lower cls loaders)
            extensions _loaders.

(** [LoaderRegistry.get_loader(filepath)] *)
Definition get_loader (filepath : pystr) (_loaders : pydict.t loader_class)
  : option loader_class :=
  let ext := lower (suffix filepath) in
  pydict.get ext _loaders.

End Registry.
End LoaderRegistry.

(** ** The Wavefront loader (wavefront_loader.py): texture and material
    indices *)

Module WavefrontLoader.

(** The two variables [add_texture] closes over in [_extract_materials]. *)
Record textures : Type := mk_textures {
  texture_paths : list pystr;
  texture_map : pydict.t Z
}.

Definition no_textures : textures := mk_textures [] [].

(** [add_texture(tex_path)]: the index returned and the two variables
    afterwards.  [None] stands for the KeyError of
    [texture_map[tex_path]]. *)
Definition add_texture (tex_path : pystr) (st : textures)
  : option Z * textures :=
  match tex_path with
  | [] => (Some (-1), st)
  | _ :: _ =>
      let st :=
        if negb (pydict.contains tex_path (texture_map st)) then
          mk_textures
            (texture_paths st ++ [tex_path])
            (pydict.set tex_path (Z.of_nat (List.length (texture_paths st)))
               (texture_map st))
        else st in
      (pydict.get tex_path (texture_map st), st)
  end.

(** [{mat.name: idx for idx, mat in enumerate(materials)}], from index
    [idx] on. *)
Fixpoint material_map_from (idx : Z) (materials : list Material.t)
         (d : pydict.t Z) : pydict.t Z :=
  match materials with
  | [] => d
  | mat :: materials' =>
      material_map_from (idx + 1) materials'
        (pydict.set (Material.name mat) idx d)
  end.

Definition material_map (materials : list Material.t) : pydict.t Z :=
  material_map_from 0 materials [].

(** [material_map.get(mesh_name, 0)], the [material_index] that
    [_extract_meshes] gives the mesh named [mesh_name]. *)
Definition material_index (materials : list Material.t) (mesh_name : pystr)
  : Z :=
  match pydict.get mesh_name (material_map materials) with
  | Some idx => idx
  | None => 0
  end.

End WavefrontLoader.

(** ** The Blender loader (bpy_loader.py): layers and vertex data *)

Definition f0_01 : pyfloat := double 0x147AE147AE147B (-59).

Definition unexpected_keyword (cls keyword : string) : exn :=
  TypeError (cls ++ ".__init__() got an unexpected keyword argument '"
               ++ keyword ++ "'").

(** The binding of the keywords of a call [cls(k1=.., k2=.., ...)] to the
    parameters of a dataclass [__init__], whose parameters are the fields:
    a keyword that names no field raises TypeError, before anything is
    built. *)
Fixpoint bind_keywords (cls : string) (fields keywords : list string)
  : result unit :=
  match keywords with
  | [] => Ok tt
  | k :: keywords' =>
      if existsb (String.eqb k) fields then bind_keywords cls fields keywords'
      else Raise (unexpected_keyword cls k)
  end.

Module BlenderLoader.

Definition ClearcoatLayer_fields : list string :=
  ["strength"; "roughness"; "ior"; "texture_index"; "color"; "padding"]%string.
Definition TransmissionLayer_fields : list string :=
  ["strength"; "roughness"; "depth"; "texture_index"; "color";
   "padding"]%string.
Definition SheenLayer_fields : list string :=
  ["strength"; "roughness"; "tint"; "texture_index"; "color";
   "padding"]%string.
Definition AnisotropyLayer_fields : list string :=
  ["strength"; "rotation"; "padding0"; "texture_index"; "tangent";
   "padding1"]%string.

(** The input sockets of a Principled BSDF node, as the extractors use
    them: [contains k] is [k in inputs], [float_value k] is
    [float(inputs[k].default_value)], and [color_value k] is the outcome of
    reading [inputs[k].default_value] as a colour: [None] when it has no
    length or fewer than three components, else its first three components
    as floats.

    Each extractor returns the material as it is afterwards.  It assigns to
    the material last, so that the material is as before when it raises.
    [_extract_subsurface] is left out: it passes a list for the field
    [radius], which the data model holds as a float. *)
Section Inputs.
Variable contains : string -> bool.
Variable float_value : string -> result pyfloat.
Variable color_value : string -> result (option (list pyfloat)).

Definition _extract_transmission (material : Material.t)
  : result Material.t :=
  if negb (contains "Transmission") then Ok material
  else
    (strength <- float_value "Transmission" ;;
     if SFltb strength f0_01 then Ok material
     else
       roughness <-
         (if contains "Transmission Roughness"
          then float_value "Transmission Roughness"
          else Ok (Material.roughness material)) ;;
       _ <- bind_keywords "TransmissionLayer" TransmissionLayer_fields
              ["strength"; "roughness"; "depth"; "color";
               "texture_idx"]%string ;;
       Ok (Material.set_transmission
             (Some (TransmissionLayer.mk strength roughness f0_0 (-1)
                      (Material.base_color material) f0_0))
             material))%result.

Definition _extract_clearcoat (material : Material.t) : result Material.t :=
  if negb (contains "Clearcoat") then Ok material
  else
    (strength <- float_value "Clearcoat" ;;
     if SFltb strength f0_01 then Ok material
     else
       roughness <-
         (if contains "Clearcoat Roughness"
          then float_value "Clearcoat Roughness"
          else Ok f0_0) ;;
       _ <- bind_keywords "ClearcoatLayer" ClearcoatLayer_fields
              ["strength"; "roughness"; "ior"; "texture_idx"]%string ;;
       Ok (Material.set_clearcoat
             (Some (ClearcoatLayer.mk strength roughness f1_5 (-1)
                      [f1_0; f1_0; f1_0] f0_0))
             material))%result.

Definition _extract_sheen (material : Material.t) : result Material.t :=
  if negb (contains "Sheen") then Ok material
  else
    (strength <- float_value "Sheen" ;;
     if SFltb strength f0_01 then Ok material
     else
       color <-
         (if contains "Sheen Tint"
          then
            tint <- color_value "Sheen Tint" ;;
            Ok (match tint with
                | Some c => c
                | None => [f1_0; f1_0; f1_0]
                end)
          else Ok [f1_0; f1_0; f1_0]) ;;
       _ <- bind_keywords "SheenLayer" SheenLayer_fields
              ["strength"; "roughness"; "color"; "texture_idx"]%string ;;
       Ok (Material.set_sheen
             (Some (SheenLayer.mk strength f0_0 f0_0 (-1) color f0_0))
             material))%result.

Definition _extract_anisotropy (material : Material.t) : result Material.t :=
  if negb (contains "Anisotropic") then Ok material
  else
    (strength <- float_value "Anisotropic" ;;
     if SFltb strength f0_01 then Ok material
     else
       rotation <-
         (if contains "Anisotropic Rotation"
          then float_value "Anisotropic Rotation"
          else Ok f0_0) ;;
       _ <- bind_keywords "AnisotropyLayer" AnisotropyLayer_fields
              ["strength"; "rotation"; "texture_idx"]%string ;;
       Ok (Material.set_anisotropy
             (Some (AnisotropyLayer.mk strength rotation f0_0 (-1)
                      [f1_0; f0_0; f0_0] f0_0))
             material))%result.

End Inputs.

(** [_extract_vertex_data]: one vertex and one index per loop of each
    polygon, in order.  [loop_vertex loop_idx] is the [Vertex] the body
    builds from [mesh_data] for that loop, or the exception raised on the
    way; [polygons] holds the [loop_indices] of each polygon. *)
Section VertexData.
Variable loop_vertex : Z -> result Vertex.t.

Fixpoint polygon_loop (loop_indices : list Z)
         (vertices : list Vertex.t) (indices : list Z)
  : result (list Vertex.t * list Z) :=
  match loop_indices with
  | [] => Ok (vertices, indices)
  | loop_idx :: loop_indices' =>
      (vertex <- loop_vertex loop_idx ;;
       let indices := indices ++ [Z.of_nat (List.length vertices)] in
       let vertices := vertices ++ [vertex] in
       polygon_loop loop_indices' vertices indices)%result
  end.

Fixpoint polygons_loop (polygons : list (list Z))
         (vertices : list Vertex.t) (indices : list Z)
  : result (list Vertex.t * list Z) :=
  match polygons with
  | [] => Ok (vertices, indices)
  | loop_indices :: polygons' =>
      (r <- polygon_loop loop_indices vertices indices ;;
       polygons_loop polygons' (fst r) (snd r))%result
  end.

Definition _extract_vertex_data (polygons : list (list Z))
  : result (list Vertex.t * list Z) :=
  polygons_loop polygons [] [].

End VertexData.
End BlenderLoader.

(** ** Example values *)

Module Examples.

(** [Material(name="glass", transmission=TransmissionLayer(strength=x))] *)
Definition glass (x : pyfloat) : Material.t :=
  Material.set_transmission
    (Some (TransmissionLayer.set_strength x TransmissionLayer.default))
    (Material.make (str_of "glass")).

(** [Material(name="paint", clearcoat=ClearcoatLayer())]: a clearcoat layer
    of strength 0.0. *)
Definition paint : Material.t :=
  Material.set_clearcoat (Some ClearcoatLayer.default)
    (Material.make (str_of "paint")).

Definition vertex0 : Vertex.t :=
  Vertex.init [f0_0; f0_0; f0_0] [f0_0; f0_0; f1_0] [f0_0; f0_0] None.

Definition vertex1 : Vertex.t :=
  Vertex.init [f1_0; f0_0; f0_0] [f0_0; f0_0; f1_0] [f1_0; f0_0] None.

(** A mesh with 2 vertices and 3 indices. *)
Definition sliver : Mesh.t :=
  Mesh.mk (str_of "sliver") [vertex0; vertex1] [0; 1; 0] 0.

Definition glass_scene : SceneData.t :=
  SceneData.mk [sliver] [glass f0_5]
    [TextureObj (Texture.init (str_of "a.png"))].

Definition no_material_scene : SceneData.t :=
  SceneData.mk [sliver] [] [].

Definition bad_index_scene : SceneData.t :=
  SceneData.mk [Mesh.set_material_index 1 sliver]
    [Material.make (str_of "m")] [].

Definition header : bytes :=
  BinarySceneExporter.MAGIC ++ pystruct.le_bytes 4 1.

(** A valid header followed by a materials count of 1 and nothing else. *)
Definition header_and_count_1 : bytes :=
  header ++ pystruct.le_bytes 4 1.

(** A valid header and the counts 0 materials, 0 textures, 1 mesh. *)
Definition header_and_mesh_count_1 : bytes :=
  header ++ pystruct.le_bytes 4 0 ++ pystruct.le_bytes 4 0
    ++ pystruct.le_bytes 4 1.

(** A valid header and the counts 0 materials, 0 textures, 0 meshes. *)
Definition empty_stream : bytes :=
  header ++ pystruct.le_bytes 4 0 ++ pystruct.le_bytes 4 0
    ++ pystruct.le_bytes 4 0.

(** The material record the exporter writes for [glass 0.5]. *)
Definition glass_record : bytes :=
  match BinarySceneExporter.write_material (glass f0_5) with
  | Ok b => b
  | Raise _ => []
  end.

(** The two floats written after the flags of that record: 0.5 and 1.5 in
    binary32. *)
Definition glass_extension : bytes :=
  pystruct.le_bytes 4 0x3F000000 ++ pystruct.le_bytes 4 0x3FC00000.

(** The textures and meshes sections of a scene without any. *)
Definition no_textures_no_meshes : bytes :=
  pystruct.le_bytes 4 0 ++ pystruct.le_bytes 4 0.

(** The file exported for the scene whose one material is [glass 0.5]. *)
Definition glass_stream : bytes :=
  header_and_count_1 ++ glass_record ++ no_textures_no_meshes.

(** A scene that holds two textures only, one as an object and one as a
    path. *)
Definition two_textures_scene : SceneData.t :=
  SceneData.mk [] [] [TextureObj (Texture.init (str_of "a.png"));
                      TextureStr (str_of "b.png")].

Definition negative_index_scene : SceneData.t :=
  SceneData.mk [Mesh.set_material_index (-1) sliver]
    [Material.make (str_of "m")] [].

End Examples.

(** ** Vocabulary of the properties *)

Definition is_u32 (n : Z) : Prop := 0 <= n < 2 ^ 32.

(** The bytes of a float in the file: its binary32 conversion, little-endian. *)
Definition packed_single (x : pyfloat) : bytes :=
  pystruct.le_bytes 4 (single_bits (to_single x)).

(** [n] floats, each within the range of binary32. *)
Definition floats_wf (n : nat) (xs : list pyfloat) : Prop :=
  List.length xs = n /\ Forall (fun x => fits_single x = true) xs.

(** The arities the data model gives the four attributes of a vertex, which
    are 32-bit floats. *)
Definition vertex_wf (v : Vertex.t) : Prop :=
  floats_wf 3 (Vertex.position v)
  /\ floats_wf 3 (Vertex.normal v)
  /\ floats_wf 2 (Vertex.texcoord v)
  /\ floats_wf 3 (Vertex.tangent v).

Definition missing_name : exn :=
  TypeError "Material.__init__() missing 1 required positional argument: 'name'".

Definition missing_mesh_arguments : exn :=
  TypeError
    "Mesh.__init__() missing 3 required positional arguments: 'name', 'vertices', and 'indices'".

(** The 32-bit field at byte offset [off] of a stream. *)
Definition field_at (off : nat) (contents : bytes) : Z :=
  pystruct.le_value (firstn 4 (skipn off contents)).

(** The cursor after [off] bytes of [contents] were read. *)
Definition cursor_at (off : nat) (contents : bytes) : BinaryIO :=
  {| rest := skipn off contents; pos := Z.of_nat off |}.

(** A stream with the magic, and with version 1 in its second field. *)
Definition valid_header (contents : bytes) : Prop :=
  firstn 4 contents = BinarySceneExporter.MAGIC
  /\ (8 <= List.length contents)%nat
  /\ field_at 4 contents = BinarySceneExporter.VERSION.

(** The two failures of the header check, as a caller tells them apart: by
    the text of the [ValueError]. *)
Definition is_bad_magic (e : exn) : bool :=
  match e with
  | ValueError msg => String.prefix "Invalid file format: " msg
  | _ => false
  end.

Definition is_unsupported_version (e : exn) : bool :=
  match e with
  | ValueError msg => String.prefix "Unsupported version: " msg
  | _ => false
  end.

Definition bit (b : bool) : Z := if b then 1 else 0.

(** A code point that is a Unicode scalar value: text that UTF-8 encodes. *)
Definition is_scalar (cp : Z) : Prop :=
  0 <= cp <= 0x10FFFF /\ ~ (0xD800 <= cp <= 0xDFFF).

Definition utf8_width (cp : Z) : nat :=
  if cp <? 0x80 then 1 else if cp <? 0x800 then 2
  else if cp <? 0x10000 then 3 else 4.

Definition utf8_size (s : pystr) : nat := list_sum (map utf8_width s).

(** Text whose UTF-8 length fits the 32-bit length prefix. *)
Definition text_wf (s : pystr) : Prop :=
  Forall is_scalar s /\ Z.of_nat (utf8_size s) < 2 ^ 32.

(** A texture slot: [None], the sentinel -1 or an index, within the signed
    32-bit field. *)
Definition slot_wf (slot : option Z) : Prop :=
  match slot with
  | None => True
  | Some v => -1 <= v < 2 ^ 31
  end.

(** The one layer field that is written: the strength of a Transmission
    layer. *)
Definition transmission_wf (layer : option TransmissionLayer.t) : Prop :=
  match layer with
  | Some t => fits_single (TransmissionLayer.strength t) = true
  | None => True
  end.

Definition material_wf (mat : Material.t) : Prop :=
  text_wf (Material.name mat)
  /\ floats_wf 3 (Material.base_color mat)
  /\ floats_wf 3 (Material.emission mat)
  /\ fits_single (Material.metallic mat) = true
  /\ fits_single (Material.roughness mat) = true
  /\ fits_single (Material.ior mat) = true
  /\ fits_single (Material.opacity mat) = true
  /\ transmission_wf (Material.transmission mat)
  /\ slot_wf (Material.base_color_texture mat)
  /\ slot_wf (Material.normal_texture mat)
  /\ slot_wf (Material.metallic_roughness_texture mat)
  /\ slot_wf (Material.emission_texture mat).

Definition texture_wf (texture : texture_entry) : Prop :=
  match texture with
  | TextureObj t => text_wf (Texture.path t)
  | TextureStr s => text_wf s
  end.

Definition count_wf {A} (xs : list A) : Prop :=
  Z.of_nat (List.length xs) < 2 ^ 32.

Definition mesh_wf (mesh : Mesh.t) : Prop :=
  text_wf (Mesh.name mesh)
  /\ is_u32 (Mesh.material_index mesh)
  /\ Forall vertex_wf (Mesh.vertices mesh)
  /\ count_wf (Mesh.vertices mesh)
  /\ Forall is_u32 (Mesh.indices mesh)
  /\ count_wf (Mesh.indices mesh).

(** A scene whose fields have the types, arities and widths of the data
    model.  Nothing is asked of the references between its parts. *)
Definition scene_wf (scene : SceneData.t) : Prop :=
  Forall material_wf (SceneData.materials scene)
  /\ count_wf (SceneData.materials scene)
  /\ Forall texture_wf (SceneData.textures scene)
  /\ count_wf (SceneData.textures scene)
  /\ Forall mesh_wf (SceneData.meshes scene)
  /\ count_wf (SceneData.meshes scene).

(** Some layer of the material is present with a primary field above 0. *)
Definition some_layer_active (m : Material.t) : bool :=
  Material.and_gt0 (Material.clearcoat m) ClearcoatLayer.strength
  || Material.and_gt0 (Material.transmission m) TransmissionLayer.strength
  || Material.and_gt0 (Material.sheen m) SheenLayer.strength
  || Material.and_gt0 (Material.subsurface m) SubsurfaceLayer.strength
  || Material.and_gt0 (Material.anisotropy m) AnisotropyLayer.strength
  || Material.and_gt0 (Material.iridescence m) IridescenceLayer.strength
  || Material.and_gt0 (Material.volume m) VolumeLayer.density.

(** The number of materials the index check of [validate_scene] compares
    with: the length of the list, or 1 when the default is added. *)
Definition checked_materials (scene : SceneData.t) : Z :=
  Z.max 1 (Z.of_nat (List.length (SceneData.materials scene))).

(** The sizes, in bytes, of the records the exporter writes. *)
Definition material_size (mat : Material.t) : nat :=
  4 + utf8_size (Material.name mat) + 60
  + (if Material.truthy (Material.transmission mat) then 8 else 0).

Definition texture_path (texture : texture_entry) : pystr :=
  match texture with
  | TextureObj t => Texture.path t
  | TextureStr s => s
  end.

Definition texture_size (texture : texture_entry) : nat :=
  4 + utf8_size (texture_path texture).

Definition mesh_size (mesh : Mesh.t) : nat :=
  4 + utf8_size (Mesh.name mesh) + 12
  + 44 * List.length (Mesh.vertices mesh)
  + 4 * List.length (Mesh.indices mesh).

Definition total_size {A} (size : A -> nat) (xs : list A) : nat :=
  list_sum (map size xs).

(** What the importer makes of a texture slot as the exporter wrote it. *)
Definition slot_read_back (slot : option Z) : option Z :=
  let index := BinarySceneExporter.to_texture_index slot in
  if 0 <=? index then Some index else None.

(** A vertex as the importer builds it: 3, 3, 2 and 3 components. *)
Definition vertex_arity (v : Vertex.t) : Prop :=
  List.length (Vertex.position v) = 3%nat
  /\ List.length (Vertex.normal v) = 3%nat
  /\ List.length (Vertex.texcoord v) = 2%nat
  /\ List.length (Vertex.tangent v) = 3%nat.

(** A run that did not get through: it raised, or it returned only after it
    had used up the stream. *)
Definition stops_short {A} (r : result A * BinaryIO) : Prop :=
  (exists e, fst r = Raise e) \/ rest (snd r) = [].

(** What the exporter can write, field by field: the conditions under which
    none of its [encode] and [struct.pack] calls raises.  Nothing is asked
    of the value of a float: in native mode every float is packed. *)
Definition slot_exportable (slot : option Z) : Prop :=
  match slot with
  | None => True
  | Some v => - 2 ^ 31 <= v < 2 ^ 31
  end.

Definition material_exportable (mat : Material.t) : Prop :=
  text_wf (Material.name mat)
  /\ List.length (Material.base_color mat) = 3%nat
  /\ List.length (Material.emission mat) = 3%nat
  /\ slot_exportable (Material.base_color_texture mat)
  /\ slot_exportable (Material.normal_texture mat)
  /\ slot_exportable (Material.metallic_roughness_texture mat)
  /\ slot_exportable (Material.emission_texture mat).

Definition mesh_exportable (mesh : Mesh.t) : Prop :=
  text_wf (Mesh.name mesh)
  /\ is_u32 (Mesh.material_index mesh)
  /\ Forall vertex_arity (Mesh.vertices mesh)
  /\ count_wf (Mesh.vertices mesh)
  /\ Forall is_u32 (Mesh.indices mesh)
  /\ count_wf (Mesh.indices mesh).

Definition scene_exportable (scene : SceneData.t) : Prop :=
  Forall material_exportable (SceneData.materials scene)
  /\ count_wf (SceneData.materials scene)
  /\ Forall texture_wf (SceneData.textures scene)
  /\ count_wf (SceneData.textures scene)
  /\ Forall mesh_exportable (SceneData.meshes scene)
  /\ count_wf (SceneData.meshes scene).

(** The invariant of the two variables of [add_texture]: the paths are
    distinct and none is empty, and the map sends each path to its position
    in the list and holds nothing else. *)
Definition textures_indexed (st : WavefrontLoader.textures) : Prop :=
  NoDup (WavefrontLoader.texture_paths st)
  /\ ~ In [] (WavefrontLoader.texture_paths st)
  /\ forall p i,
      pydict.get p (WavefrontLoader.texture_map st) = Some i
      <-> 0 <= i
          /\ nth_error (WavefrontLoader.texture_paths st) (Z.to_nat i)
             = Some p.

(** The material at position [i] of a list. *)
Definition material_at (materials : list Material.t) (i : Z)
  : option Material.t :=
  if i <? 0 then None else nth_error materials (Z.to_nat i).

(** A [material_index] as the loaders assign it: 0, or what the name map
    of the materials gives for some name. *)
Definition assigned_by_loader (materials : list Material.t) (mesh : Mesh.t)
  : Prop :=
  Mesh.material_index mesh = 0
  \/ exists n,
      Mesh.material_index mesh = WavefrontLoader.material_index materials n.

(** What lets a Blender extractor leave the material alone: the strength
    socket is missing, or its value reads as a float below 0.01. *)
Definition below_threshold (contains : string -> bool)
           (float_value : string -> result pyfloat) (socket : string)
  : Prop :=
  contains socket = false
  \/ exists s, float_value socket = Ok s /\ SFltb s f0_01 = true.

Definition leaves_or_raises (quiet : Prop) (material : Material.t)
           (outcome : result Material.t) : Prop :=
  (quiet -> outcome = Ok material)
  /\ (~ quiet -> exists e, outcome = Raise e).

(** The position, counted from [idx], of the last material named [name]. *)
Fixpoint last_named (name : pystr) (materials : list Material.t) (idx : Z)
  : option Z :=
  match materials with
  | [] => None
  | mat :: materials' =>
      match last_named name materials' (idx + 1) with
      | Some i => Some i
      | None => if str_eqb name (Material.name mat) then Some idx else None
      end
  end.

(** * Properties *)

(** ** Bytes and [struct] *)

Lemma Z_of_byte_range (b : byte) : 0 <= Z_of_byte b < 256.
Proof.
  unfold Z_of_byte. pose proof (Byte.to_N_bounded b) as H. lia.
Qed.

Lemma Z_of_byte_of_Z (z : Z) : Z_of_byte (byte_of_Z z) = z mod 256.
Proof.
  unfold Z_of_byte, byte_of_Z.
  assert (Hr : 0 <= z mod 256 < 256) by (apply Z.mod_pos_bound; lia).
  destruct (Byte.of_N (Z.to_N (z mod 256))) as [b|] eqn:E.
  - apply Byte.to_of_N in E. rewrite E. rewrite Z2N.id; lia.
  - apply Byte.of_N_None_iff in E. lia.
Qed.

Lemma length_le_bytes (k : nat) (n : Z) :
  List.length (pystruct.le_bytes k n) = k.
Proof.
  revert n. induction k as [|k IH]; intros n; simpl; [reflexivity|].
  now rewrite IH.
Qed.

Lemma le_value_le_bytes (k : nat) (n : Z) :
  0 <= n < 256 ^ Z.of_nat k ->
  pystruct.le_value (pystruct.le_bytes k n) = n.
Proof.
  revert n. induction k as [|k IH]; intros n Hn.
  - simpl in *. lia.
  - cbn [pystruct.le_bytes pystruct.le_value].
    rewrite Z_of_byte_of_Z, Z.shiftr_div_pow2 by lia.
    change (2 ^ 8) with 256.
    rewrite IH.
    + rewrite Z.add_comm. symmetry. apply Z.div_mod. lia.
    + rewrite Nat2Z.inj_succ, Z.pow_succ_r in Hn by lia.
      split; [apply Z.div_pos; lia|].
      apply Z.div_lt_upper_bound; [lia|]. apply Hn.
Qed.

Lemma le_value_nonneg (bs : bytes) : 0 <= pystruct.le_value bs.
Proof.
  induction bs as [|b bs IH]; cbn [pystruct.le_value]; [lia|].
  pose proof (Z_of_byte_range b). lia.
Qed.

Lemma pack_I_ok (n : Z) :
  0 <= n < 2 ^ 32 -> pystruct.pack_I n = Ok (pystruct.le_bytes 4 n).
Proof.
  intros H. unfold pystruct.pack_I.
  destruct (Z.leb_spec 0 n); destruct (Z.ltb_spec n (2 ^ 32)); simpl;
    try reflexivity; lia.
Qed.

Lemma pack_i_ok (n : Z) :
  - 2 ^ 31 <= n < 2 ^ 31 ->
  pystruct.pack_i n = Ok (pystruct.le_bytes 4 (n mod 2 ^ 32)).
Proof.
  intros H. unfold pystruct.pack_i.
  destruct (Z.leb_spec (- 2 ^ 31) n); destruct (Z.ltb_spec n (2 ^ 31)); simpl;
    try reflexivity; lia.
Qed.

Lemma pack_f_written (x : pyfloat) :
  pystruct.pack_f x = Ok (packed_single x).
Proof. reflexivity. Qed.

Lemma pack_f_ok (x : pyfloat) :
  fits_single x = true -> pystruct.pack_f x = Ok (packed_single x).
Proof. intros _. apply pack_f_written. Qed.

Lemma length_packed_single (x : pyfloat) :
  List.length (packed_single x) = 4%nat.
Proof. apply length_le_bytes. Qed.

(** A loop whose every turn writes [k] bytes writes [k] bytes per element. *)
Lemma write_each_length {A} (body : A -> result bytes) (k : nat) (xs : list A) :
  Forall (fun x => exists b, body x = Ok b /\ List.length b = k) xs ->
  exists bs, write_each body xs = Ok bs
             /\ List.length bs = (k * List.length xs)%nat.
Proof.
  induction 1 as [|x xs (b & Hb & Hk) _ (bs & Hbs & Hl)]; simpl.
  - exists []. split; [reflexivity|simpl; lia].
  - exists (b ++ bs). rewrite Hb, Hbs. simpl. split; [reflexivity|].
    rewrite length_app. lia.
Qed.

Lemma write_each_ok {A} (body : A -> result bytes) (xs : list A) :
  Forall (fun x => exists b, body x = Ok b) xs ->
  exists bs, write_each body xs = Ok bs.
Proof.
  induction 1 as [|x xs (b & Hb) _ (bs & Hbs)]; simpl.
  - now exists [].
  - exists (b ++ bs). now rewrite Hb, Hbs.
Qed.

Lemma pack_nf_ok (n : nat) (xs : list pyfloat) :
  floats_wf n xs ->
  exists bs, pystruct.pack_nf n xs = Ok bs
             /\ List.length bs = (4 * n)%nat.
Proof.
  intros (H & Hf). unfold pystruct.pack_nf. rewrite H, Nat.eqb_refl. subst n.
  apply write_each_length. eapply Forall_impl; [|exact Hf]. intros x Hx.
  exists (packed_single x).
  split; [now apply pack_f_ok|apply length_packed_single].
Qed.

Lemma pack_nI_ok (xs : list Z) :
  Forall is_u32 xs ->
  exists bs, pystruct.pack_nI (List.length xs) xs = Ok bs
             /\ List.length bs = (4 * List.length xs)%nat.
Proof.
  intros H. unfold pystruct.pack_nI. rewrite Nat.eqb_refl.
  apply write_each_length. eapply Forall_impl; [|exact H].
  intros n Hn. exists (pystruct.le_bytes 4 n).
  split; [now apply pack_I_ok|apply length_le_bytes].
Qed.

(** ** Vertex and index packing *)

Lemma write_vertex_44 (v : Vertex.t) :
  vertex_wf v ->
  exists bs, BinarySceneExporter.write_vertex v = Ok bs
             /\ List.length bs = 44%nat.
Proof.
  intros (Hp & Hn & Ht & Hg). unfold BinarySceneExporter.write_vertex.
  destruct (pack_nf_ok 3 _ Hp) as (p & Ep & Lp).
  destruct (pack_nf_ok 3 _ Hn) as (n & En & Ln).
  destruct (pack_nf_ok 2 _ Ht) as (t & Et & Lt).
  destruct (pack_nf_ok 3 _ Hg) as (g & Eg & Lg).
  rewrite Ep, En, Et, Eg. cbn [rbind]. eexists. split; [reflexivity|].
  rewrite !length_app. lia.
Qed.

(** C9: every vertex of the data model is written as 44 bytes (3 + 3 + 2 + 3
    floats of 4 bytes each, nothing between them) and every index as 4 bytes, so
    that the vertex block of a mesh is 44 bytes per vertex and its index
    block 4 bytes per index; for 2 vertices and 3 indices, 88 and 12 bytes. *)
Theorem vertex_44_bytes_index_4_bytes (mesh : Mesh.t) :
  Forall vertex_wf (Mesh.vertices mesh) ->
  Forall is_u32 (Mesh.indices mesh) ->
  Forall (fun v => exists bs, BinarySceneExporter.write_vertex v = Ok bs
                              /\ List.length bs = 44%nat)
         (Mesh.vertices mesh)
  /\ Forall (fun i => exists bs, pystruct.pack_I i = Ok bs
                                 /\ List.length bs = 4%nat)
            (Mesh.indices mesh)
  /\ exists vb ib,
      BinarySceneExporter.vertex_block mesh = Ok vb
      /\ BinarySceneExporter.index_block mesh = Ok ib
      /\ List.length vb = (44 * List.length (Mesh.vertices mesh))%nat
      /\ List.length ib = (4 * List.length (Mesh.indices mesh))%nat
      /\ (List.length (Mesh.vertices mesh) = 2%nat ->
          List.length (Mesh.indices mesh) = 3%nat ->
          List.length vb = 88%nat /\ List.length ib = 12%nat).
Proof.
  intros Hv Hi.
  assert (Hv' : Forall (fun v => exists bs,
                          BinarySceneExporter.write_vertex v = Ok bs
                          /\ List.length bs = 44%nat) (Mesh.vertices mesh)).
  { eapply Forall_impl; [|exact Hv]. intros v. apply write_vertex_44. }
  split; [exact Hv'|]. split.
  - eapply Forall_impl; [|exact Hi]. intros n Hn.
    exists (pystruct.le_bytes 4 n).
    split; [now apply pack_I_ok|apply length_le_bytes].
  - destruct (write_each_length _ 44 _ Hv') as (vb & Evb & Lvb).
    destruct (pack_nI_ok _ Hi) as (ib & Eib & Lib).
    exists vb, ib. unfold BinarySceneExporter.vertex_block,
      BinarySceneExporter.index_block.
    repeat split; try assumption; lia.
Qed.

Lemma vertex_44_bytes_index_4_bytes_witness :
  Forall vertex_wf (Mesh.vertices Examples.sliver)
  /\ Forall is_u32 (Mesh.indices Examples.sliver)
  /\ exists vb ib,
      BinarySceneExporter.vertex_block Examples.sliver = Ok vb
      /\ BinarySceneExporter.index_block Examples.sliver = Ok ib
      /\ List.length vb = 88%nat /\ List.length ib = 12%nat.
Proof.
  assert (Hv : Forall vertex_wf (Mesh.vertices Examples.sliver)).
  { repeat constructor. }
  assert (Hi : Forall is_u32 (Mesh.indices Examples.sliver)).
  { repeat constructor; unfold is_u32; lia. }
  split; [exact Hv|]. split; [exact Hi|].
  destruct (vertex_44_bytes_index_4_bytes Examples.sliver Hv Hi)
    as (_ & _ & vb & ib & Evb & Eib & _ & _ & H).
  exists vb, ib. split; [exact Evb|]. split; [exact Eib|].
  apply H; reflexivity.
Defined.

(** ** Scene validation *)

Lemma indices_valid_true (n : Z) (meshes : list Mesh.t) :
  BaseLoader.indices_valid n meshes = true <->
  Forall (fun mesh => Mesh.material_index mesh < n) meshes.
Proof.
  induction meshes as [|mesh meshes IH]; simpl.
  - split; [constructor|reflexivity].
  - destruct (Z.leb_spec n (Mesh.material_index mesh)) as [Hle|Hlt].
    + split; [discriminate|]. intros H. inversion H; subst. lia.
    + rewrite IH. split.
      * intros H. now constructor.
      * intros H. now inversion H.
Qed.

Lemma indices_valid_false (n : Z) (meshes : list Mesh.t) :
  Exists (fun mesh => n <= Mesh.material_index mesh) meshes ->
  BaseLoader.indices_valid n meshes = false.
Proof.
  intros H. destruct (BaseLoader.indices_valid n meshes) eqn:E;
    [|reflexivity].
  apply indices_valid_true in E. apply Exists_exists in H.
  destruct H as (mesh & Hin & Hge).
  rewrite Forall_forall in E. specialize (E mesh Hin). lia.
Qed.

(** C8: [validate_scene] returns without raising and leaves the meshes as
    they are; when it returns [True] the materials list is not empty and every
    mesh has [material_index < len(materials)]; on a scene with meshes and no
    material it appends the one material named "Default" and checks the
    indices against the list so extended; and it returns [False] when a mesh
    of a scene with meshes has [material_index >= len(materials)]. *)
Theorem validate_scene_material_indices (scene : SceneData.t) :
  exists ok scene',
    BaseLoader.validate_scene scene = (Ok ok, scene')
    /\ SceneData.meshes scene' = SceneData.meshes scene
    /\ (ok = true ->
        SceneData.materials scene' <> []
        /\ Forall (fun mesh =>
                     Mesh.material_index mesh
                     < Z.of_nat (List.length (SceneData.materials scene')))
                  (SceneData.meshes scene'))
    /\ (SceneData.meshes scene <> [] -> SceneData.materials scene = [] ->
        SceneData.materials scene' = [Material.make (str_of "Default")]
        /\ ok = BaseLoader.indices_valid 1 (SceneData.meshes scene))
    /\ (SceneData.materials scene <> [] ->
        SceneData.materials scene' = SceneData.materials scene)
    /\ (Exists (fun mesh =>
                  Z.of_nat (List.length (SceneData.materials scene'))
                  <= Mesh.material_index mesh)
               (SceneData.meshes scene) ->
        ok = false).
Proof.
  destruct scene as [meshes materials textures].
  unfold BaseLoader.validate_scene; simpl.
  destruct meshes as [|mesh meshes].
  - exists false, (SceneData.mk [] materials textures). simpl.
    repeat split; try discriminate; try congruence.
  - destruct materials as [|mat materials]; simpl;
      eexists; eexists; (split; [reflexivity|]); simpl;
      (split; [reflexivity|]).
    + split; [|split; [|split]].
      * intros H. split; [discriminate|].
        now apply (indices_valid_true 1 (mesh :: meshes)) in H.
      * intros _ _. split; reflexivity.
      * intros H. now contradiction H.
      * intros H. now apply (indices_valid_false 1 (mesh :: meshes)).
    + split; [|split; [|split]].
      * intros H. split; [discriminate|].
        now apply (indices_valid_true _ (mesh :: meshes)) in H.
      * intros _ H. discriminate H.
      * reflexivity.
      * intros H. now apply (indices_valid_false _ (mesh :: meshes)).
Qed.

Lemma validate_scene_material_indices_witness :
  BaseLoader.validate_scene Examples.no_material_scene
  = (Ok true,
     SceneData.set_materials [Material.make (str_of "Default")]
       Examples.no_material_scene)
  /\ BaseLoader.validate_scene Examples.bad_index_scene
     = (Ok false, Examples.bad_index_scene)
  /\ exists ok scene',
      BaseLoader.validate_scene Examples.no_material_scene = (Ok ok, scene')
      /\ SceneData.materials scene' = [Material.make (str_of "Default")].
Proof.
  split; [reflexivity|]. split; [reflexivity|].
  destruct (validate_scene_material_indices Examples.no_material_scene)
    as (ok & scene' & E & _ & _ & H & _).
  exists ok, scene'. split; [exact E|].
  apply H; [discriminate|reflexivity].
Defined.

(** ** The importer: header, and the first record of a section *)

Lemma unpack_I_4 (bs : bytes) :
  List.length bs = 4%nat -> pystruct.unpack_I bs = Ok (pystruct.le_value bs).
Proof.
  intros H. unfold pystruct.unpack_I, pystruct.unpack_nI.
  rewrite H. change (Nat.eqb 4 (4 * 1)) with true.
  cbn [pystruct.items map rbind nth]. now rewrite firstn_all2 by lia.
Qed.

Lemma unpack_I_short (bs : bytes) :
  List.length bs <> 4%nat -> pystruct.unpack_I bs = Raise StructError.
Proof.
  intros H. unfold pystruct.unpack_I, pystruct.unpack_nI.
  change (4 * 1)%nat with 4%nat.
  apply Nat.eqb_neq in H. now rewrite H.
Qed.

(** Reading a count: 4 bytes, advanced cursor. *)
Lemma read_count (off : nat) (contents : bytes) :
  (off + 4 <= List.length contents)%nat ->
  bind (read 4) (fun b => lift (pystruct.unpack_I b)) (cursor_at off contents)
  = (Ok (field_at off contents), cursor_at (off + 4) contents).
Proof.
  intros H. unfold bind, read, lift, cursor_at, field_at. cbn [rest pos].
  change (Z.to_nat 4) with 4%nat.
  rewrite unpack_I_4 by (rewrite length_firstn, length_skipn; lia).
  rewrite skipn_skipn, length_firstn, length_skipn.
  rewrite (Nat.add_comm 4 off). do 2 f_equal. lia.
Qed.

Lemma bind_assoc {A B C} (c : M A) (k : A -> M B) (h : B -> M C) f :
  bind (bind c k) h f = bind c (fun a => bind (k a) h) f.
Proof. unfold bind. destruct (c f) as [[a|e] f']; reflexivity. Qed.

Lemma bind_ok {A B} (c : M A) (k : A -> M B) f a f' :
  c f = (Ok a, f') -> bind c k f = k a f'.
Proof. intros H. unfold bind. now rewrite H. Qed.

Lemma materials_loop_raises (n : nat) acc f :
  BinarySceneImporter.materials_loop (S n) acc f = (Raise missing_name, f).
Proof. reflexivity. Qed.

Lemma meshes_loop_raises (n : nat) acc f :
  BinarySceneImporter.meshes_loop (S n) acc f
  = (Raise missing_mesh_arguments, f).
Proof. reflexivity. Qed.

Lemma load_bad_magic (contents : bytes) :
  firstn 4 contents <> BinarySceneExporter.MAGIC ->
  BinarySceneImporter.load contents
  = (Raise (ValueError ("Invalid file format: "
                          ++ repr_bytes (firstn 4 contents))),
     {| rest := skipn 4 contents;
        pos := Z.of_nat (List.length (firstn 4 contents)) |}).
Proof.
  intros H. unfold BinarySceneImporter.load, BinarySceneImporter.load_from,
    bind, read, open_rb, raise. cbn [rest pos].
  change (Z.to_nat 4) with 4%nat. unfold bytes_eqb.
  destruct (list_eq_dec _ _ _) as [E|_]; [contradiction|]. reflexivity.
Qed.

Lemma load_after_magic (contents : bytes) :
  firstn 4 contents = BinarySceneExporter.MAGIC ->
  (8 <= List.length contents)%nat ->
  BinarySceneImporter.load contents
  = if negb (field_at 4 contents =? BinarySceneExporter.VERSION)
    then (Raise (ValueError ("Unsupported version: "
                               ++ str_int (field_at 4 contents))),
          cursor_at 8 contents)
    else BinarySceneImporter.read_data SceneData.init (cursor_at 8 contents).
Proof.
  intros Hm Hl.
  unfold BinarySceneImporter.load, BinarySceneImporter.load_from.
  unfold bind at 1. unfold read at 1, open_rb. cbn [rest pos].
  change (Z.to_nat 4) with 4%nat. rewrite Hm.
  unfold bytes_eqb.
  destruct (list_eq_dec _ _ _) as [_|N]; [|contradiction]. cbn [negb].
  assert (L4 : List.length (firstn 4 contents) = 4%nat)
    by (rewrite length_firstn; lia).
  rewrite <- Hm, L4. change (0 + Z.of_nat 4) with (Z.of_nat 4).
  change {| rest := skipn 4 contents; pos := Z.of_nat 4 |}
    with (cursor_at 4 contents).
  rewrite <- bind_assoc.
  erewrite bind_ok by (apply read_count; lia).
  destruct (negb _); reflexivity.
Qed.

Lemma load_short_header (contents : bytes) :
  firstn 4 contents = BinarySceneExporter.MAGIC ->
  (List.length contents < 8)%nat ->
  fst (BinarySceneImporter.load contents) = Raise StructError.
Proof.
  intros Hm Hl.
  unfold BinarySceneImporter.load, BinarySceneImporter.load_from.
  unfold bind at 1. unfold read at 1, open_rb. cbn [rest pos].
  change (Z.to_nat 4) with 4%nat. rewrite Hm.
  unfold bytes_eqb.
  destruct (list_eq_dec _ _ _) as [_|N]; [|contradiction]. cbn [negb].
  unfold bind, read, lift. cbn [rest pos]. change (Z.to_nat 4) with 4%nat.
  rewrite unpack_I_short; [reflexivity|].
  rewrite length_firstn, length_skipn. lia.
Qed.

Lemma read_materials_at (off : nat) (contents : bytes) :
  (off + 4 <= List.length contents)%nat ->
  BinarySceneImporter._read_materials (cursor_at off contents)
  = BinarySceneImporter.materials_loop (Z.to_nat (field_at off contents)) []
      (cursor_at (off + 4) contents).
Proof.
  intros H. unfold BinarySceneImporter._read_materials.
  rewrite <- bind_assoc. now erewrite bind_ok by (apply read_count; lia).
Qed.

Lemma read_textures_at (off : nat) (contents : bytes) :
  (off + 4 <= List.length contents)%nat ->
  BinarySceneImporter._read_textures (cursor_at off contents)
  = BinarySceneImporter.textures_loop (Z.to_nat (field_at off contents)) []
      (cursor_at (off + 4) contents).
Proof.
  intros H. unfold BinarySceneImporter._read_textures.
  rewrite <- bind_assoc. now erewrite bind_ok by (apply read_count; lia).
Qed.

Lemma read_meshes_at (off : nat) (contents : bytes) :
  (off + 4 <= List.length contents)%nat ->
  BinarySceneImporter._read_meshes (cursor_at off contents)
  = BinarySceneImporter.meshes_loop (Z.to_nat (field_at off contents)) []
      (cursor_at (off + 4) contents).
Proof.
  intros H. unfold BinarySceneImporter._read_meshes.
  rewrite <- bind_assoc. now erewrite bind_ok by (apply read_count; lia).
Qed.

(** With a materials count of at least 1, [Material()] raises before any
    byte of the first record is read. *)
Lemma load_first_material (contents : bytes) :
  valid_header contents ->
  (12 <= List.length contents)%nat ->
  1 <= field_at 8 contents ->
  BinarySceneImporter.load contents
  = (Raise missing_name, cursor_at 12 contents).
Proof.
  intros (Hm & Hl & Hv) H12 Hc.
  rewrite load_after_magic by assumption. rewrite Hv. cbn [Z.eqb negb].
  change (negb (BinarySceneExporter.VERSION =? BinarySceneExporter.VERSION))
    with false. cbv iota.
  unfold BinarySceneImporter.read_data. unfold bind at 1.
  rewrite read_materials_at by lia.
  destruct (Z.to_nat (field_at 8 contents)) as [|n] eqn:E; [lia|].
  now rewrite materials_loop_raises.
Qed.

(** With no material and no texture and a meshes count of at least 1,
    [Mesh()] raises before any byte of the first mesh is read. *)
Lemma load_first_mesh (contents : bytes) :
  valid_header contents ->
  (20 <= List.length contents)%nat ->
  field_at 8 contents = 0 ->
  field_at 12 contents = 0 ->
  1 <= field_at 16 contents ->
  BinarySceneImporter.load contents
  = (Raise missing_mesh_arguments, cursor_at 20 contents).
Proof.
  intros (Hm & Hl & Hv) H20 Hc Ht Hn.
  rewrite load_after_magic by assumption. rewrite Hv.
  change (negb (BinarySceneExporter.VERSION =? BinarySceneExporter.VERSION))
    with false. cbv iota.
  unfold BinarySceneImporter.read_data. unfold bind at 1.
  rewrite read_materials_at by lia. rewrite Hc.
  change (Z.to_nat 0) with 0%nat. cbn [BinarySceneImporter.materials_loop ret].
  unfold bind at 1.
  rewrite (read_textures_at 12) by lia. rewrite Ht.
  change (Z.to_nat 0) with 0%nat. cbn [BinarySceneImporter.textures_loop ret].
  unfold bind at 1.
  rewrite (read_meshes_at 16) by lia.
  destruct (Z.to_nat (field_at 16 contents)) as [|n] eqn:E; [lia|].
  now rewrite meshes_loop_raises.
Qed.

Lemma unpack_I_inv (bs : bytes) (n : Z) :
  pystruct.unpack_I bs = Ok n ->
  List.length bs = 4%nat /\ n = pystruct.le_value bs.
Proof.
  intros H. destruct (Nat.eq_dec (List.length bs) 4) as [E|N].
  - rewrite unpack_I_4 in H by assumption. split; congruence.
  - rewrite unpack_I_short in H by assumption. discriminate.
Qed.

Lemma read_materials_inv f materials f' :
  BinarySceneImporter._read_materials f = (Ok materials, f') ->
  materials = [] /\ pystruct.le_value (firstn 4 (rest f)) = 0.
Proof.
  unfold BinarySceneImporter._read_materials, bind, read, lift.
  cbn [rest pos]. change (Z.to_nat 4) with 4%nat.
  destruct (pystruct.unpack_I (firstn 4 (rest f))) as [count|e] eqn:E;
    [|discriminate].
  apply unpack_I_inv in E. destruct E as (_ & ->).
  pose proof (le_value_nonneg (firstn 4 (rest f))) as Hn.
  destruct (Z.to_nat _) as [|n] eqn:En.
  - cbn [BinarySceneImporter.materials_loop]. unfold ret. intros H.
    split; [congruence|lia].
  - rewrite materials_loop_raises. discriminate.
Qed.

Lemma read_meshes_inv f meshes f' :
  BinarySceneImporter._read_meshes f = (Ok meshes, f') ->
  meshes = [] /\ pystruct.le_value (firstn 4 (rest f)) = 0.
Proof.
  unfold BinarySceneImporter._read_meshes, bind, read, lift.
  cbn [rest pos]. change (Z.to_nat 4) with 4%nat.
  destruct (pystruct.unpack_I (firstn 4 (rest f))) as [count|e] eqn:E;
    [|discriminate].
  apply unpack_I_inv in E. destruct E as (_ & ->).
  pose proof (le_value_nonneg (firstn 4 (rest f))) as Hn.
  destruct (Z.to_nat _) as [|n] eqn:En.
  - cbn [BinarySceneImporter.meshes_loop]. unfold ret. intros H.
    split; [congruence|lia].
  - rewrite meshes_loop_raises. discriminate.
Qed.

(** A stream that [load] decodes has the header, a materials count of 0 and,
    after its textures, a meshes count of 0; the scene holds its textures
    only. *)
Lemma load_ok_inv (contents : bytes) scene f :
  BinarySceneImporter.load contents = (Ok scene, f) ->
  valid_header contents
  /\ field_at 8 contents = 0
  /\ exists textures f3,
      BinarySceneImporter._read_textures (cursor_at 12 contents)
      = (Ok textures, f3)
      /\ pystruct.le_value (firstn 4 (rest f3)) = 0
      /\ scene = SceneData.mk [] [] textures.
Proof.
  intros H.
  replace (cursor_at 12 contents)
    with {| rest := skipn 4 (skipn 8 contents); pos := 8 + 4 |}
    by (unfold cursor_at; now rewrite skipn_skipn).
  destruct (list_eq_dec Byte.byte_eq_dec (firstn 4 contents)
              BinarySceneExporter.MAGIC) as [Hm|Hm];
    [|rewrite load_bad_magic in H by assumption; discriminate].
  destruct (le_lt_dec 8 (List.length contents)) as [Hl|Hl];
    [|apply load_short_header in Hm; [rewrite H in Hm; discriminate|lia]].
  rewrite load_after_magic in H by assumption.
  destruct (Z.eqb_spec (field_at 4 contents) BinarySceneExporter.VERSION)
    as [Hv|Hv]; cbn [negb] in H; [|discriminate].
  split; [now repeat split|].
  unfold BinarySceneImporter.read_data in H. unfold bind at 1 in H.
  destruct (BinarySceneImporter._read_materials (cursor_at 8 contents))
    as [[materials|e] f1] eqn:E1; [|discriminate].
  pose proof E1 as E1'. apply read_materials_inv in E1'.
  destruct E1' as (-> & Hc). cbn [cursor_at rest] in Hc.
  split; [exact Hc|].
  assert (Hf1 : f1 = {| rest := skipn 4 (skipn 8 contents); pos := 8 + 4 |}).
  { revert E1. unfold BinarySceneImporter._read_materials, bind, read, lift.
    cbn [cursor_at rest pos]. change (Z.to_nat 4) with 4%nat.
    destruct (pystruct.unpack_I _) as [count|e] eqn:E; [|discriminate].
    apply unpack_I_inv in E. destruct E as (L & ->). rewrite Hc, L.
    change (Z.to_nat 0) with 0%nat.
    cbn [BinarySceneImporter.materials_loop]. unfold ret.
    change (Z.of_nat 8) with 8. change (Z.of_nat 4) with 4. congruence. }
  subst f1. unfold bind at 1 in H.
  destruct (BinarySceneImporter._read_textures _)
    as [[textures|e] f3] eqn:E2; [|discriminate].
  unfold bind at 1 in H.
  destruct (BinarySceneImporter._read_meshes f3)
    as [[meshes|e] f4] eqn:E3; [|discriminate].
  apply read_meshes_inv in E3. destruct E3 as (-> & Hn).
  exists textures, f3. split; [reflexivity|]. split; [exact Hn|].
  unfold ret in H. injection H as H _. now subst scene.
Qed.

Lemma prefix_append (p m : string) : String.prefix p (p ++ m) = true.
Proof.
  induction p as [|c p IH]; simpl; [now destruct m|].
  destruct (ascii_dec c c) as [_|N]; [exact IH|contradiction].
Qed.

(** C5: a stream whose first 4 bytes are not "ACGS" (a shorter stream
    included) makes [load] raise the bad-magic [ValueError] with at most 4
    bytes read; a stream with the magic and a version field other than 1 makes
    it raise the unsupported-version [ValueError] with the 8 bytes of the
    header read and nothing after them; each of the two errors is recognised
    as its own kind and not as the other. *)
Theorem load_rejects_magic_and_version (contents : bytes) :
  (firstn 4 contents <> BinarySceneExporter.MAGIC ->
   exists e f,
     BinarySceneImporter.load contents = (Raise e, f)
     /\ e = ValueError ("Invalid file format: "
                          ++ repr_bytes (firstn 4 contents))
     /\ is_bad_magic e = true /\ is_unsupported_version e = false
     /\ pos f <= 4)
  /\ (firstn 4 contents = BinarySceneExporter.MAGIC ->
      (8 <= List.length contents)%nat ->
      field_at 4 contents <> BinarySceneExporter.VERSION ->
      exists e,
        BinarySceneImporter.load contents = (Raise e, cursor_at 8 contents)
        /\ e = ValueError ("Unsupported version: "
                             ++ str_int (field_at 4 contents))
        /\ is_unsupported_version e = true /\ is_bad_magic e = false).
Proof.
  split.
  - intros H. eexists; eexists. split; [now apply load_bad_magic|].
    split; [reflexivity|]. split; [apply prefix_append|].
    split; [reflexivity|]. cbn [pos]. rewrite length_firstn. lia.
  - intros Hm Hl Hv. eexists. rewrite load_after_magic by assumption.
    apply Z.eqb_neq in Hv. rewrite Hv. cbn [negb].
    do 2 (split; [reflexivity|]). split; [apply prefix_append|reflexivity].
Qed.

Lemma load_rejects_magic_and_version_witness :
  (exists e f,
      BinarySceneImporter.load (bytes_of "ACGX") = (Raise e, f)
      /\ is_bad_magic e = true /\ is_unsupported_version e = false)
  /\ (exists e f,
         BinarySceneImporter.load
           (BinarySceneExporter.MAGIC ++ pystruct.le_bytes 4 999)
         = (Raise e, f)
         /\ is_unsupported_version e = true /\ is_bad_magic e = false).
Proof.
  split.
  - destruct (proj1 (load_rejects_magic_and_version (bytes_of "ACGX")))
      as (e & f & E & _ & B & U & _); [discriminate|].
    now exists e, f.
  - destruct (proj2 (load_rejects_magic_and_version
                       (BinarySceneExporter.MAGIC ++ pystruct.le_bytes 4 999)))
      as (e & E & _ & U & B); [reflexivity|simpl; lia|discriminate|].
    now exists e, (cursor_at 8 (BinarySceneExporter.MAGIC
                                  ++ pystruct.le_bytes 4 999)).
Defined.

(** C10: on a stream with the header and a materials count of at least 1,
    [load] raises the [TypeError] of [Material()] with the cursor right after
    the count; with counts of 0 materials and 0 textures and a meshes count
    of at least 1 it raises the [TypeError] of [Mesh()] with the cursor right
    after that count; and a stream that [load] decodes has a materials count
    of 0 and, after its textures, a meshes count of 0. *)
Theorem load_decodes_only_empty_sections (contents : bytes) :
  (valid_header contents -> (12 <= List.length contents)%nat ->
   1 <= field_at 8 contents ->
   BinarySceneImporter.load contents
   = (Raise missing_name, cursor_at 12 contents))
  /\ (valid_header contents -> (20 <= List.length contents)%nat ->
      field_at 8 contents = 0 -> field_at 12 contents = 0 ->
      1 <= field_at 16 contents ->
      BinarySceneImporter.load contents
      = (Raise missing_mesh_arguments, cursor_at 20 contents))
  /\ (forall scene f,
         BinarySceneImporter.load contents = (Ok scene, f) ->
         valid_header contents
         /\ field_at 8 contents = 0
         /\ exists textures f3,
             BinarySceneImporter._read_textures (cursor_at 12 contents)
             = (Ok textures, f3)
             /\ pystruct.le_value (firstn 4 (rest f3)) = 0
             /\ scene = SceneData.mk [] [] textures).
Proof.
  split; [apply load_first_material|].
  split; [apply load_first_mesh|].
  intros scene f. apply load_ok_inv.
Qed.

Lemma load_decodes_only_empty_sections_witness :
  BinarySceneImporter.load Examples.header_and_count_1
  = (Raise missing_name, cursor_at 12 Examples.header_and_count_1)
  /\ BinarySceneImporter.load Examples.header_and_mesh_count_1
     = (Raise missing_mesh_arguments,
        cursor_at 20 Examples.header_and_mesh_count_1)
  /\ BinarySceneImporter.load Examples.empty_stream
     = (Ok SceneData.init, cursor_at 20 Examples.empty_stream)
  /\ field_at 8 Examples.empty_stream = 0.
Proof.
  split; [|split; [|split]].
  - apply (proj1 (load_decodes_only_empty_sections
                    Examples.header_and_count_1)).
    + repeat split. simpl. lia.
    + simpl. lia.
    + vm_compute. discriminate.
  - apply (proj1 (proj2 (load_decodes_only_empty_sections
                           Examples.header_and_mesh_count_1))).
    + repeat split. simpl. lia.
    + simpl. lia.
    + reflexivity.
    + reflexivity.
    + vm_compute. discriminate.
  - reflexivity.
  - apply (proj2 (proj2 (load_decodes_only_empty_sections
                           Examples.empty_stream))
             SceneData.init (cursor_at 20 Examples.empty_stream)).
    reflexivity.
Defined.

(** C6: on a valid header followed by a materials count of 1 and no further
    byte, [load] raises the [TypeError] of [Material()], not an error of the
    missing bytes: the cursor is at offset 12, the end of the stream, and
    nothing was read after the count.  (The missing bytes are what stops the
    loop body, were it run there, and what stops [load] on the header
    alone: [struct.error].) *)
Theorem load_count_1_then_end :
  BinarySceneImporter.load Examples.header_and_count_1
  = (Raise missing_name, {| rest := []; pos := 12 |})
  /\ BinarySceneImporter.read_material_fields (Material.make [])
       {| rest := []; pos := 12 |}
     = (Raise StructError, {| rest := []; pos := 12 |})
  /\ BinarySceneImporter.load Examples.header
     = (Raise StructError, {| rest := []; pos := 8 |}).
Proof. repeat split. Qed.

(** ** Export followed by load *)

Lemma pack_I_inv (n : Z) (bs : bytes) :
  pystruct.pack_I n = Ok bs -> is_u32 n /\ bs = pystruct.le_bytes 4 n.
Proof.
  unfold pystruct.pack_I, is_u32.
  destruct (Z.leb_spec 0 n); destruct (Z.ltb_spec n (2 ^ 32)); simpl;
    try discriminate.
  intros Hp. split; [lia|congruence].
Qed.

(** The first 12 bytes of an exported file. *)
Lemma export_starts (scene : SceneData.t) (bs : bytes) :
  BinarySceneExporter.export scene = Ok bs ->
  is_u32 (Z.of_nat (List.length (SceneData.materials scene)))
  /\ exists tail,
      bs = BinarySceneExporter.MAGIC
             ++ pystruct.le_bytes 4 BinarySceneExporter.VERSION
             ++ pystruct.le_bytes 4
                  (Z.of_nat (List.length (SceneData.materials scene)))
             ++ tail.
Proof.
  unfold BinarySceneExporter.export, BinarySceneExporter._write_header,
    BinarySceneExporter._write_materials.
  change (pystruct.pack_I BinarySceneExporter.VERSION)
    with (Ok (pystruct.le_bytes 4 BinarySceneExporter.VERSION)).
  cbn [rbind].
  destruct (pystruct.pack_I (Z.of_nat _)) as [count|e] eqn:Ec;
    [|discriminate].
  apply pack_I_inv in Ec. destruct Ec as (Hu & ->). cbn [rbind].
  destruct (write_each _ _) as [records|e]; [|discriminate]. cbn [rbind].
  destruct (BinarySceneExporter._write_textures _) as [textures|e];
    [|discriminate]. cbn [rbind].
  destruct (BinarySceneExporter._write_meshes _) as [meshes|e];
    [|discriminate]. cbn [rbind].
  intros H. injection H as <-. split; [exact Hu|].
  exists (records ++ textures ++ meshes).
  reflexivity.
Qed.

(** C1: the file exported for a scene with at least one material is not
    decoded: [load] raises the [TypeError] of [Material()] right after the
    materials count, before it reads a material, a texture or a mesh. *)
Theorem export_then_load_raises (scene : SceneData.t) (bs : bytes) :
  SceneData.materials scene <> [] ->
  BinarySceneExporter.export scene = Ok bs ->
  BinarySceneImporter.load bs = (Raise missing_name, cursor_at 12 bs).
Proof.
  intros Hne He. apply export_starts in He.
  destruct He as (Hu & tail & ->).
  set (n := Z.of_nat (List.length (SceneData.materials scene))) in *.
  assert (Hf : field_at 8 (BinarySceneExporter.MAGIC
                             ++ pystruct.le_bytes 4 BinarySceneExporter.VERSION
                             ++ pystruct.le_bytes 4 n ++ tail) = n).
  { change (field_at 8 _) with (pystruct.le_value (pystruct.le_bytes 4 n)).
    apply le_value_le_bytes. exact Hu. }
  apply load_first_material.
  - split; [reflexivity|]. split; [|reflexivity].
    rewrite !length_app, !length_le_bytes. simpl. lia.
  - rewrite !length_app, !length_le_bytes. simpl. lia.
  - rewrite Hf. subst n. destruct (SceneData.materials scene);
      [contradiction|]. simpl. lia.
Qed.

Lemma export_then_load_raises_witness :
  SceneData.materials Examples.glass_scene <> []
  /\ exists bs,
      BinarySceneExporter.export Examples.glass_scene = Ok bs
      /\ BinarySceneImporter.load bs = (Raise missing_name, cursor_at 12 bs).
Proof.
  split; [discriminate|].
  destruct (BinarySceneExporter.export Examples.glass_scene) as [bs|e] eqn:E;
    [|vm_compute in E; discriminate].
  exists bs. split; [reflexivity|].
  apply (export_then_load_raises Examples.glass_scene bs);
    [discriminate|exact E].
Defined.

(** The scene without material, texture and mesh is the one that comes
    back. *)
Lemma export_then_load_empty :
  BinarySceneExporter.export SceneData.init = Ok Examples.empty_stream
  /\ BinarySceneImporter.load Examples.empty_stream
     = (Ok SceneData.init, cursor_at 20 Examples.empty_stream).
Proof. split; reflexivity. Qed.

(** ** The material record: flags and extension block *)

(** One step of a run in [M]: a read, or a conversion that succeeded. *)
Ltac io_step H :=
  match type of H with
  | bind (read _) _ _ = _ =>
      unfold bind at 1 in H; unfold read at 1 in H; cbn [rest pos] in H
  | bind (lift ?r) _ _ = _ =>
      unfold bind at 1 in H; unfold lift at 1 in H;
      destruct r; [|discriminate H]
  end.

(** What the body of the materials loop consumes does not depend on the
    flags it reads: the name length, the name, 56 bytes of parameters and
    texture indices, the 4 bytes of the flags, and nothing after them. *)
Lemma read_material_fields_consumes (mat mat' : Material.t) (f f' : BinaryIO) :
  BinarySceneImporter.read_material_fields mat f = (Ok mat', f') ->
  rest f'
  = skipn 60 (skipn (Z.to_nat (pystruct.le_value (firstn 4 (rest f))))
                (skipn 4 (rest f))).
Proof.
  unfold BinarySceneImporter.read_material_fields. intros H.
  io_step H.
  unfold bind at 1 in H; unfold lift at 1 in H.
  destruct (pystruct.unpack_I _) as [name_len|e] eqn:E; [|discriminate H].
  apply unpack_I_inv in E. destruct E as (_ & ->).
  repeat io_step H.
  unfold ret in H. apply (f_equal snd) in H. cbn [snd] in H. subst f'.
  cbn [rest]. rewrite !skipn_skipn.
  change (Z.to_nat 4) with 4%nat. change (Z.to_nat 12) with 12%nat.
  change (Z.to_nat 16) with 16%nat.
  generalize (Z.to_nat (pystruct.le_value (firstn 4 (rest f)))).
  intros n. apply (f_equal (fun k => skipn k (rest f))). lia.
Qed.

(** C3: for the record of a material with a Transmission layer of strength
    0.5 (flags 1, followed by the two floats of the extension block): [load]
    on the exported file raises at offset 12, in front of the record; and
    the body of the materials loop, run on the record, returns with the
    cursor right after the flags, the 8 bytes of the extension block
    unread. *)
Theorem importer_leaves_transmission_block :
  BinarySceneExporter.export (SceneData.mk [] [Examples.glass f0_5] [])
  = Ok Examples.glass_stream
  /\ BinarySceneExporter.material_flags (Examples.glass f0_5) = 1
  /\ BinarySceneImporter.load Examples.glass_stream
     = (Raise missing_name, cursor_at 12 Examples.glass_stream)
  /\ skipn 69 Examples.glass_record = Examples.glass_extension
  /\ exists mat,
      BinarySceneImporter.read_material_fields (Material.make [])
        (cursor_at 12 Examples.glass_stream)
      = (Ok mat,
         {| rest := Examples.glass_extension ++ Examples.no_textures_no_meshes;
            pos := 12 + 69 |}).
Proof.
  split; [reflexivity|]. split; [reflexivity|]. split; [reflexivity|].
  split; [reflexivity|]. eexists. vm_compute. reflexivity.
Qed.

(** [get_layer_flags] is the mask of the active layers under the assignment
    Clearcoat 0, Transmission 1, Sheen 2, Subsurface 3, Anisotropy 4,
    Iridescence 5, Volume 6. *)
Lemma get_layer_flags_mask (m : Material.t) :
  Material.get_layer_flags m
  = bit (Material.and_gt0 (Material.clearcoat m) ClearcoatLayer.strength)
    + 2 * bit (Material.and_gt0 (Material.transmission m)
                 TransmissionLayer.strength)
    + 4 * bit (Material.and_gt0 (Material.sheen m) SheenLayer.strength)
    + 8 * bit (Material.and_gt0 (Material.subsurface m)
                 SubsurfaceLayer.strength)
    + 16 * bit (Material.and_gt0 (Material.anisotropy m)
                  AnisotropyLayer.strength)
    + 32 * bit (Material.and_gt0 (Material.iridescence m)
                  IridescenceLayer.strength)
    + 64 * bit (Material.and_gt0 (Material.volume m) VolumeLayer.density).
Proof.
  unfold Material.get_layer_flags.
  destruct (Material.and_gt0 (Material.clearcoat m) _);
    destruct (Material.and_gt0 (Material.transmission m) _);
    destruct (Material.and_gt0 (Material.sheen m) _);
    destruct (Material.and_gt0 (Material.subsurface m) _);
    destruct (Material.and_gt0 (Material.anisotropy m) _);
    destruct (Material.and_gt0 (Material.iridescence m) _);
    destruct (Material.and_gt0 (Material.volume m) _);
    reflexivity.
Qed.

Lemma get_layer_flags_bits (m : Material.t) :
  let flags := Material.get_layer_flags m in
  Z.testbit flags 0
  = Material.and_gt0 (Material.clearcoat m) ClearcoatLayer.strength
  /\ Z.testbit flags 1
     = Material.and_gt0 (Material.transmission m) TransmissionLayer.strength
  /\ Z.testbit flags 2
     = Material.and_gt0 (Material.sheen m) SheenLayer.strength
  /\ Z.testbit flags 3
     = Material.and_gt0 (Material.subsurface m) SubsurfaceLayer.strength
  /\ Z.testbit flags 4
     = Material.and_gt0 (Material.anisotropy m) AnisotropyLayer.strength
  /\ Z.testbit flags 5
     = Material.and_gt0 (Material.iridescence m) IridescenceLayer.strength
  /\ Z.testbit flags 6
     = Material.and_gt0 (Material.volume m) VolumeLayer.density
  /\ 0 <= flags < 128.
Proof.
  cbv zeta. rewrite get_layer_flags_mask.
  destruct (Material.and_gt0 (Material.clearcoat m) _);
    destruct (Material.and_gt0 (Material.transmission m) _);
    destruct (Material.and_gt0 (Material.sheen m) _);
    destruct (Material.and_gt0 (Material.subsurface m) _);
    destruct (Material.and_gt0 (Material.anisotropy m) _);
    destruct (Material.and_gt0 (Material.iridescence m) _);
    destruct (Material.and_gt0 (Material.volume m) _);
    cbn [bit]; repeat split; (reflexivity || lia).
Qed.

Lemma get_layer_flags_transmission_zero_half :
  Z.testbit (Material.get_layer_flags (Examples.glass f0_0)) 1 = false
  /\ Z.testbit (Material.get_layer_flags (Examples.glass f0_5)) 1 = true.
Proof. split; reflexivity. Qed.

Lemma get_layer_flags_transmission_bit (m : Material.t) :
  Z.testbit (Material.get_layer_flags m) 1
  = Material.and_gt0 (Material.transmission m) TransmissionLayer.strength.
Proof.
  rewrite get_layer_flags_mask.
  destruct (Material.and_gt0 (Material.clearcoat m) _);
    destruct (Material.and_gt0 (Material.transmission m) _);
    destruct (Material.and_gt0 (Material.sheen m) _);
    destruct (Material.and_gt0 (Material.subsurface m) _);
    destruct (Material.and_gt0 (Material.anisotropy m) _);
    destruct (Material.and_gt0 (Material.iridescence m) _);
    destruct (Material.and_gt0 (Material.volume m) _);
    reflexivity.
Qed.

(** The flags the exporter writes: Transmission 0x01, Clearcoat 0x02, Sheen
    0x04, each for a layer that is present. *)
Lemma material_flags_mask (m : Material.t) :
  BinarySceneExporter.material_flags m
  = bit (Material.truthy (Material.transmission m))
    + 2 * bit (Material.truthy (Material.clearcoat m))
    + 4 * bit (Material.truthy (Material.sheen m)).
Proof.
  unfold BinarySceneExporter.material_flags.
  destruct (Material.truthy (Material.transmission m));
    destruct (Material.truthy (Material.clearcoat m));
    destruct (Material.truthy (Material.sheen m)); reflexivity.
Qed.

Lemma material_flags_u32 (m : Material.t) :
  is_u32 (BinarySceneExporter.material_flags m).
Proof.
  rewrite material_flags_mask. unfold is_u32, bit.
  destruct (Material.truthy (Material.transmission m));
    destruct (Material.truthy (Material.clearcoat m));
    destruct (Material.truthy (Material.sheen m)); lia.
Qed.

(** C2: for a material whose Transmission layer has strength 0.5,
    [get_layer_flags] is 2 (bit 1 set), but the flags field of the record the
    exporter writes is 1: bit 0 set and bit 1 clear.  For a material whose
    only layer is a Clearcoat of strength 0.0, [get_layer_flags] is 0, but
    the flags field written is 2: bit 1 set. *)
Theorem exporter_flags_at_transmission_half :
  Material.get_layer_flags (Examples.glass f0_5) = 2
  /\ BinarySceneExporter.material_flags (Examples.glass f0_5) = 1
  /\ Z.testbit (BinarySceneExporter.material_flags (Examples.glass f0_5)) 1
     = false
  /\ (exists base,
         BinarySceneExporter.material_base (Examples.glass f0_5) = Ok base
         /\ BinarySceneExporter.write_material (Examples.glass f0_5)
            = Ok (base ++ pystruct.le_bytes 4 1 ++ Examples.glass_extension))
  /\ Material.get_layer_flags Examples.paint = 0
  /\ BinarySceneExporter.material_flags Examples.paint = 2
  /\ Z.testbit (BinarySceneExporter.material_flags Examples.paint) 1 = true.
Proof.
  split; [reflexivity|]. split; [reflexivity|]. split; [reflexivity|].
  split; [eexists; split; reflexivity|].
  split; [reflexivity|]. split; reflexivity.
Qed.

(** What [material_extension] writes: nothing without a Transmission
    layer, and for a layer that is present the layer's strength and the
    material's ior, 8 bytes, whatever the strength. *)
Lemma material_extension_written (mat : Material.t) :
  (Material.transmission mat = None ->
   BinarySceneExporter.material_extension mat = Ok [])
  /\ (forall t,
         Material.transmission mat = Some t ->
         BinarySceneExporter.material_extension mat
         = Ok (packed_single (TransmissionLayer.strength t)
                 ++ packed_single (Material.ior mat))
         /\ List.length (packed_single (TransmissionLayer.strength t)
                           ++ packed_single (Material.ior mat)) = 8%nat).
Proof.
  unfold BinarySceneExporter.material_extension. split.
  - intros H. now rewrite H.
  - intros t Ht. rewrite Ht. split.
    + unfold pystruct.pack_nf. cbn [List.length Nat.eqb write_each].
      rewrite !pack_f_written. cbn [rbind]. now rewrite app_nil_r.
    + now rewrite length_app, !length_packed_single.
Qed.

(** C4: the exporter writes the extension block for a Transmission layer
    that is present, not for one that is active.  For the material whose
    only layer is a Transmission layer of strength 0.0 the layer is not
    active and [get_layer_flags] is 0; the exporter writes the flags 1 and,
    right after them, the 8 bytes of the block: strength 0.0, ior 1.5. *)
Theorem extension_written_at_strength_zero :
  Material.and_gt0 (Material.transmission (Examples.glass f0_0))
    TransmissionLayer.strength = false
  /\ Material.get_layer_flags (Examples.glass f0_0) = 0
  /\ BinarySceneExporter.material_flags (Examples.glass f0_0) = 1
  /\ BinarySceneExporter.material_extension (Examples.glass f0_0)
     = Ok (packed_single f0_0 ++ packed_single f1_5)
  /\ List.length (packed_single f0_0 ++ packed_single f1_5) = 8%nat
  /\ (exists base,
         BinarySceneExporter.material_base (Examples.glass f0_0) = Ok base
         /\ BinarySceneExporter.write_material (Examples.glass f0_0)
            = Ok (base ++ pystruct.le_bytes 4 1
                    ++ packed_single f0_0 ++ packed_single f1_5)).
Proof.
  split; [reflexivity|]. split; [reflexivity|]. split; [reflexivity|].
  split; [reflexivity|]. split; [reflexivity|].
  eexists. split; reflexivity.
Qed.

Lemma material_extension_present (mat : Material.t) (t : TransmissionLayer.t) :
  Material.transmission mat = Some t ->
  fits_single (TransmissionLayer.strength t) = true ->
  fits_single (Material.ior mat) = true ->
  BinarySceneExporter.material_extension mat
  = Ok (packed_single (TransmissionLayer.strength t)
          ++ packed_single (Material.ior mat)).
Proof.
  intros Ht Hs Hi. unfold BinarySceneExporter.material_extension.
  rewrite Ht. unfold pystruct.pack_nf.
  cbn [List.length Nat.eqb write_each].
  rewrite (pack_f_ok _ Hs), (pack_f_ok _ Hi). cbn [rbind].
  now rewrite app_nil_r.
Qed.

(** A material record is its base fields, the flags and what
    [material_extension] writes, in this order. *)
Lemma write_material_layout (mat : Material.t) :
  BinarySceneExporter.write_material mat
  = rbind (BinarySceneExporter.material_base mat)
      (fun base =>
         rbind (BinarySceneExporter.material_extension mat)
           (fun ext =>
              Ok (base
                    ++ pystruct.le_bytes 4
                         (BinarySceneExporter.material_flags mat)
                    ++ ext))).
Proof.
  unfold BinarySceneExporter.write_material.
  now rewrite (pack_I_ok _ (material_flags_u32 mat)).
Qed.

(** ** The exporter on the scenes of the data model *)

Lemma utf8_encode_char_ok (cp : Z) :
  is_scalar cp ->
  exists b, utf8_encode_char cp = Ok b /\ List.length b = utf8_width cp.
Proof.
  intros ((H0 & H1) & Hs). unfold utf8_encode_char, utf8_width.
  destruct (Z.ltb_spec cp 0); [lia|].
  destruct (Z.ltb_spec cp 0x80); [eexists; split; reflexivity|].
  destruct (Z.ltb_spec cp 0x800); [eexists; split; reflexivity|].
  destruct (Z.leb_spec 0xD800 cp); destruct (Z.leb_spec cp 0xDFFF);
    cbn [andb]; try lia;
    (destruct (Z.ltb_spec cp 0x10000); [eexists; split; reflexivity|]);
    (destruct (Z.leb_spec cp 0x10FFFF); [eexists; split; reflexivity|lia]).
Qed.

Lemma utf8_encode_ok (s : pystr) :
  Forall is_scalar s ->
  exists bs, utf8_encode s = Ok bs /\ List.length bs = utf8_size s.
Proof.
  induction 1 as [|cp s Hcp _ (bs & Hbs & Hl)].
  - exists []. split; reflexivity.
  - destruct (utf8_encode_char_ok cp Hcp) as (b & Hb & Hw).
    exists (b ++ bs). cbn [utf8_encode]. rewrite Hb, Hbs. cbn [rbind].
    split; [reflexivity|]. rewrite length_app, Hw, Hl. reflexivity.
Qed.

Lemma count_written {A} (xs : list A) :
  count_wf xs ->
  pystruct.pack_I (Z.of_nat (List.length xs))
  = Ok (pystruct.le_bytes 4 (Z.of_nat (List.length xs))).
Proof. intros H. apply pack_I_ok. unfold count_wf in H. lia. Qed.

Lemma text_written (s : pystr) :
  text_wf s ->
  exists bs,
    utf8_encode s = Ok bs
    /\ pystruct.pack_I (Z.of_nat (List.length bs))
       = Ok (pystruct.le_bytes 4 (Z.of_nat (List.length bs))).
Proof.
  intros (Hs & Hl). destruct (utf8_encode_ok s Hs) as (bs & Hbs & Hlen).
  exists bs. split; [exact Hbs|]. apply pack_I_ok. rewrite Hlen. lia.
Qed.

Lemma to_texture_index_i32 (slot : option Z) :
  slot_wf slot ->
  - 2 ^ 31 <= BinarySceneExporter.to_texture_index slot < 2 ^ 31.
Proof.
  destruct slot as [v|]; simpl; [|lia].
  intros H. destruct (Z.eqb_spec v (-1)); lia.
Qed.

Lemma write_material_ok (mat : Material.t) :
  material_wf mat -> exists bs, BinarySceneExporter.write_material mat = Ok bs.
Proof.
  intros (Hn & Hb & He & Fm & Fr & Fi & Fo & Ht & S1 & S2 & S3 & S4).
  rewrite write_material_layout. unfold BinarySceneExporter.material_base.
  destruct (text_written _ Hn) as (nb & Enb & Elen).
  destruct (pack_nf_ok 3 _ Hb) as (b & Eb & _).
  destruct (pack_nf_ok 3 _ He) as (e & Ee & _).
  rewrite Enb. cbn [rbind]. rewrite Elen. cbn [rbind].
  rewrite Eb. cbn [rbind]. rewrite Ee. cbn [rbind].
  rewrite (pack_f_ok _ Fm), (pack_f_ok _ Fr), (pack_f_ok _ Fi),
    (pack_f_ok _ Fo). cbn [rbind].
  unfold pystruct.pack_ni. cbn [List.length Nat.eqb write_each].
  rewrite !pack_i_ok by now apply to_texture_index_i32.
  cbn [rbind].
  destruct (Material.transmission mat) as [t|] eqn:Et.
  - rewrite (material_extension_present mat t Et Ht Fi). cbn [rbind].
    eexists. reflexivity.
  - unfold BinarySceneExporter.material_extension. rewrite Et. cbn [rbind].
    eexists. reflexivity.
Qed.

Lemma write_texture_ok (texture : texture_entry) :
  texture_wf texture ->
  exists bs, BinarySceneExporter.write_texture texture = Ok bs.
Proof.
  intros H. unfold BinarySceneExporter.write_texture.
  destruct texture as [t|s]; cbn [texture_wf] in H;
    destruct (text_written _ H) as (pb & Epb & Elen);
    rewrite Epb; cbn [rbind]; rewrite Elen; cbn [rbind];
    eexists; reflexivity.
Qed.

Lemma write_mesh_ok (mesh : Mesh.t) :
  mesh_wf mesh -> exists bs, BinarySceneExporter.write_mesh mesh = Ok bs.
Proof.
  intros (Hn & Hm & Hv & Cv & Hi & Ci).
  unfold BinarySceneExporter.write_mesh.
  destruct (text_written _ Hn) as (nb & Enb & Elen).
  rewrite Enb. cbn [rbind]. rewrite Elen. cbn [rbind].
  rewrite (pack_I_ok _ Hm). cbn [rbind].
  rewrite (count_written _ Cv). cbn [rbind].
  assert (Hv' : Forall (fun v => exists bs,
                          BinarySceneExporter.write_vertex v = Ok bs
                          /\ List.length bs = 44%nat) (Mesh.vertices mesh)).
  { eapply Forall_impl; [|exact Hv]. intros v. apply write_vertex_44. }
  destruct (write_each_length _ 44 _ Hv') as (vb & Evb & _).
  unfold BinarySceneExporter.vertex_block. rewrite Evb. cbn [rbind].
  rewrite (count_written _ Ci). cbn [rbind].
  destruct (pack_nI_ok _ Hi) as (ib & Eib & _).
  unfold BinarySceneExporter.index_block. rewrite Eib. cbn [rbind].
  eexists. reflexivity.
Qed.

Lemma section_written {A} (body : A -> result bytes) (xs : list A)
      (wf : A -> Prop) :
  (forall x, wf x -> exists bs, body x = Ok bs) ->
  Forall wf xs -> count_wf xs ->
  exists bs,
    rbind (pystruct.pack_I (Z.of_nat (List.length xs)))
      (fun count => rbind (write_each body xs)
                      (fun records => Ok (count ++ records)))
    = Ok bs.
Proof.
  intros Hbody Hxs Hc. rewrite (count_written _ Hc). cbn [rbind].
  destruct (write_each_ok body xs) as (bs & Ebs).
  { eapply Forall_impl; [|exact Hxs]. exact Hbody. }
  rewrite Ebs. cbn [rbind]. eexists. reflexivity.
Qed.

(** C7: on a scene whose fields have the types, arities and widths of the
    data model, [export] returns, whatever its materials, textures and meshes
    are; and the file written is a function of the scene: two exports of one
    scene write the same bytes. *)
Theorem export_total_and_deterministic (scene : SceneData.t) :
  scene_wf scene ->
  exists bs,
    BinarySceneExporter.export scene = Ok bs
    /\ forall bs', BinarySceneExporter.export scene = Ok bs' -> bs' = bs.
Proof.
  intros (Hm & Cm & Ht & Ct & Hs & Cs).
  destruct (section_written BinarySceneExporter.write_material _ material_wf
              write_material_ok Hm Cm) as (mb & Emb).
  destruct (section_written BinarySceneExporter.write_texture _ texture_wf
              write_texture_ok Ht Ct) as (tb & Etb).
  destruct (section_written BinarySceneExporter.write_mesh _ mesh_wf
              write_mesh_ok Hs Cs) as (sb & Esb).
  assert (E : BinarySceneExporter.export scene
              = Ok ((BinarySceneExporter.MAGIC ++ pystruct.le_bytes 4 1)
                      ++ mb ++ tb ++ sb)).
  { unfold BinarySceneExporter.export, BinarySceneExporter._write_header.
    change (pystruct.pack_I BinarySceneExporter.VERSION)
      with (Ok (pystruct.le_bytes 4 1)). cbn [rbind].
    unfold BinarySceneExporter._write_materials,
      BinarySceneExporter._write_textures, BinarySceneExporter._write_meshes.
    rewrite Emb. cbn [rbind]. rewrite Etb. cbn [rbind].
    rewrite Esb. cbn [rbind]. reflexivity. }
  eexists. split; [exact E|]. intros bs' E'. congruence.
Qed.

Lemma export_total_and_deterministic_witness :
  scene_wf Examples.glass_scene
  /\ exists bs, BinarySceneExporter.export Examples.glass_scene = Ok bs.
Proof.
  assert (W : scene_wf Examples.glass_scene).
  { unfold scene_wf, Examples.glass_scene. cbn.
    repeat split;
      repeat (first [ constructor | split | lia | intros (? & ?); lia
                    | unfold is_u32, count_wf; cbn; lia ]). }
  split; [exact W|].
  destruct (export_total_and_deterministic Examples.glass_scene W)
    as (bs & E & _).
  exists bs. exact E.
Defined.

(** * Further properties *)

(** ** Scene validation, as a whole *)

(** X1: [validate_scene] returns [True] exactly on the scenes that have a
    mesh and whose meshes all have a [material_index] below the number of
    materials, counted as 1 when the list is empty (the default is added
    then); nothing is asked of a negative index. *)
Theorem validate_scene_true_iff (scene : SceneData.t) :
  fst (BaseLoader.validate_scene scene) = Ok true
  <-> SceneData.meshes scene <> []
      /\ Forall (fun mesh => Mesh.material_index mesh < checked_materials scene)
                (SceneData.meshes scene).
Proof.
  destruct scene as [meshes materials textures].
  unfold BaseLoader.validate_scene, checked_materials.
  cbn [SceneData.meshes SceneData.materials].
  destruct meshes as [|mesh meshes].
  - cbn [fst]. split; [discriminate|]. intros (H & _). now contradiction H.
  - destruct materials as [|mat materials].
    + cbn [Material.init SceneData.set_materials SceneData.materials
             SceneData.meshes app List.length fst].
      change (Z.max 1 (Z.of_nat 0)) with 1. change (Z.of_nat 1) with 1.
      split.
      * intros H. split; [discriminate|]. apply indices_valid_true.
        congruence.
      * intros (_ & H). apply indices_valid_true in H. now rewrite H.
    + cbn [SceneData.materials SceneData.meshes fst].
      rewrite Z.max_r by (cbn [List.length]; lia).
      split.
      * intros H. split; [discriminate|]. apply indices_valid_true.
        congruence.
      * intros (_ & H). apply indices_valid_true in H. now rewrite H.
Qed.

(** X2: validating twice is validating once: the second call returns what
    the first returned and leaves the scene as the first left it. *)
Theorem validate_scene_idempotent (scene : SceneData.t) :
  BaseLoader.validate_scene (snd (BaseLoader.validate_scene scene))
  = BaseLoader.validate_scene scene.
Proof.
  destruct scene as [meshes materials textures].
  unfold BaseLoader.validate_scene at 2.
  cbn [SceneData.meshes SceneData.materials].
  destruct meshes as [|mesh meshes]; [reflexivity|].
  destruct materials as [|mat materials]; reflexivity.
Qed.

(** ** Layer flags and statistics *)

Lemma flags_zero_iff_inactive (m : Material.t) :
  (Material.get_layer_flags m =? 0) = negb (some_layer_active m).
Proof.
  unfold some_layer_active. rewrite get_layer_flags_mask.
  destruct (Material.and_gt0 (Material.clearcoat m) _);
    destruct (Material.and_gt0 (Material.transmission m) _);
    destruct (Material.and_gt0 (Material.sheen m) _);
    destruct (Material.and_gt0 (Material.subsurface m) _);
    destruct (Material.and_gt0 (Material.anisotropy m) _);
    destruct (Material.and_gt0 (Material.iridescence m) _);
    destruct (Material.and_gt0 (Material.volume m) _);
    reflexivity.
Qed.

(** X3: bit [i] of [get_layer_flags] is set iff layer [i] is present with a
    primary field above 0, for Clearcoat 0, Transmission 1, Sheen 2,
    Subsurface 3, Anisotropy 4, Iridescence 5, Volume 6 (density); no other
    bit is set, and the flags are 0 iff no layer is active. *)
Theorem get_layer_flags_is_the_active_mask (m : Material.t) :
  let flags := Material.get_layer_flags m in
  Z.testbit flags 0
  = Material.and_gt0 (Material.clearcoat m) ClearcoatLayer.strength
  /\ Z.testbit flags 1
     = Material.and_gt0 (Material.transmission m) TransmissionLayer.strength
  /\ Z.testbit flags 2
     = Material.and_gt0 (Material.sheen m) SheenLayer.strength
  /\ Z.testbit flags 3
     = Material.and_gt0 (Material.subsurface m) SubsurfaceLayer.strength
  /\ Z.testbit flags 4
     = Material.and_gt0 (Material.anisotropy m) AnisotropyLayer.strength
  /\ Z.testbit flags 5
     = Material.and_gt0 (Material.iridescence m) IridescenceLayer.strength
  /\ Z.testbit flags 6
     = Material.and_gt0 (Material.volume m) VolumeLayer.density
  /\ (forall i, 7 <= i -> Z.testbit flags i = false)
  /\ ((flags =? 0) = negb (some_layer_active m)).
Proof.
  cbv zeta.
  destruct (get_layer_flags_bits m)
    as (B0 & B1 & B2 & B3 & B4 & B5 & B6 & Hr).
  do 7 (split; [assumption|]). split.
  - intros i Hi. cbv zeta in Hr.
    destruct (Z.eq_dec (Material.get_layer_flags m) 0) as [E|N].
    + rewrite E. apply Z.bits_0.
    + apply Z.bits_above_log2; [lia|].
      assert (Z.log2 (Material.get_layer_flags m) < 7); [|lia].
      apply Z.log2_lt_pow2; lia.
  - apply flags_zero_iff_inactive.
Qed.

Lemma py_sum_ones {A} (xs : list A) :
  py_sum (map (fun _ => 1) xs) = Z.of_nat (List.length xs).
Proof.
  induction xs as [|x xs IH]; [reflexivity|].
  cbn [map py_sum List.length]. rewrite IH. lia.
Qed.

Lemma py_sum_le (xs ys : list Z) :
  Forall2 Z.le xs ys -> py_sum xs <= py_sum ys.
Proof. induction 1; cbn [py_sum]; lia. Qed.

(** X4: the statistics count as advanced exactly the materials with an
    active layer, so at most all of them; and three times the triangles
    logged never exceeds the indices of the scene. *)
Theorem log_statistics_counts (supports : bool) (scene : SceneData.t) :
  let stats := log_statistics supports scene in
  (supports = true ->
   exists n,
     Statistics.advanced stats = Some n
     /\ n = Z.of_nat (List.length (filter some_layer_active
                                     (SceneData.materials scene)))
     /\ 0 <= n <= Statistics.materials stats)
  /\ (supports = false -> Statistics.advanced stats = None)
  /\ 0 <= 3 * Statistics.triangles stats
     <= py_sum (map (fun mesh => Z.of_nat (List.length (Mesh.indices mesh)))
                  (SceneData.meshes scene)).
Proof.
  cbv zeta. unfold log_statistics.
  cbn [Statistics.advanced Statistics.materials Statistics.triangles].
  split; [|split].
  - intros ->. eexists. split; [reflexivity|].
    rewrite py_sum_ones.
    assert (E : filter (fun mat => negb (Material.get_layer_flags mat =? 0))
                  (SceneData.materials scene)
                = filter some_layer_active (SceneData.materials scene)).
    { apply filter_ext. intros m.
      rewrite flags_zero_iff_inactive. apply negb_involutive. }
    rewrite E. split; [reflexivity|].
    pose proof (filter_length_le some_layer_active (SceneData.materials scene)).
    lia.
  - now intros ->.
  - induction (SceneData.meshes scene) as [|mesh meshes IH];
      cbn [map py_sum]; [lia|].
    pose proof (Z.mul_div_le (Z.of_nat (List.length (Mesh.indices mesh))) 3).
    pose proof (Z.div_pos (Z.of_nat (List.length (Mesh.indices mesh))) 3).
    lia.
Qed.

(** ** The layout of an exported file *)

Lemma rbind_ok_inv {A B} (r : result A) (k : A -> result B) (b : B) :
  rbind r k = Ok b -> exists a, r = Ok a /\ k a = Ok b.
Proof. destruct r as [a|e]; [|discriminate]. intros H. now exists a. Qed.

Lemma write_each_sizes {A} (body : A -> result bytes) (size : A -> nat)
      (xs : list A) (bs : bytes) :
  (forall x b, body x = Ok b -> List.length b = size x) ->
  write_each body xs = Ok bs ->
  List.length bs = total_size size xs.
Proof.
  intros Hb. revert bs. induction xs as [|x xs IH]; intros bs H.
  - cbn in H. injection H as <-. reflexivity.
  - cbn [write_each] in H.
    apply rbind_ok_inv in H. destruct H as (b & Eb & H).
    apply rbind_ok_inv in H. destruct H as (bs' & Ebs & H).
    injection H as <-. rewrite length_app, (Hb _ _ Eb), (IH _ Ebs).
    reflexivity.
Qed.

Lemma total_size_const {A} (k : nat) (xs : list A) :
  total_size (fun _ => k) xs = (k * List.length xs)%nat.
Proof.
  unfold total_size. induction xs as [|x xs IH]; simpl; [lia|].
  rewrite IH. lia.
Qed.

Lemma pack_f_inv (x : pyfloat) (b : bytes) :
  pystruct.pack_f x = Ok b -> List.length b = 4%nat.
Proof.
  unfold pystruct.pack_f. intros H. injection H as <-. reflexivity.
Qed.

Lemma pack_nf_inv (n : nat) (xs : list pyfloat) (bs : bytes) :
  pystruct.pack_nf n xs = Ok bs ->
  List.length xs = n /\ List.length bs = (4 * n)%nat.
Proof.
  unfold pystruct.pack_nf. destruct (Nat.eqb_spec (List.length xs) n) as [E|N];
    [|discriminate].
  intros H. split; [exact E|].
  rewrite (write_each_sizes _ (fun _ => 4%nat) _ _ pack_f_inv H).
  rewrite total_size_const. lia.
Qed.

Lemma pack_I_length (n : Z) (b : bytes) :
  pystruct.pack_I n = Ok b -> List.length b = 4%nat.
Proof.
  intros H. apply pack_I_inv in H. destruct H as (_ & ->).
  apply length_le_bytes.
Qed.

Lemma pack_i_inv (n : Z) (b : bytes) :
  pystruct.pack_i n = Ok b ->
  - 2 ^ 31 <= n < 2 ^ 31 /\ b = pystruct.le_bytes 4 (n mod 2 ^ 32).
Proof.
  unfold pystruct.pack_i.
  destruct (Z.leb_spec (- 2 ^ 31) n); destruct (Z.ltb_spec n (2 ^ 31));
    cbn [andb]; try discriminate.
  intros Hp. split; [lia|congruence].
Qed.

Lemma pack_ni_length (n : nat) (xs : list Z) (bs : bytes) :
  pystruct.pack_ni n xs = Ok bs -> List.length bs = (4 * List.length xs)%nat.
Proof.
  unfold pystruct.pack_ni. destruct (Nat.eqb (List.length xs) n);
    [|discriminate].
  intros H.
  assert (Hb : forall x b, pystruct.pack_i x = Ok b -> List.length b = 4%nat).
  { intros x b Hb. apply pack_i_inv in Hb. destruct Hb as (_ & ->).
    apply length_le_bytes. }
  rewrite (write_each_sizes _ (fun _ => 4%nat) _ _ Hb H).
  apply total_size_const.
Qed.

Lemma pack_nI_length (n : nat) (xs : list Z) (bs : bytes) :
  pystruct.pack_nI n xs = Ok bs -> List.length bs = (4 * List.length xs)%nat.
Proof.
  unfold pystruct.pack_nI. destruct (Nat.eqb (List.length xs) n);
    [|discriminate].
  intros H.
  rewrite (write_each_sizes _ (fun _ => 4%nat) _ _ pack_I_length H).
  apply total_size_const.
Qed.

Lemma utf8_encode_char_length (cp : Z) (b : bytes) :
  utf8_encode_char cp = Ok b -> List.length b = utf8_width cp.
Proof.
  unfold utf8_encode_char, utf8_width.
  destruct (cp <? 0); [discriminate|].
  destruct (cp <? 0x80); [intros H; now injection H as <-|].
  destruct (cp <? 0x800); [intros H; now injection H as <-|].
  destruct ((0xD800 <=? cp) && (cp <=? 0xDFFF)); [discriminate|].
  destruct (cp <? 0x10000); [intros H; now injection H as <-|].
  destruct (cp <=? 0x10FFFF); [intros H; now injection H as <-|discriminate].
Qed.

Lemma utf8_encode_length (s : pystr) (bs : bytes) :
  utf8_encode s = Ok bs -> List.length bs = utf8_size s.
Proof.
  intros H.
  assert (E : utf8_encode s = write_each utf8_encode_char s).
  { clear. induction s as [|cp s IH]; [reflexivity|].
    cbn [utf8_encode write_each]. now rewrite IH. }
  rewrite E in H.
  apply (write_each_sizes _ utf8_width _ _ utf8_encode_char_length H).
Qed.

(** The name of a record as it is written: the length on 4 bytes, then the
    UTF-8 bytes. *)
Lemma name_written_inv (s : pystr) (k : bytes -> bytes -> result bytes)
      (bs : bytes) :
  rbind (utf8_encode s)
    (fun name_bytes =>
       rbind (pystruct.pack_I (Z.of_nat (List.length name_bytes)))
         (fun name_len => k name_bytes name_len)) = Ok bs ->
  exists name_bytes,
    utf8_encode s = Ok name_bytes
    /\ List.length name_bytes = utf8_size s
    /\ is_u32 (Z.of_nat (utf8_size s))
    /\ k name_bytes (pystruct.le_bytes 4 (Z.of_nat (utf8_size s))) = Ok bs.
Proof.
  intros H. apply rbind_ok_inv in H. destruct H as (nb & Enb & H).
  apply rbind_ok_inv in H. destruct H as (nl & Enl & H).
  apply pack_I_inv in Enl. destruct Enl as (Hu & ->).
  pose proof (utf8_encode_length _ _ Enb) as L. rewrite L in *.
  now exists nb.
Qed.

Lemma material_base_inv (mat : Material.t) (base : bytes) :
  BinarySceneExporter.material_base mat = Ok base ->
  exists name_bytes params,
    utf8_encode (Material.name mat) = Ok name_bytes
    /\ List.length name_bytes = utf8_size (Material.name mat)
    /\ is_u32 (Z.of_nat (utf8_size (Material.name mat)))
    /\ List.length params = 56%nat
    /\ base = pystruct.le_bytes 4 (Z.of_nat (utf8_size (Material.name mat)))
                ++ name_bytes ++ params.
Proof.
  unfold BinarySceneExporter.material_base. intros H.
  apply name_written_inv in H. destruct H as (nb & Enb & L & Hu & H).
  apply rbind_ok_inv in H. destruct H as (bc & Ebc & H).
  apply rbind_ok_inv in H. destruct H as (em & Eem & H).
  apply rbind_ok_inv in H. destruct H as (me & Eme & H).
  apply rbind_ok_inv in H. destruct H as (ro & Ero & H).
  apply rbind_ok_inv in H. destruct H as (io & Eio & H).
  apply rbind_ok_inv in H. destruct H as (op & Eop & H).
  apply rbind_ok_inv in H. destruct H as (tx & Etx & H).
  injection H as <-.
  apply pack_nf_inv in Ebc, Eem. apply pack_f_inv in Eme, Ero, Eio, Eop.
  apply pack_ni_length in Etx. cbn [List.length] in Etx.
  exists nb, (bc ++ em ++ me ++ ro ++ io ++ op ++ tx).
  split; [exact Enb|]. split; [exact L|]. split; [exact Hu|].
  split; [rewrite !length_app; lia|reflexivity].
Qed.

Lemma material_extension_inv (mat : Material.t) (ext : bytes) :
  BinarySceneExporter.material_extension mat = Ok ext ->
  List.length ext
  = (if Material.truthy (Material.transmission mat) then 8 else 0)%nat.
Proof.
  unfold BinarySceneExporter.material_extension.
  destruct (Material.transmission mat) as [t|]; cbn [Material.truthy].
  - intros H. apply pack_nf_inv in H. lia.
  - intros H. now injection H as <-.
Qed.

Lemma material_flags_bit0 (mat : Material.t) :
  Z.testbit (BinarySceneExporter.material_flags mat) 0
  = Material.truthy (Material.transmission mat).
Proof.
  rewrite material_flags_mask.
  destruct (Material.truthy (Material.transmission mat));
    destruct (Material.truthy (Material.clearcoat mat));
    destruct (Material.truthy (Material.sheen mat)); reflexivity.
Qed.

Lemma write_material_inv (mat : Material.t) (bs : bytes) :
  BinarySceneExporter.write_material mat = Ok bs ->
  exists name_bytes params ext,
    utf8_encode (Material.name mat) = Ok name_bytes
    /\ List.length name_bytes = utf8_size (Material.name mat)
    /\ is_u32 (Z.of_nat (utf8_size (Material.name mat)))
    /\ List.length params = 56%nat
    /\ BinarySceneExporter.material_extension mat = Ok ext
    /\ bs = pystruct.le_bytes 4 (Z.of_nat (utf8_size (Material.name mat)))
              ++ name_bytes ++ params
              ++ pystruct.le_bytes 4 (BinarySceneExporter.material_flags mat)
              ++ ext.
Proof.
  rewrite write_material_layout. intros H.
  apply rbind_ok_inv in H. destruct H as (base & Eb & H).
  apply rbind_ok_inv in H. destruct H as (ext & Ee & H).
  injection H as <-.
  apply material_base_inv in Eb.
  destruct Eb as (nb & params & Enb & L & Hu & Lp & ->).
  exists nb, params, ext.
  split; [exact Enb|]. split; [exact L|]. split; [exact Hu|].
  split; [exact Lp|]. split; [exact Ee|].
  now rewrite <- !app_assoc.
Qed.

Lemma field_at_app (pre : bytes) (n : Z) (tl : bytes) :
  0 <= n < 2 ^ 32 ->
  field_at (List.length pre) (pre ++ pystruct.le_bytes 4 n ++ tl) = n.
Proof.
  intros H. unfold field_at.
  rewrite skipn_app, skipn_all, Nat.sub_diag, skipn_O, app_nil_l.
  rewrite firstn_app, length_le_bytes, Nat.sub_diag, firstn_O, app_nil_r.
  rewrite firstn_all2 by (rewrite length_le_bytes; lia).
  now apply le_value_le_bytes.
Qed.

(** X5: a material record delimits itself.  Its first field is the byte
    length [n] of the name, the field at offset [4 + n + 56] holds the flags
    the exporter computed, and the record is [64 + n] bytes long, plus 8 iff
    bit 0 of those flags is set: a reader that takes the two floats of the
    extension block exactly when bit 0 is set stays aligned with the
    exporter. *)
Theorem material_record_delimits_itself (mat : Material.t) (bs : bytes) :
  BinarySceneExporter.write_material mat = Ok bs ->
  let n := utf8_size (Material.name mat) in
  field_at 0 bs = Z.of_nat n
  /\ field_at (4 + n + 56) bs = BinarySceneExporter.material_flags mat
  /\ List.length bs
     = (64 + n
        + (if Z.testbit (field_at (4 + n + 56) bs) 0 then 8 else 0))%nat.
Proof.
  intros H. cbv zeta. apply write_material_inv in H.
  destruct H as (nb & params & ext & Enb & L & Hu & Lp & Ee & ->).
  assert (F : field_at (4 + utf8_size (Material.name mat) + 56)
                (pystruct.le_bytes 4 (Z.of_nat (utf8_size (Material.name mat)))
                   ++ nb ++ params
                   ++ pystruct.le_bytes 4
                        (BinarySceneExporter.material_flags mat) ++ ext)
              = BinarySceneExporter.material_flags mat).
  { replace (4 + utf8_size (Material.name mat) + 56)%nat
      with (List.length (pystruct.le_bytes 4
                           (Z.of_nat (utf8_size (Material.name mat)))
                           ++ nb ++ params))
      by (rewrite !length_app, length_le_bytes; lia).
    rewrite !app_assoc. rewrite <- (app_assoc _ _ ext).
    apply field_at_app. apply material_flags_u32. }
  split; [|split].
  - apply (field_at_app [] _ _ Hu).
  - exact F.
  - rewrite F, material_flags_bit0.
    apply material_extension_inv in Ee.
    rewrite !length_app, !length_le_bytes. lia.
Qed.

Lemma material_record_delimits_itself_witness :
  exists bs,
    BinarySceneExporter.write_material (Examples.glass f0_5) = Ok bs
    /\ field_at 0 bs = 5 /\ field_at 65 bs = 1
    /\ List.length bs = 77%nat.
Proof.
  exists Examples.glass_record.
  assert (E : BinarySceneExporter.write_material (Examples.glass f0_5)
              = Ok Examples.glass_record) by reflexivity.
  split; [exact E|].
  destruct (material_record_delimits_itself _ _ E) as (H0 & H1 & H2).
  split; [exact H0|]. split; [exact H1|]. reflexivity.
Defined.

Lemma write_material_size (mat : Material.t) (bs : bytes) :
  BinarySceneExporter.write_material mat = Ok bs ->
  List.length bs = material_size mat.
Proof.
  intros H. apply write_material_inv in H.
  destruct H as (nb & params & ext & Enb & L & Hu & Lp & Ee & ->).
  apply material_extension_inv in Ee. unfold material_size.
  rewrite !length_app, !length_le_bytes. lia.
Qed.

Lemma write_texture_size (texture : texture_entry) (bs : bytes) :
  BinarySceneExporter.write_texture texture = Ok bs ->
  List.length bs = texture_size texture.
Proof.
  unfold BinarySceneExporter.write_texture. fold (texture_path texture).
  intros H.
  apply (name_written_inv _ (fun pb pl => Ok (pl ++ pb))) in H.
  destruct H as (pb & Epb & L & Hu & H).
  assert (bs = pystruct.le_bytes 4
                 (Z.of_nat (utf8_size (texture_path texture))) ++ pb)
    as -> by congruence.
  unfold texture_size. rewrite length_app, length_le_bytes. lia.
Qed.

Lemma write_vertex_size (v : Vertex.t) (bs : bytes) :
  BinarySceneExporter.write_vertex v = Ok bs -> List.length bs = 44%nat.
Proof.
  unfold BinarySceneExporter.write_vertex. intros H.
  apply rbind_ok_inv in H. destruct H as (p & Ep & H).
  apply rbind_ok_inv in H. destruct H as (n & En & H).
  apply rbind_ok_inv in H. destruct H as (t & Et & H).
  apply rbind_ok_inv in H. destruct H as (g & Eg & H).
  injection H as <-. apply pack_nf_inv in Ep, En, Et, Eg.
  rewrite !length_app. lia.
Qed.

Lemma write_mesh_inv (mesh : Mesh.t) (bs : bytes) :
  BinarySceneExporter.write_mesh mesh = Ok bs ->
  exists name_bytes vertices indices,
    utf8_encode (Mesh.name mesh) = Ok name_bytes
    /\ List.length name_bytes = utf8_size (Mesh.name mesh)
    /\ is_u32 (Z.of_nat (utf8_size (Mesh.name mesh)))
    /\ is_u32 (Mesh.material_index mesh)
    /\ is_u32 (Z.of_nat (List.length (Mesh.vertices mesh)))
    /\ BinarySceneExporter.vertex_block mesh = Ok vertices
    /\ is_u32 (Z.of_nat (List.length (Mesh.indices mesh)))
    /\ BinarySceneExporter.index_block mesh = Ok indices
    /\ bs = pystruct.le_bytes 4 (Z.of_nat (utf8_size (Mesh.name mesh)))
              ++ name_bytes
              ++ pystruct.le_bytes 4 (Mesh.material_index mesh)
              ++ pystruct.le_bytes 4
                   (Z.of_nat (List.length (Mesh.vertices mesh)))
              ++ vertices
              ++ pystruct.le_bytes 4
                   (Z.of_nat (List.length (Mesh.indices mesh)))
              ++ indices.
Proof.
  unfold BinarySceneExporter.write_mesh. intros H.
  apply name_written_inv in H. destruct H as (nb & Enb & L & Hu & H).
  apply rbind_ok_inv in H. destruct H as (mi & Emi & H).
  apply rbind_ok_inv in H. destruct H as (vc & Evc & H).
  apply rbind_ok_inv in H. destruct H as (vb & Evb & H).
  apply rbind_ok_inv in H. destruct H as (ic & Eic & H).
  apply rbind_ok_inv in H. destruct H as (ib & Eib & H).
  injection H as <-.
  apply pack_I_inv in Emi, Evc, Eic.
  destruct Emi as (Um & ->), Evc as (Uv & ->), Eic as (Ui & ->).
  exists nb, vb, ib. repeat (split; [assumption|]).
  first [reflexivity | now rewrite <- !app_assoc].
Qed.

Lemma write_mesh_size (mesh : Mesh.t) (bs : bytes) :
  BinarySceneExporter.write_mesh mesh = Ok bs ->
  List.length bs = mesh_size mesh.
Proof.
  intros H. apply write_mesh_inv in H.
  destruct H as (nb & vb & ib & Enb & L & Hu & Um & Uv & Evb & Ui & Eib & ->).
  unfold BinarySceneExporter.vertex_block in Evb.
  apply (write_each_sizes _ (fun _ => 44%nat) _ _ write_vertex_size) in Evb.
  rewrite total_size_const in Evb.
  apply pack_nI_length in Eib. unfold mesh_size.
  rewrite !length_app, !length_le_bytes. lia.
Qed.

Lemma section_inv {A} (body : A -> result bytes) (xs : list A) (bs : bytes) :
  rbind (pystruct.pack_I (Z.of_nat (List.length xs)))
    (fun count => rbind (write_each body xs)
                    (fun records => Ok (count ++ records))) = Ok bs ->
  is_u32 (Z.of_nat (List.length xs))
  /\ exists records,
      write_each body xs = Ok records
      /\ bs = pystruct.le_bytes 4 (Z.of_nat (List.length xs)) ++ records.
Proof.
  intros H. apply rbind_ok_inv in H. destruct H as (c & Ec & H).
  apply rbind_ok_inv in H. destruct H as (r & Er & H).
  injection H as <-. apply pack_I_inv in Ec. destruct Ec as (Hu & ->).
  split; [exact Hu|]. now exists r.
Qed.

Lemma export_inv (scene : SceneData.t) (bs : bytes) :
  BinarySceneExporter.export scene = Ok bs ->
  exists materials textures meshes,
    write_each BinarySceneExporter.write_material (SceneData.materials scene)
    = Ok materials
    /\ write_each BinarySceneExporter.write_texture (SceneData.textures scene)
       = Ok textures
    /\ write_each BinarySceneExporter.write_mesh (SceneData.meshes scene)
       = Ok meshes
    /\ is_u32 (Z.of_nat (List.length (SceneData.materials scene)))
    /\ is_u32 (Z.of_nat (List.length (SceneData.textures scene)))
    /\ is_u32 (Z.of_nat (List.length (SceneData.meshes scene)))
    /\ bs = Examples.header
              ++ pystruct.le_bytes 4
                   (Z.of_nat (List.length (SceneData.materials scene)))
              ++ materials
              ++ pystruct.le_bytes 4
                   (Z.of_nat (List.length (SceneData.textures scene)))
              ++ textures
              ++ pystruct.le_bytes 4
                   (Z.of_nat (List.length (SceneData.meshes scene)))
              ++ meshes.
Proof.
  unfold BinarySceneExporter.export. intros H.
  apply rbind_ok_inv in H. destruct H as (h & Eh & H).
  apply rbind_ok_inv in H. destruct H as (m & Em & H).
  apply rbind_ok_inv in H. destruct H as (t & Et & H).
  apply rbind_ok_inv in H. destruct H as (s & Es & H).
  injection H as <-.
  assert (h = Examples.header) as ->
    by (change BinarySceneExporter._write_header with (Ok Examples.header)
          in Eh; congruence).
  apply section_inv in Em, Et, Es.
  destruct Em as (Um & mr & Emr & ->), Et as (Ut & tr & Etr & ->),
    Es as (Us & sr & Esr & ->).
  exists mr, tr, sr. repeat (split; [assumption|]).
  first [reflexivity | now rewrite <- !app_assoc].
Qed.

(** X6: the size of an exported file follows from the scene alone: 8 bytes
    of header, a 4-byte count in front of each of the three sections, per
    material [64 + len(name)] bytes plus 8 with a Transmission layer, per
    texture [4 + len(path)] bytes, per mesh [16 + len(name)] bytes plus 44
    per vertex and 4 per index (lengths in UTF-8 bytes). *)
Theorem export_size (scene : SceneData.t) (bs : bytes) :
  BinarySceneExporter.export scene = Ok bs ->
  List.length bs
  = (8 + (4 + total_size material_size (SceneData.materials scene))
     + (4 + total_size texture_size (SceneData.textures scene))
     + (4 + total_size mesh_size (SceneData.meshes scene)))%nat.
Proof.
  intros H. apply export_inv in H.
  destruct H as (m & t & s & Em & Et & Es & _ & _ & _ & ->).
  apply (write_each_sizes _ material_size _ _ write_material_size) in Em.
  apply (write_each_sizes _ texture_size _ _ write_texture_size) in Et.
  apply (write_each_sizes _ mesh_size _ _ write_mesh_size) in Es.
  rewrite !length_app, !length_le_bytes, Em, Et, Es.
  change (List.length Examples.header) with 8%nat. lia.
Qed.

Lemma export_size_witness :
  exists bs,
    BinarySceneExporter.export Examples.glass_scene = Ok bs
    /\ List.length bs = 228%nat.
Proof.
  destruct (BinarySceneExporter.export Examples.glass_scene) as [bs|e] eqn:E;
    [|vm_compute in E; discriminate].
  exists bs. split; [reflexivity|].
  rewrite (export_size Examples.glass_scene bs E). reflexivity.
Defined.

(** ** UTF-8: decoding what was encoded *)

Lemma lor_high_low (a x k : Z) :
  0 <= k -> 0 <= x < 2 ^ k -> Z.lor (a * 2 ^ k) x = a * 2 ^ k + x.
Proof.
  intros Hk Hx.
  enough (E : Z.land (a * 2 ^ k) x = 0)
    by (rewrite <- (Z.add_lor_land (a * 2 ^ k) x), E; lia).
  apply Z.bits_inj'. intros n Hn. rewrite Z.land_spec, Z.bits_0.
  destruct (Z.lt_ge_cases n k) as [L|G].
  - now rewrite Z.mul_pow2_bits_low.
  - destruct (Z.eq_dec x 0) as [->|N].
    + now rewrite Z.bits_0, andb_false_r.
    + rewrite (Z.bits_above_log2 x n), andb_false_r; [reflexivity|lia|].
      assert (Z.log2 x < k) by (apply Z.log2_lt_pow2; lia). lia.
Qed.

Lemma land_low (x k : Z) : 0 <= k -> Z.land x (Z.ones k) = x mod 2 ^ k.
Proof. intros. now apply Z.land_ones. Qed.

Lemma Z_of_byte_of_Z_small (z : Z) :
  0 <= z < 256 -> Z_of_byte (byte_of_Z z) = z.
Proof. intros H. rewrite Z_of_byte_of_Z. apply Z.mod_small. exact H. Qed.

(** The pieces of a code point, and the lead and continuation bytes built
    from them. *)
Lemma cont_byte (x : Z) :
  0 <= x < 64 -> Z.lor 0x80 x = 128 + x /\ cont (128 + x) = x.
Proof.
  intros H. split.
  - change 0x80 with (2 * 2 ^ 6). rewrite lor_high_low; lia.
  - unfold cont. change 0x3F with (Z.ones 6). rewrite land_low by lia.
    change (2 ^ 6) with 64. rewrite <- (Z.mod_unique (128 + x) 64 2 x); lia.
Qed.

Lemma lead_byte (tag k x : Z) :
  0 <= k -> 0 <= x < 2 ^ k ->
  Z.lor (tag * 2 ^ k) x = tag * 2 ^ k + x
  /\ Z.land (tag * 2 ^ k + x) (Z.ones k) = x.
Proof.
  intros Hk Hx. split; [now apply lor_high_low|].
  rewrite land_low by lia.
  symmetry. apply (Z.mod_unique _ _ tag x); lia.
Qed.

Lemma utf8_decode_1 (cp : Z) (tl : bytes) :
  0 <= cp < 0x80 ->
  utf8_decode (byte_of_Z cp :: tl)
  = rbind (utf8_decode tl) (fun s => Ok (cp :: s)).
Proof.
  intros H. cbn [utf8_decode]. cbv zeta.
  rewrite Z_of_byte_of_Z_small by lia.
  destruct (Z.ltb_spec cp 0x80); [reflexivity|lia].
Qed.

Lemma utf8_decode_2 (cp : Z) (tl : bytes) :
  0x80 <= cp < 0x800 ->
  utf8_decode (byte_of_Z (Z.lor 0xC0 (Z.shiftr cp 6))
                 :: byte_of_Z (Z.lor 0x80 (Z.land cp 0x3F)) :: tl)
  = rbind (utf8_decode tl) (fun s => Ok (cp :: s)).
Proof.
  intros H.
  rewrite Z.shiftr_div_pow2 by lia. change 0x3F with (Z.ones 6).
  rewrite land_low by lia. change (2 ^ 6) with 64.
  assert (Hq : 2 <= cp / 64 < 32)
    by (split; [apply Z.div_le_lower_bound|apply Z.div_lt_upper_bound]; lia).
  assert (Hr : 0 <= cp mod 64 < 64) by (apply Z.mod_pos_bound; lia).
  destruct (cont_byte _ Hr) as (-> & C1).
  destruct (lead_byte 6 5 (cp / 64)) as (E0 & L0); [lia|change (2 ^ 5) with 32; lia|].
  change (6 * 2 ^ 5) with 0xC0 in E0, L0. rewrite E0.
  cbn [utf8_decode]. cbv zeta.
  rewrite !Z_of_byte_of_Z_small by lia.
  unfold in_range.
  destruct (Z.ltb_spec (0xC0 + cp / 64) 0x80); [lia|].
  destruct (Z.leb_spec 0xC2 (0xC0 + cp / 64)); [|lia].
  destruct (Z.leb_spec (0xC0 + cp / 64) 0xDF); [|lia].
  destruct (Z.leb_spec 0x80 (128 + cp mod 64)); [|lia].
  destruct (Z.leb_spec (128 + cp mod 64) 0xBF); [|lia].
  cbn [andb]. rewrite C1. change 0x1F with (Z.ones 5). rewrite L0.
  rewrite Z.shiftl_mul_pow2 by lia.
  rewrite lor_high_low by (change (2 ^ 6) with 64; lia).
  change (2 ^ 6) with 64.
  replace (cp / 64 * 64 + cp mod 64) with cp
    by (rewrite (Z.div_mod cp 64) at 1; lia).
  reflexivity.
Qed.

Lemma in_range_true (lo hi x : Z) : lo <= x <= hi -> in_range lo hi x = true.
Proof. intros H. unfold in_range. apply andb_true_intro. split; lia. Qed.

Lemma in_range_false (lo hi x : Z) :
  x < lo \/ hi < x -> in_range lo hi x = false.
Proof.
  intros H. unfold in_range. apply andb_false_iff.
  destruct H; [left|right]; lia.
Qed.

Lemma ltb_false (a b : Z) : b <= a -> (a <? b) = false.
Proof. intros H. now apply Z.ltb_ge. Qed.

Lemma utf8_decode_3 (cp : Z) (tl : bytes) :
  0x800 <= cp < 0x10000 -> ~ (0xD800 <= cp <= 0xDFFF) ->
  utf8_decode (byte_of_Z (Z.lor 0xE0 (Z.shiftr cp 12))
                 :: byte_of_Z (Z.lor 0x80 (Z.land (Z.shiftr cp 6) 0x3F))
                 :: byte_of_Z (Z.lor 0x80 (Z.land cp 0x3F)) :: tl)
  = rbind (utf8_decode tl) (fun s => Ok (cp :: s)).
Proof.
  intros H Hs.
  rewrite !Z.shiftr_div_pow2 by lia. change 0x3F with (Z.ones 6).
  rewrite !land_low by lia.
  change (2 ^ 6) with 64. change (2 ^ 12) with 4096.
  set (a := cp / 4096). set (m := (cp / 64) mod 64). set (r := cp mod 64).
  assert (Ha : 0 <= a < 16)
    by (subst a; split;
        [apply Z.div_le_lower_bound|apply Z.div_lt_upper_bound]; lia).
  assert (Hm : 0 <= m < 64) by (apply Z.mod_pos_bound; lia).
  assert (Hr : 0 <= r < 64) by (apply Z.mod_pos_bound; lia).
  assert (Hcp : cp = a * 4096 + (m * 64 + r)).
  { pose proof (Z.div_mod cp 64 ltac:(lia)) as E1.
    pose proof (Z.div_mod (cp / 64) 64 ltac:(lia)) as E2.
    rewrite (Z.div_div cp 64 64) in E2 by lia.
    change (64 * 64) with 4096 in E2. fold a m r in E1, E2.
    clearbody a m r. lia. }
  destruct (cont_byte _ Hm) as (-> & Cm).
  destruct (cont_byte _ Hr) as (-> & Cr).
  destruct (lead_byte 14 4 a) as (E0 & L0); [lia|change (2 ^ 4) with 16; lia|].
  change (14 * 2 ^ 4) with 0xE0 in E0, L0. rewrite E0.
  cbn [utf8_decode]. cbv zeta.
  rewrite !Z_of_byte_of_Z_small by lia.
  rewrite Cm, Cr. change 0x0F with (Z.ones 4). rewrite L0.
  rewrite !Z.shiftl_mul_pow2 by lia.
  rewrite (lor_high_low m r 6) by (change (2 ^ 6) with 64; lia).
  rewrite (lor_high_low a (m * 2 ^ 6 + r) 12)
    by (change (2 ^ 6) with 64; change (2 ^ 12) with 4096; lia).
  change (2 ^ 6) with 64. change (2 ^ 12) with 4096. rewrite <- Hcp.
  rewrite (ltb_false (224 + a)) by lia.
  rewrite (in_range_false 0xC2 0xDF) by lia.
  rewrite (in_range_true 0xE0 0xEF) by lia.
  rewrite (in_range_true 0x80 0xBF (128 + r)) by lia.
  destruct (Z.eqb_spec (224 + a) 0xE0); destruct (Z.eqb_spec (224 + a) 0xED);
    rewrite in_range_true by lia; reflexivity.
Qed.

Lemma utf8_decode_4 (cp : Z) (tl : bytes) :
  0x10000 <= cp <= 0x10FFFF ->
  utf8_decode (byte_of_Z (Z.lor 0xF0 (Z.shiftr cp 18))
                 :: byte_of_Z (Z.lor 0x80 (Z.land (Z.shiftr cp 12) 0x3F))
                 :: byte_of_Z (Z.lor 0x80 (Z.land (Z.shiftr cp 6) 0x3F))
                 :: byte_of_Z (Z.lor 0x80 (Z.land cp 0x3F)) :: tl)
  = rbind (utf8_decode tl) (fun s => Ok (cp :: s)).
Proof.
  intros H.
  rewrite !Z.shiftr_div_pow2 by lia. change 0x3F with (Z.ones 6).
  rewrite !land_low by lia.
  change (2 ^ 6) with 64. change (2 ^ 12) with 4096.
  change (2 ^ 18) with 262144.
  set (a := cp / 262144). set (m := (cp / 4096) mod 64).
  set (n := (cp / 64) mod 64). set (r := cp mod 64).
  assert (Ha : 0 <= a < 8)
    by (subst a; split;
        [apply Z.div_le_lower_bound|apply Z.div_lt_upper_bound]; lia).
  assert (Hm : 0 <= m < 64) by (apply Z.mod_pos_bound; lia).
  assert (Hn : 0 <= n < 64) by (apply Z.mod_pos_bound; lia).
  assert (Hr : 0 <= r < 64) by (apply Z.mod_pos_bound; lia).
  assert (Hcp : cp = a * 262144 + (m * 4096 + (n * 64 + r))).
  { pose proof (Z.div_mod cp 64 ltac:(lia)) as E1.
    pose proof (Z.div_mod (cp / 64) 64 ltac:(lia)) as E2.
    rewrite (Z.div_div cp 64 64) in E2 by lia.
    change (64 * 64) with 4096 in E2.
    pose proof (Z.div_mod (cp / 4096) 64 ltac:(lia)) as E3.
    rewrite (Z.div_div cp 4096 64) in E3 by lia.
    change (4096 * 64) with 262144 in E3. fold a m n r in E1, E2, E3.
    clearbody a m n r. lia. }
  destruct (cont_byte _ Hm) as (-> & Cm).
  destruct (cont_byte _ Hn) as (-> & Cn).
  destruct (cont_byte _ Hr) as (-> & Cr).
  destruct (lead_byte 30 3 a) as (E0 & L0); [lia|change (2 ^ 3) with 8; lia|].
  change (30 * 2 ^ 3) with 0xF0 in E0, L0. rewrite E0.
  cbn [utf8_decode]. cbv zeta.
  rewrite !Z_of_byte_of_Z_small by lia.
  rewrite Cm, Cn, Cr. change 0x07 with (Z.ones 3). rewrite L0.
  rewrite !Z.shiftl_mul_pow2 by lia.
  rewrite (lor_high_low n r 6) by (change (2 ^ 6) with 64; lia).
  rewrite (lor_high_low m (n * 2 ^ 6 + r) 12)
    by (change (2 ^ 6) with 64; change (2 ^ 12) with 4096; lia).
  rewrite (lor_high_low a (m * 2 ^ 12 + (n * 2 ^ 6 + r)) 18)
    by (change (2 ^ 6) with 64; change (2 ^ 12) with 4096;
        change (2 ^ 18) with 262144; lia).
  change (2 ^ 6) with 64. change (2 ^ 12) with 4096.
  change (2 ^ 18) with 262144. rewrite <- Hcp.
  rewrite (ltb_false (240 + a)) by lia.
  rewrite (in_range_false 0xC2 0xDF) by lia.
  rewrite (in_range_false 0xE0 0xEF) by lia.
  rewrite (in_range_true 0xF0 0xF4) by lia.
  rewrite (in_range_true 0x80 0xBF (128 + n)) by lia.
  rewrite (in_range_true 0x80 0xBF (128 + r)) by lia.
  destruct (Z.eqb_spec (240 + a) 0xF0); destruct (Z.eqb_spec (240 + a) 0xF4);
    rewrite in_range_true by lia; reflexivity.
Qed.

Lemma utf8_decode_char (cp : Z) (b tl : bytes) :
  utf8_encode_char cp = Ok b ->
  utf8_decode (b ++ tl) = rbind (utf8_decode tl) (fun s => Ok (cp :: s)).
Proof.
  unfold utf8_encode_char.
  destruct (Z.ltb_spec cp 0); [discriminate|].
  destruct (Z.ltb_spec cp 0x80).
  { intros E. assert (b = [byte_of_Z cp]) as -> by congruence.
    apply utf8_decode_1. lia. }
  destruct (Z.ltb_spec cp 0x800).
  { intros E.
    assert (b = [byte_of_Z (Z.lor 0xC0 (Z.shiftr cp 6));
                 byte_of_Z (Z.lor 0x80 (Z.land cp 0x3F))]) as ->
      by congruence.
    apply utf8_decode_2. lia. }
  destruct (Z.leb_spec 0xD800 cp); destruct (Z.leb_spec cp 0xDFFF);
    cbn [andb]; try discriminate;
    (destruct (Z.ltb_spec cp 0x10000);
     [intros E;
      assert (b = [byte_of_Z (Z.lor 0xE0 (Z.shiftr cp 12));
                   byte_of_Z (Z.lor 0x80 (Z.land (Z.shiftr cp 6) 0x3F));
                   byte_of_Z (Z.lor 0x80 (Z.land cp 0x3F))]) as ->
        by congruence;
      apply utf8_decode_3; lia|]);
    (destruct (Z.leb_spec cp 0x10FFFF); [|discriminate]);
    intros E;
    assert (b = [byte_of_Z (Z.lor 0xF0 (Z.shiftr cp 18));
                 byte_of_Z (Z.lor 0x80 (Z.land (Z.shiftr cp 12) 0x3F));
                 byte_of_Z (Z.lor 0x80 (Z.land (Z.shiftr cp 6) 0x3F));
                 byte_of_Z (Z.lor 0x80 (Z.land cp 0x3F))]) as ->
      by congruence;
    apply utf8_decode_4; lia.
Qed.

(** Whatever [str.encode('utf-8')] returns, [bytes.decode('utf-8')] turns
    back into the string. *)
Lemma utf8_decode_encode (s : pystr) (bs : bytes) :
  utf8_encode s = Ok bs -> utf8_decode bs = Ok s.
Proof.
  revert bs. induction s as [|cp s IH]; intros bs H.
  - cbn in H. now assert (bs = []) as -> by congruence.
  - cbn [utf8_encode] in H.
    apply rbind_ok_inv in H. destruct H as (b & Eb & H).
    apply rbind_ok_inv in H. destruct H as (bs' & Ebs & H).
    assert (bs = b ++ bs') as -> by congruence.
    rewrite (utf8_decode_char _ _ _ Eb), (IH _ Ebs). reflexivity.
Qed.

(** ** Reading back what the exporter wrote *)

Lemma read_exact (b tl : bytes) (p : Z) :
  read (Z.of_nat (List.length b)) {| rest := b ++ tl; pos := p |}
  = (Ok b, {| rest := tl; pos := p + Z.of_nat (List.length b) |}).
Proof.
  unfold read. cbn [rest pos]. rewrite Nat2Z.id.
  rewrite firstn_app, Nat.sub_diag, firstn_O, app_nil_r, firstn_all.
  rewrite skipn_app, Nat.sub_diag, skipn_O, skipn_all, app_nil_l.
  reflexivity.
Qed.

Lemma read_n (n : Z) (b tl : bytes) (p : Z) :
  Z.of_nat (List.length b) = n ->
  read n {| rest := b ++ tl; pos := p |}
  = (Ok b, {| rest := tl; pos := p + n |}).
Proof. intros <-. apply read_exact. Qed.

Lemma read_u32 (n : Z) (tl : bytes) (p : Z) :
  is_u32 n ->
  bind (read 4) (fun b => lift (pystruct.unpack_I b))
    {| rest := pystruct.le_bytes 4 n ++ tl; pos := p |}
  = (Ok n, {| rest := tl; pos := p + 4 |}).
Proof.
  intros H. unfold bind.
  rewrite (read_n 4 (pystruct.le_bytes 4 n)) by now rewrite length_le_bytes.
  unfold lift. rewrite unpack_I_4 by apply length_le_bytes.
  now rewrite le_value_le_bytes.
Qed.

(** Reading a length-prefixed string that [encode] produced. *)
Lemma read_text {A} (s : pystr) (name_bytes tl : bytes) (p : Z)
      (k : pystr -> M A) :
  utf8_encode s = Ok name_bytes ->
  List.length name_bytes = utf8_size s ->
  is_u32 (Z.of_nat (utf8_size s)) ->
  bind (read 4)
    (fun b => bind (lift (pystruct.unpack_I b))
       (fun len => bind (read len)
          (fun b => bind (lift (utf8_decode b)) k)))
    {| rest := pystruct.le_bytes 4 (Z.of_nat (utf8_size s))
                 ++ name_bytes ++ tl;
       pos := p |}
  = k s {| rest := tl; pos := p + 4 + Z.of_nat (utf8_size s) |}.
Proof.
  intros E L Hu. rewrite <- bind_assoc.
  rewrite (bind_ok _ _ _ _ _ (read_u32 _ _ _ Hu)).
  unfold bind at 1. rewrite read_n by now rewrite L.
  unfold bind at 1, lift at 1.
  now rewrite (utf8_decode_encode _ _ E).
Qed.

Lemma write_texture_inv (texture : texture_entry) (bs : bytes) :
  BinarySceneExporter.write_texture texture = Ok bs ->
  exists path_bytes,
    utf8_encode (texture_path texture) = Ok path_bytes
    /\ List.length path_bytes = utf8_size (texture_path texture)
    /\ is_u32 (Z.of_nat (utf8_size (texture_path texture)))
    /\ bs = pystruct.le_bytes 4 (Z.of_nat (utf8_size (texture_path texture)))
              ++ path_bytes.
Proof.
  unfold BinarySceneExporter.write_texture. fold (texture_path texture).
  intros H.
  apply (name_written_inv _ (fun pb pl => Ok (pl ++ pb))) in H.
  destruct H as (pb & Epb & L & Hu & H).
  exists pb. repeat (split; [assumption|]). congruence.
Qed.

Lemma textures_loop_written (textures : list texture_entry) :
  forall (records tl : bytes) (acc : list texture_entry) (p : Z),
    write_each BinarySceneExporter.write_texture textures = Ok records ->
    BinarySceneImporter.textures_loop (List.length textures) acc
      {| rest := records ++ tl; pos := p |}
    = (Ok (acc ++ map (fun t => TextureStr (texture_path t)) textures),
       {| rest := tl; pos := p + Z.of_nat (List.length records) |}).
Proof.
  induction textures as [|t textures IH]; intros records tl acc p H.
  - cbn in H. assert (records = []) as -> by congruence.
    cbn. unfold ret. now rewrite app_nil_r, Z.add_0_r.
  - cbn [write_each] in H.
    apply rbind_ok_inv in H. destruct H as (r & Er & H).
    apply rbind_ok_inv in H. destruct H as (rs & Ers & H).
    assert (records = r ++ rs) as -> by congruence.
    apply write_texture_inv in Er. destruct Er as (pb & Epb & L & Hu & ->).
    cbn [List.length BinarySceneImporter.textures_loop].
    rewrite <- !app_assoc.
    rewrite (read_text _ _ _ _ _ Epb L Hu).
    rewrite (IH _ _ _ _ Ers). cbn [map].
    rewrite <- app_assoc. cbn [app].
    rewrite !length_app, length_le_bytes, L.
    do 2 f_equal. lia.
Qed.

Lemma load_exported_header (tl : bytes) :
  BinarySceneImporter.load (Examples.header ++ tl)
  = BinarySceneImporter.read_data SceneData.init {| rest := tl; pos := 8 |}.
Proof.
  rewrite load_after_magic;
    [reflexivity | reflexivity | rewrite length_app; cbn; lia].
Qed.

(** X7: a scene without materials and meshes comes back from the file it
    was exported to, its textures as their path strings in the same order;
    the importer stops at the end of the exported bytes and leaves unread
    whatever follows them in the file. *)
Theorem textures_round_trip (scene : SceneData.t) (bs tl : bytes) :
  SceneData.materials scene = [] ->
  SceneData.meshes scene = [] ->
  BinarySceneExporter.export scene = Ok bs ->
  BinarySceneImporter.load (bs ++ tl)
  = (Ok (SceneData.mk [] []
           (map (fun t => TextureStr (texture_path t))
              (SceneData.textures scene))),
     {| rest := tl; pos := Z.of_nat (List.length bs) |}).
Proof.
  intros Hm Hs H. apply export_inv in H.
  assert (U0 : is_u32 (Z.of_nat 0)) by (unfold is_u32; cbn; lia).
  destruct H as (m & t & s & Em & Et & Es & _ & Ut & _ & ->).
  rewrite Hm in *. rewrite Hs in *.
  cbn in Em, Es.
  assert (m = []) as -> by congruence. assert (s = []) as -> by congruence.
  rewrite <- !app_assoc. rewrite load_exported_header.
  unfold BinarySceneImporter.read_data, BinarySceneImporter._read_materials.
  unfold bind at 1. rewrite <- bind_assoc.
  cbn [List.length app].
  rewrite (bind_ok _ _ _ _ _ (read_u32 _ _ _ U0)).
  change (Z.to_nat (Z.of_nat 0)) with 0%nat.
  cbn [BinarySceneImporter.materials_loop]. unfold ret at 1.
  unfold bind at 1. unfold BinarySceneImporter._read_textures.
  rewrite <- bind_assoc.
  rewrite (bind_ok _ _ _ _ _ (read_u32 _ _ _ Ut)).
  rewrite Nat2Z.id, (textures_loop_written _ _ _ _ _ Et).
  unfold bind at 1. unfold BinarySceneImporter._read_meshes.
  rewrite <- bind_assoc.
  rewrite (bind_ok _ _ _ _ _ (read_u32 _ _ _ U0)).
  change (Z.to_nat (Z.of_nat 0)) with 0%nat.
  cbn [BinarySceneImporter.meshes_loop]. unfold ret.
  cbn [app]. f_equal. f_equal.
  rewrite !length_app, !length_le_bytes.
  change (List.length Examples.header) with 8%nat. cbn [List.length]. lia.
Qed.

Lemma textures_round_trip_witness :
  exists bs,
    BinarySceneExporter.export Examples.two_textures_scene = Ok bs
    /\ BinarySceneImporter.load bs
       = (Ok (SceneData.mk [] [] [TextureStr (str_of "a.png");
                                  TextureStr (str_of "b.png")]),
          {| rest := []; pos := 38 |}).
Proof.
  destruct (BinarySceneExporter.export Examples.two_textures_scene)
    as [bs|e] eqn:E; [|vm_compute in E; discriminate].
  exists bs. split; [reflexivity|].
  rewrite <- (app_nil_r bs) at 1.
  rewrite (textures_round_trip Examples.two_textures_scene bs []
             eq_refl eq_refl E).
  vm_compute in E. injection E as <-. reflexivity.
Defined.

Lemma unpack_nf_sized (n : nat) (bs : bytes) :
  List.length bs = (4 * n)%nat ->
  exists xs, pystruct.unpack_nf n bs = Ok xs /\ List.length xs = n.
Proof.
  intros H. unfold pystruct.unpack_nf.
  rewrite H, Nat.eqb_refl. eexists. split; [reflexivity|].
  rewrite length_map. clear H. revert bs.
  induction n as [|n IH]; intros bs; [reflexivity|].
  cbn [pystruct.items List.length]. now rewrite IH.
Qed.

Lemma unpack_f_sized (bs : bytes) :
  List.length bs = 4%nat -> exists x, pystruct.unpack_f bs = Ok x.
Proof.
  intros H. unfold pystruct.unpack_f.
  destruct (unpack_nf_sized 1 bs H) as (xs & -> & _). now eexists.
Qed.

(** One read of [n] bytes followed by a conversion that needs those [n]
    bytes. *)
Lemma read_then {A B} (n : Z) (b tl : bytes) (p : Z)
      (conv : bytes -> result A) (a : A) (k : A -> M B) :
  Z.of_nat (List.length b) = n ->
  conv b = Ok a ->
  bind (read n) (fun b => bind (lift (conv b)) k)
    {| rest := b ++ tl; pos := p |}
  = k a {| rest := tl; pos := p + n |}.
Proof.
  intros L E. unfold bind at 1. rewrite (read_n n b tl p L).
  unfold bind at 1, lift at 1. now rewrite E.
Qed.

Lemma write_each_cons_inv {A} (body : A -> result bytes) (x : A)
      (xs : list A) (bs : bytes) :
  write_each body (x :: xs) = Ok bs ->
  exists b bs', body x = Ok b /\ write_each body xs = Ok bs'
                /\ bs = b ++ bs'.
Proof.
  cbn [write_each]. intros H.
  apply rbind_ok_inv in H. destruct H as (b & Eb & H).
  apply rbind_ok_inv in H. destruct H as (bs' & Ebs & H).
  exists b, bs'. repeat split; congruence.
Qed.

Lemma pack_ni_4_inv (a b c d : Z) (bs : bytes) :
  pystruct.pack_ni 4 [a; b; c; d] = Ok bs ->
  - 2 ^ 31 <= a < 2 ^ 31
  /\ exists tail,
      List.length tail = 12%nat
      /\ bs = pystruct.le_bytes 4 (a mod 2 ^ 32) ++ tail.
Proof.
  unfold pystruct.pack_ni. cbn [List.length Nat.eqb]. intros H.
  apply write_each_cons_inv in H. destruct H as (ba & tail & Ea & Et & ->).
  apply pack_i_inv in Ea. destruct Ea as (Ra & ->).
  split; [exact Ra|]. exists tail. split; [|reflexivity].
  change 12%nat with (4 * List.length [b; c; d])%nat.
  apply (pack_ni_length 3). unfold pystruct.pack_ni.
  now cbn [List.length Nat.eqb].
Qed.

Lemma unpack_ni_4_first (a : Z) (tail : bytes) :
  - 2 ^ 31 <= a < 2 ^ 31 ->
  List.length tail = 12%nat ->
  exists xs,
    pystruct.unpack_ni 4 (pystruct.le_bytes 4 (a mod 2 ^ 32) ++ tail) = Ok xs
    /\ nth 0 xs 0 = a.
Proof.
  intros Ha L. unfold pystruct.unpack_ni.
  rewrite length_app, length_le_bytes, L.
  change (Nat.eqb (4 + 12) (4 * 4)) with true. cbv iota.
  eexists. split; [reflexivity|].
  cbn [pystruct.items map nth].
  rewrite firstn_app, length_le_bytes, Nat.sub_diag, firstn_O, app_nil_r.
  rewrite firstn_all2 by (rewrite length_le_bytes; lia).
  rewrite le_value_le_bytes
    by (change (256 ^ Z.of_nat 4) with (2 ^ 32); apply Z.mod_pos_bound; lia).
  unfold pystruct.signed32. change (2 ^ 32) with 4294967296 in *.
  change (2 ^ 31) with 2147483648 in *.
  destruct (Z.ltb_spec (a mod 4294967296) 2147483648);
    destruct (Z.lt_ge_cases a 0).
  - rewrite <- (Z.mod_unique a 4294967296 (-1) (a + 4294967296)) in H; lia.
  - apply Z.mod_small. lia.
  - rewrite <- (Z.mod_unique a 4294967296 (-1) (a + 4294967296)); lia.
  - rewrite Z.mod_small in H; lia.
Qed.

(** X8: the body of the materials loop, run on a record the exporter wrote,
    reads [64 + len(name)] bytes: it takes the name and the first texture
    slot (a negative index read as [None]), and leaves where they were the
    three other texture slots and the seven layers of the object it fills.
    What [material_extension] wrote is still in front of the cursor. *)
Theorem material_fields_read_back
        (mat m0 : Material.t) (bs tl : bytes) (p : Z) :
  BinarySceneExporter.write_material mat = Ok bs ->
  exists m' ext,
    BinarySceneExporter.material_extension mat = Ok ext
    /\ BinarySceneImporter.read_material_fields m0
         {| rest := bs ++ tl; pos := p |}
       = (Ok m',
          {| rest := ext ++ tl;
             pos := p + Z.of_nat (64 + utf8_size (Material.name mat)) |})
    /\ Material.name m' = Material.name mat
    /\ Material.base_color_texture m'
       = slot_read_back (Material.base_color_texture mat)
    /\ Material.normal_texture m' = Material.normal_texture m0
    /\ Material.metallic_roughness_texture m'
       = Material.metallic_roughness_texture m0
    /\ Material.emission_texture m' = Material.emission_texture m0
    /\ Material.clearcoat m' = Material.clearcoat m0
    /\ Material.transmission m' = Material.transmission m0
    /\ Material.sheen m' = Material.sheen m0
    /\ Material.subsurface m' = Material.subsurface m0
    /\ Material.anisotropy m' = Material.anisotropy m0
    /\ Material.iridescence m' = Material.iridescence m0
    /\ Material.volume m' = Material.volume m0.
Proof.
  rewrite write_material_layout. intros H.
  apply rbind_ok_inv in H. destruct H as (base & Eb & H).
  apply rbind_ok_inv in H. destruct H as (ext & Ee & H).
  assert (bs = base ++ pystruct.le_bytes 4
                          (BinarySceneExporter.material_flags mat) ++ ext)
    as -> by congruence. clear H.
  unfold BinarySceneExporter.material_base in Eb.
  apply name_written_inv in Eb. destruct Eb as (nb & Enb & L & Hu & H).
  apply rbind_ok_inv in H. destruct H as (bc & Ebc & H).
  apply rbind_ok_inv in H. destruct H as (em & Eem & H).
  apply rbind_ok_inv in H. destruct H as (me & Eme & H).
  apply rbind_ok_inv in H. destruct H as (ro & Ero & H).
  apply rbind_ok_inv in H. destruct H as (io & Eio & H).
  apply rbind_ok_inv in H. destruct H as (op & Eop & H).
  apply rbind_ok_inv in H. destruct H as (tx & Etx & H).
  assert (base = pystruct.le_bytes 4 (Z.of_nat (utf8_size (Material.name mat)))
                   ++ nb ++ bc ++ em ++ me ++ ro ++ io ++ op ++ tx)
    as -> by congruence. clear H.
  apply pack_nf_inv in Ebc, Eem. destruct Ebc as (_ & Lbc), Eem as (_ & Lem).
  apply pack_f_inv in Eme, Ero, Eio, Eop.
  apply pack_ni_4_inv in Etx. destruct Etx as (Ri & t12 & L12 & ->).
  destruct (unpack_nf_sized 3 bc Lbc) as (xbc & Xbc & _).
  destruct (unpack_nf_sized 3 em Lem) as (xem & Xem & _).
  destruct (unpack_f_sized me Eme) as (xme & Xme).
  destruct (unpack_f_sized ro Ero) as (xro & Xro).
  destruct (unpack_f_sized io Eio) as (xio & Xio).
  destruct (unpack_f_sized op Eop) as (xop & Xop).
  destruct (unpack_ni_4_first _ t12 Ri L12) as (xtx & Xtx & Ntx).
  eexists. exists ext. split; [exact Ee|].
  unfold BinarySceneImporter.read_material_fields.
  rewrite <- !app_assoc.
  rewrite (read_text _ _ _ _ _ Enb L Hu).
  assert (Zbc : Z.of_nat (List.length bc) = 12) by lia.
  assert (Zem : Z.of_nat (List.length em) = 12) by lia.
  assert (Zme : Z.of_nat (List.length me) = 4) by lia.
  assert (Zro : Z.of_nat (List.length ro) = 4) by lia.
  assert (Zio : Z.of_nat (List.length io) = 4) by lia.
  assert (Zop : Z.of_nat (List.length op) = 4) by lia.
  assert (Ztx : Z.of_nat (List.length
                            (pystruct.le_bytes 4
                               (BinarySceneExporter.to_texture_index
                                  (Material.base_color_texture mat)
                                mod 2 ^ 32) ++ t12)) = 16)
    by (rewrite length_app, length_le_bytes; lia).
  assert (Zfl : Z.of_nat (List.length
                            (pystruct.le_bytes 4
                               (BinarySceneExporter.material_flags mat))) = 4)
    by now rewrite length_le_bytes.
  assert (Xfl : pystruct.unpack_I
                  (pystruct.le_bytes 4
                     (BinarySceneExporter.material_flags mat))
                = Ok (BinarySceneExporter.material_flags mat)).
  { rewrite unpack_I_4 by apply length_le_bytes.
    rewrite le_value_le_bytes; [reflexivity|apply material_flags_u32]. }
  rewrite (read_then 12 bc _ _ _ _ _ Zbc Xbc).
  rewrite (read_then 12 em _ _ _ _ _ Zem Xem).
  rewrite (read_then 4 me _ _ _ _ _ Zme Xme).
  rewrite (read_then 4 ro _ _ _ _ _ Zro Xro).
  rewrite (read_then 4 io _ _ _ _ _ Zio Xio).
  rewrite (read_then 4 op _ _ _ _ _ Zop Xop).
  rewrite (app_assoc (pystruct.le_bytes 4 _) t12).
  rewrite (read_then 16 _ _ _ _ _ _ Ztx Xtx).
  rewrite (read_then 4 _ _ _ _ _ _ Zfl Xfl).
  unfold ret. split.
  - f_equal. f_equal. lia.
  - rewrite Ntx. repeat split.
Qed.

Lemma material_fields_read_back_witness :
  exists m',
    BinarySceneImporter.read_material_fields (Material.make [])
      {| rest := Examples.glass_record ++ Examples.no_textures_no_meshes;
         pos := 12 |}
    = (Ok m',
       {| rest := Examples.glass_extension ++ Examples.no_textures_no_meshes;
          pos := 81 |})
    /\ Material.name m' = str_of "glass"
    /\ Material.transmission m' = None.
Proof.
  destruct (material_fields_read_back (Examples.glass f0_5) (Material.make [])
              Examples.glass_record Examples.no_textures_no_meshes 12
              eq_refl)
    as (m' & ext & Ee & Er & Hn & _ & _ & _ & _ & _ & Ht & _).
  assert (ext = Examples.glass_extension) as ->
    by (change (BinarySceneExporter.material_extension (Examples.glass f0_5))
          with (Ok Examples.glass_extension) in Ee; congruence).
  exists m'. split; [exact Er|]. split; [exact Hn|exact Ht].
Defined.

Lemma items_written (xs : list Z) (bs : bytes) :
  write_each pystruct.pack_I xs = Ok bs ->
  map pystruct.le_value (pystruct.items (List.length xs) bs) = xs.
Proof.
  revert bs. induction xs as [|x xs IH]; intros bs H; [reflexivity|].
  apply write_each_cons_inv in H. destruct H as (b & bs' & Eb & Ebs & ->).
  apply pack_I_inv in Eb. destruct Eb as (Hx & ->).
  cbn [List.length pystruct.items map].
  rewrite firstn_app, length_le_bytes, Nat.sub_diag, firstn_O, app_nil_r.
  rewrite firstn_all2 by (rewrite length_le_bytes; lia).
  rewrite skipn_app, length_le_bytes, Nat.sub_diag, skipn_O.
  rewrite skipn_all2 by (rewrite length_le_bytes; lia).
  cbn [app]. rewrite (IH _ Ebs), le_value_le_bytes by exact Hx.
  reflexivity.
Qed.

Lemma index_block_read_back (indices : list Z) (bs : bytes) :
  pystruct.pack_nI (List.length indices) indices = Ok bs ->
  pystruct.unpack_nI (List.length indices) bs = Ok indices.
Proof.
  intros H. pose proof (pack_nI_length _ _ _ H) as L.
  unfold pystruct.pack_nI in H. rewrite Nat.eqb_refl in H.
  unfold pystruct.unpack_nI. rewrite L, Nat.eqb_refl.
  now rewrite (items_written _ _ H).
Qed.

Lemma vertices_loop_written (vs : list Vertex.t) :
  forall (block tl : bytes) (mesh0 : Mesh.t) (p : Z),
    write_each BinarySceneExporter.write_vertex vs = Ok block ->
    exists vs',
      BinarySceneImporter.vertices_loop (List.length vs) mesh0
        {| rest := block ++ tl; pos := p |}
      = (Ok (Mesh.set_vertices (Mesh.vertices mesh0 ++ vs') mesh0),
         {| rest := tl; pos := p + 44 * Z.of_nat (List.length vs) |})
      /\ List.length vs' = List.length vs
      /\ Forall vertex_arity vs'.
Proof.
  induction vs as [|v vs IH]; intros block tl mesh0 p H.
  - cbn in H. assert (block = []) as -> by congruence.
    exists []. cbn. unfold ret. rewrite app_nil_r, Z.add_0_r.
    destruct mesh0. repeat split. constructor.
  - apply write_each_cons_inv in H. destruct H as (b & bs' & Eb & Ebs & ->).
    unfold BinarySceneExporter.write_vertex in Eb.
    apply rbind_ok_inv in Eb. destruct Eb as (bp & Ep & Eb).
    apply rbind_ok_inv in Eb. destruct Eb as (bn & En & Eb).
    apply rbind_ok_inv in Eb. destruct Eb as (bt & Et & Eb).
    apply rbind_ok_inv in Eb. destruct Eb as (bg & Eg & Eb).
    assert (b = bp ++ bn ++ bt ++ bg) as -> by congruence. clear Eb.
    apply pack_nf_inv in Ep, En, Et, Eg.
    destruct Ep as (_ & Lp), En as (_ & Ln), Et as (_ & Lt), Eg as (_ & Lg).
    destruct (unpack_nf_sized 3 bp Lp) as (xp & Xp & Ap).
    destruct (unpack_nf_sized 3 bn Ln) as (xn & Xn & An).
    destruct (unpack_nf_sized 2 bt Lt) as (xt & Xt & At).
    destruct (unpack_nf_sized 3 bg Lg) as (xg & Xg & Ag).
    assert (Zp : Z.of_nat (List.length bp) = 12) by lia.
    assert (Zn : Z.of_nat (List.length bn) = 12) by lia.
    assert (Zt : Z.of_nat (List.length bt) = 8) by lia.
    assert (Zg : Z.of_nat (List.length bg) = 12) by lia.
    cbn [List.length BinarySceneImporter.vertices_loop].
    rewrite <- !app_assoc.
    rewrite (read_then 12 bp _ _ _ _ _ Zp Xp).
    rewrite (read_then 12 bn _ _ _ _ _ Zn Xn).
    rewrite (read_then 8 bt _ _ _ _ _ Zt Xt).
    rewrite (read_then 12 bg _ _ _ _ _ Zg Xg).
    destruct (IH bs' tl
                (Mesh.set_vertices
                   (Mesh.vertices mesh0
                      ++ [Vertex.init xp xn xt (Some xg)]) mesh0)
                (p + 12 + 12 + 8 + 12) Ebs)
      as (vs' & Ev & Lv & Av).
    exists (Vertex.init xp xn xt (Some xg) :: vs').
    rewrite Ev. split; [|split].
    + destruct mesh0 as [n0 v0 i0 m0].
      cbn [Mesh.set_vertices Mesh.vertices Mesh.name Mesh.indices
             Mesh.material_index].
      rewrite <- app_assoc. cbn [app]. do 2 f_equal. lia.
    + cbn [List.length]. now rewrite Lv.
    + constructor; [|exact Av]. now repeat split.
Qed.

(** X9: the body of the meshes loop, run on a record the exporter wrote,
    reads exactly that record: it takes the name, the material index and the
    index list as they were, and appends one vertex of 3, 3, 2 and 3
    components per vertex written. *)
Theorem mesh_fields_read_back (mesh m0 : Mesh.t) (bs tl : bytes) (p : Z) :
  BinarySceneExporter.write_mesh mesh = Ok bs ->
  exists m' vs',
    BinarySceneImporter.read_mesh_fields m0 {| rest := bs ++ tl; pos := p |}
    = (Ok m', {| rest := tl; pos := p + Z.of_nat (List.length bs) |})
    /\ Mesh.name m' = Mesh.name mesh
    /\ Mesh.material_index m' = Mesh.material_index mesh
    /\ Mesh.indices m' = Mesh.indices mesh
    /\ Mesh.vertices m' = Mesh.vertices m0 ++ vs'
    /\ List.length vs' = List.length (Mesh.vertices mesh)
    /\ Forall vertex_arity vs'.
Proof.
  intros H. pose proof (write_mesh_size _ _ H) as Lbs.
  apply write_mesh_inv in H.
  destruct H as (nb & vb & ib & Enb & L & Hu & Um & Uv & Evb & Ui & Eib & ->).
  unfold BinarySceneExporter.vertex_block in Evb.
  unfold BinarySceneExporter.index_block in Eib.
  pose proof (pack_nI_length _ _ _ Eib) as Lib.
  apply index_block_read_back in Eib.
  destruct (vertices_loop_written _ vb
              (pystruct.le_bytes 4
                 (Z.of_nat (List.length (Mesh.indices mesh))) ++ ib ++ tl)
              (Mesh.set_material_index (Mesh.material_index mesh)
                 (Mesh.set_name (Mesh.name mesh) m0))
              (p + 4 + Z.of_nat (utf8_size (Mesh.name mesh)) + 4 + 4) Evb)
    as (vs' & Ev & Lv & Av).
  eexists. exists vs'.
  unfold BinarySceneImporter.read_mesh_fields.
  rewrite <- !app_assoc.
  rewrite (read_text _ _ _ _ _ Enb L Hu).
  rewrite <- bind_assoc. rewrite (bind_ok _ _ _ _ _ (read_u32 _ _ _ Um)).
  rewrite <- bind_assoc. rewrite (bind_ok _ _ _ _ _ (read_u32 _ _ _ Uv)).
  rewrite Nat2Z.id. unfold bind at 1. rewrite Ev.
  rewrite <- bind_assoc. rewrite (bind_ok _ _ _ _ _ (read_u32 _ _ _ Ui)).
  rewrite Nat2Z.id.
  assert (Zib : Z.of_nat (List.length ib)
                = Z.of_nat (List.length (Mesh.indices mesh)) * 4) by lia.
  rewrite (read_then _ ib _ _ _ _ _ Zib Eib).
  unfold ret. split; [|split; [|split; [|split; [|split; [|split]]]]].
  - f_equal. f_equal. rewrite Lbs. unfold mesh_size. lia.
  - now destruct m0.
  - now destruct m0.
  - now destruct m0.
  - now destruct m0.
  - exact Lv.
  - exact Av.
Qed.

Lemma mesh_fields_read_back_witness :
  exists bs m',
    BinarySceneExporter.write_mesh Examples.sliver = Ok bs
    /\ BinarySceneImporter.read_mesh_fields (Mesh.mk [] [] [] 0)
         {| rest := bs; pos := 20 |}
       = (Ok m', {| rest := []; pos := 20 + 122 |})
    /\ Mesh.name m' = str_of "sliver"
    /\ Mesh.indices m' = [0; 1; 0]
    /\ List.length (Mesh.vertices m') = 2%nat.
Proof.
  destruct (BinarySceneExporter.write_mesh Examples.sliver) as [bs|e] eqn:E;
    [|vm_compute in E; discriminate].
  destruct (mesh_fields_read_back Examples.sliver (Mesh.mk [] [] [] 0)
              bs [] 20 E)
    as (m' & vs' & Er & Hn & _ & Hi & Hv & Lv & _).
  exists bs, m'. split; [reflexivity|].
  rewrite app_nil_r in Er. rewrite (write_mesh_size _ _ E) in Er.
  split; [exact Er|]. split; [exact Hn|]. split; [exact Hi|].
  rewrite Hv. cbn [Mesh.vertices app]. exact Lv.
Defined.

(** ** Truncated files *)

Lemma bind_raise {A B} (c : M A) (k : A -> M B) f e f' :
  c f = (Raise e, f') -> bind c k f = (Raise e, f').
Proof. intros H. unfold bind. now rewrite H. Qed.

Lemma firstn_app_cases {A} (k : nat) (a b : list A) :
  ((k < List.length a)%nat /\ firstn k (a ++ b) = firstn k a)
  \/ ((List.length a <= k)%nat
      /\ firstn k (a ++ b) = a ++ firstn (k - List.length a) b).
Proof.
  destruct (Nat.lt_ge_cases k (List.length a)) as [L|G]; [left|right];
    (split; [assumption|]); rewrite firstn_app.
  - replace (k - List.length a)%nat with 0%nat by lia.
    now rewrite firstn_O, app_nil_r.
  - now rewrite firstn_all2 by lia.
Qed.

(** Reading a count where fewer than 4 bytes are left. *)
Lemma read_u32_short (l : bytes) (p : Z) :
  (List.length l < 4)%nat ->
  bind (read 4) (fun b => lift (pystruct.unpack_I b))
    {| rest := l; pos := p |}
  = (Raise StructError,
     {| rest := []; pos := p + Z.of_nat (List.length l) |}).
Proof.
  intros H. unfold bind, read, lift. cbn [rest pos].
  change (Z.to_nat 4) with 4%nat.
  rewrite firstn_all2, skipn_all2 by lia.
  now rewrite unpack_I_short by lia.
Qed.

(** Reading a count from a prefix of a stream that starts with one. *)
Lemma read_u32_prefix (x : Z) (tl : bytes) (k : nat) (p : Z) :
  is_u32 x ->
  let r := bind (read 4) (fun b => lift (pystruct.unpack_I b))
             {| rest := firstn k (pystruct.le_bytes 4 x ++ tl); pos := p |} in
  ((k < 4)%nat /\ fst r = Raise StructError)
  \/ ((4 <= k)%nat
      /\ r = (Ok x, {| rest := firstn (k - 4) tl; pos := p + 4 |})).
Proof.
  intros Hx. cbv zeta.
  destruct (firstn_app_cases k (pystruct.le_bytes 4 x) tl) as [(L & E)|(G & E)];
    rewrite length_le_bytes in *; rewrite E.
  - left. split; [exact L|].
    rewrite read_u32_short; [reflexivity|].
    rewrite length_firstn, length_le_bytes. lia.
  - right. split; [exact G|]. now rewrite read_u32.
Qed.

Lemma read_short (n : Z) (l : bytes) (p : Z) :
  (List.length l <= Z.to_nat n)%nat ->
  read n {| rest := l; pos := p |}
  = (Ok l, {| rest := []; pos := p + Z.of_nat (List.length l) |}).
Proof.
  intros H. unfold read. cbn [rest pos].
  now rewrite firstn_all2, skipn_all2 by lia.
Qed.

Lemma textures_loop_at_end (n : nat) (acc : list texture_entry) (p : Z) :
  stops_short
    (BinarySceneImporter.textures_loop n acc {| rest := []; pos := p |}).
Proof.
  destruct n as [|n]; [now right|]. left.
  cbn [BinarySceneImporter.textures_loop]. rewrite <- bind_assoc.
  erewrite bind_raise by (apply read_u32_short; cbn; lia).
  now exists StructError.
Qed.

Lemma textures_loop_truncated (textures : list texture_entry) :
  forall (records : bytes) (k : nat) (acc : list texture_entry) (p : Z),
    write_each BinarySceneExporter.write_texture textures = Ok records ->
    (k < List.length records)%nat ->
    stops_short
      (BinarySceneImporter.textures_loop (List.length textures) acc
         {| rest := firstn k records; pos := p |}).
Proof.
  induction textures as [|t textures IH]; intros records k acc p H Hk.
  - cbn in H. assert (records = []) as -> by congruence. cbn in Hk. lia.
  - apply write_each_cons_inv in H. destruct H as (r & rs & Er & Ers & ->).
    apply write_texture_inv in Er. destruct Er as (pb & Epb & L & Hu & ->).
    cbn [List.length BinarySceneImporter.textures_loop].
    rewrite <- !app_assoc. rewrite <- bind_assoc.
    destruct (read_u32_prefix _ (pb ++ rs) k p Hu) as [(K4 & E)|(K4 & E)].
    + left. unfold bind at 1.
      destruct (bind (read 4) _ _) as [[x|e] f]; [discriminate|].
      now exists e.
    + rewrite (bind_ok _ _ _ _ _ E). clear E.
      destruct (firstn_app_cases (k - 4) pb rs) as [(Lk & E)|(Gk & E)];
        rewrite E; clear E.
      * unfold bind at 1. rewrite read_short
          by (rewrite length_firstn, Nat2Z.id; lia).
        unfold bind at 1, lift at 1.
        destruct (utf8_decode (firstn (k - 4) pb)) as [path|e];
          [apply textures_loop_at_end|left; now exists e].
      * unfold bind at 1. rewrite read_n by lia.
        unfold bind at 1, lift at 1.
        rewrite (utf8_decode_encode _ _ Epb).
        apply (IH rs _ _ _ Ers).
        rewrite !length_app, length_le_bytes in Hk. lia.
Qed.

Lemma read_meshes_at_end (l : bytes) (p : Z) :
  (List.length l < 4)%nat ->
  exists e f,
    BinarySceneImporter._read_meshes {| rest := l; pos := p |} = (Raise e, f).
Proof.
  intros H. unfold BinarySceneImporter._read_meshes. rewrite <- bind_assoc.
  erewrite bind_raise by (now apply read_u32_short). now eexists; eexists.
Qed.

(** X10: no proper prefix of the file exported for a scene without materials
    and meshes is decoded: wherever the file is cut, [load] raises. *)
Theorem truncated_textures_file_is_rejected
        (scene : SceneData.t) (bs : bytes) (n : nat) :
  SceneData.materials scene = [] ->
  SceneData.meshes scene = [] ->
  BinarySceneExporter.export scene = Ok bs ->
  (n < List.length bs)%nat ->
  exists e, fst (BinarySceneImporter.load (firstn n bs)) = Raise e.
Proof.
  intros Hm Hs H Hn. apply export_inv in H.
  assert (U0 : is_u32 (Z.of_nat 0)) by (unfold is_u32; cbn; lia).
  destruct H as (m & t & s & Em & Et & Es & _ & Ut & _ & ->).
  rewrite Hm in *. rewrite Hs in *. cbn in Em, Es.
  assert (m = []) as -> by congruence. assert (s = []) as -> by congruence.
  cbn [List.length app] in *. rewrite app_nil_r in *.
  set (body := pystruct.le_bytes 4 (Z.of_nat 0)
                 ++ pystruct.le_bytes 4
                      (Z.of_nat (List.length (SceneData.textures scene)))
                 ++ t ++ pystruct.le_bytes 4 (Z.of_nat 0)) in *.
  destruct (firstn_app_cases n Examples.header body) as [(L & E)|(G & E)];
    rewrite E; clear E; change (List.length Examples.header) with 8%nat in *.
  { (* inside the header *)
    destruct (Nat.lt_ge_cases n 4) as [L4|G4].
    - eexists. rewrite load_bad_magic; [reflexivity|].
      intros E. apply (f_equal (@List.length _)) in E.
      rewrite !length_firstn in E.
      change (List.length BinarySceneExporter.MAGIC) with 4%nat in E.
      change (List.length Examples.header) with 8%nat in E. lia.
    - exists StructError. apply load_short_header.
      + rewrite firstn_firstn. now replace (Nat.min 4 n) with 4%nat by lia.
      + rewrite length_firstn.
        change (List.length Examples.header) with 8%nat. lia. }
  rewrite load_exported_header. rewrite length_app in Hn.
  change (List.length Examples.header) with 8%nat in Hn.
  unfold BinarySceneImporter.read_data, BinarySceneImporter._read_materials.
  unfold bind at 1. rewrite <- bind_assoc. subst body.
  destruct (read_u32_prefix _ (pystruct.le_bytes 4
                                 (Z.of_nat (List.length
                                              (SceneData.textures scene)))
                                 ++ t ++ pystruct.le_bytes 4 (Z.of_nat 0))
              (n - 8) 8 U0) as [(K & E)|(K & E)].
  { unfold bind at 1. destruct (bind (read 4) _ _) as [[x|e] f];
      [discriminate|]. now exists e. }
  rewrite (bind_ok _ _ _ _ _ E). clear E.
  change (Z.to_nat (Z.of_nat 0)) with 0%nat.
  cbn [BinarySceneImporter.materials_loop]. unfold ret at 1.
  unfold bind at 1. unfold BinarySceneImporter._read_textures.
  rewrite <- bind_assoc.
  destruct (read_u32_prefix _ (t ++ pystruct.le_bytes 4 (Z.of_nat 0))
              (n - 8 - 4) (8 + 4) Ut) as [(K2 & E)|(K2 & E)].
  { unfold bind at 1. destruct (bind (read 4) _ _) as [[x|e] f];
      [discriminate|]. now exists e. }
  rewrite (bind_ok _ _ _ _ _ E). clear E. rewrite Nat2Z.id.
  rewrite !length_app, !length_le_bytes in Hn.
  destruct (firstn_app_cases (n - 8 - 4 - 4) t
              (pystruct.le_bytes 4 (Z.of_nat 0))) as [(Lt & E)|(Gt & E)];
    rewrite E; clear E.
  - destruct (textures_loop_truncated _ t (n - 8 - 4 - 4) [] (8 + 4 + 4)
                Et Lt) as [(e & He)|Hr].
    + destruct (BinarySceneImporter.textures_loop _ _ _) as [[x|e'] f];
        [discriminate|]. now exists e'.
    + destruct (BinarySceneImporter.textures_loop _ _ _) as [[x|e'] f];
        [|now exists e'].
      cbn [snd] in Hr. destruct f as [r q]. cbn [rest] in Hr. subst r.
      unfold bind at 1.
      destruct (read_meshes_at_end [] q) as (e & f & ->); [cbn; lia|].
      now exists e.
  - rewrite (textures_loop_written _ _ _ _ _ Et).
    unfold bind at 1.
    destruct (read_meshes_at_end
                (firstn (n - 8 - 4 - 4 - List.length t)
                   (pystruct.le_bytes 4 (Z.of_nat 0)))
                (8 + 4 + 4 + Z.of_nat (List.length t))) as (e & f & ->).
    + rewrite length_firstn, length_le_bytes. lia.
    + now exists e.
Qed.

Lemma truncated_textures_file_is_rejected_witness :
  exists bs e,
    BinarySceneExporter.export Examples.two_textures_scene = Ok bs
    /\ fst (BinarySceneImporter.load (firstn 30 bs)) = Raise e.
Proof.
  destruct (BinarySceneExporter.export Examples.two_textures_scene)
    as [bs|e] eqn:E; [|vm_compute in E; discriminate].
  destruct (truncated_textures_file_is_rejected Examples.two_textures_scene
              bs 30 eq_refl eq_refl E) as (e & He).
  - rewrite (export_size _ _ E). cbn. lia.
  - exists bs, e. split; [reflexivity|exact He].
Defined.

(** ** The scenes the exporter accepts *)

Lemma write_each_inv {A} (body : A -> result bytes) (xs : list A)
      (bs : bytes) :
  write_each body xs = Ok bs -> Forall (fun x => exists b, body x = Ok b) xs.
Proof.
  revert bs. induction xs as [|x xs IH]; intros bs H; [constructor|].
  apply write_each_cons_inv in H. destruct H as (b & bs' & Eb & Ebs & _).
  constructor; [now exists b|now apply (IH bs')].
Qed.

Lemma utf8_encode_char_scalar (cp : Z) (b : bytes) :
  utf8_encode_char cp = Ok b -> is_scalar cp.
Proof.
  unfold utf8_encode_char, is_scalar.
  destruct (Z.ltb_spec cp 0); [discriminate|].
  destruct (Z.ltb_spec cp 0x80); [intros _; lia|].
  destruct (Z.ltb_spec cp 0x800); [intros _; lia|].
  destruct (Z.leb_spec 0xD800 cp); destruct (Z.leb_spec cp 0xDFFF);
    cbn [andb]; try discriminate;
    (destruct (Z.ltb_spec cp 0x10000); [intros _; lia|]);
    (destruct (Z.leb_spec cp 0x10FFFF); [intros _; lia|discriminate]).
Qed.

Lemma text_written_inv (s : pystr) (bs : bytes) :
  utf8_encode s = Ok bs -> is_u32 (Z.of_nat (utf8_size s)) -> text_wf s.
Proof.
  intros H Hu. split; [|apply Hu].
  clear Hu. revert bs H. induction s as [|cp s IH]; intros bs H;
    [constructor|].
  cbn [utf8_encode] in H.
  apply rbind_ok_inv in H. destruct H as (b & Eb & H).
  apply rbind_ok_inv in H. destruct H as (bs' & Ebs & _).
  constructor; [now apply (utf8_encode_char_scalar cp b)|now apply (IH bs')].
Qed.

(** [struct.pack('<n>f', *xs)] asks for [n] arguments and for nothing
    else. *)
Lemma pack_nf_written (n : nat) (xs : list pyfloat) :
  List.length xs = n -> exists bs, pystruct.pack_nf n xs = Ok bs.
Proof.
  intros H. unfold pystruct.pack_nf. rewrite H, Nat.eqb_refl.
  apply write_each_ok. apply Forall_forall. intros x _.
  exists (packed_single x). apply pack_f_written.
Qed.

Lemma pack_nf_arity (n : nat) (xs : list pyfloat) (bs : bytes) :
  pystruct.pack_nf n xs = Ok bs -> List.length xs = n.
Proof. intros H. now apply (pack_nf_inv n xs bs). Qed.

Lemma slot_exportable_i32 (slot : option Z) :
  slot_exportable slot <->
  - 2 ^ 31 <= BinarySceneExporter.to_texture_index slot < 2 ^ 31.
Proof.
  destruct slot as [v|];
    cbn [slot_exportable BinarySceneExporter.to_texture_index].
  - destruct (Z.eqb_spec v (-1)); lia.
  - lia.
Qed.

Lemma write_vertex_arity (v : Vertex.t) (bs : bytes) :
  BinarySceneExporter.write_vertex v = Ok bs -> vertex_arity v.
Proof.
  unfold BinarySceneExporter.write_vertex. intros H.
  apply rbind_ok_inv in H. destruct H as (p & Ep & H).
  apply rbind_ok_inv in H. destruct H as (n & En & H).
  apply rbind_ok_inv in H. destruct H as (t & Et & H).
  apply rbind_ok_inv in H. destruct H as (g & Eg & _).
  apply pack_nf_arity in Ep, En, Et, Eg.
  split; [exact Ep|]. split; [exact En|]. split; [exact Et|exact Eg].
Qed.

Lemma write_vertex_written (v : Vertex.t) :
  vertex_arity v -> exists bs, BinarySceneExporter.write_vertex v = Ok bs.
Proof.
  intros (Hp & Hn & Ht & Hg). unfold BinarySceneExporter.write_vertex.
  destruct (pack_nf_written 3 _ Hp) as (p & ->).
  destruct (pack_nf_written 3 _ Hn) as (n & ->).
  destruct (pack_nf_written 2 _ Ht) as (t & ->).
  destruct (pack_nf_written 3 _ Hg) as (g & ->).
  cbn [rbind]. eexists. reflexivity.
Qed.

Lemma write_mesh_exportable (mesh : Mesh.t) (bs : bytes) :
  BinarySceneExporter.write_mesh mesh = Ok bs -> mesh_exportable mesh.
Proof.
  intros H. apply write_mesh_inv in H.
  destruct H as (nb & vb & ib & Enb & L & Hu & Um & Uv & Evb & Ui & Eib & _).
  split; [now apply (text_written_inv _ nb)|]. split; [exact Um|].
  split.
  { unfold BinarySceneExporter.vertex_block in Evb.
    apply write_each_inv in Evb. eapply Forall_impl; [|exact Evb].
    intros v (b & Hb). now apply (write_vertex_arity v b). }
  split; [apply Uv|]. split; [|apply Ui].
  unfold BinarySceneExporter.index_block, pystruct.pack_nI in Eib.
  rewrite Nat.eqb_refl in Eib. apply write_each_inv in Eib.
  eapply Forall_impl; [|exact Eib].
  intros i (b & Hb). now apply pack_I_inv in Hb.
Qed.

Lemma write_mesh_written (mesh : Mesh.t) :
  mesh_exportable mesh ->
  exists bs, BinarySceneExporter.write_mesh mesh = Ok bs.
Proof.
  intros (Hn & Hm & Hv & Cv & Hi & Ci).
  unfold BinarySceneExporter.write_mesh.
  destruct (text_written _ Hn) as (nb & Enb & Elen).
  rewrite Enb. cbn [rbind]. rewrite Elen. cbn [rbind].
  rewrite (pack_I_ok _ Hm). cbn [rbind].
  rewrite (count_written _ Cv). cbn [rbind].
  destruct (write_each_ok BinarySceneExporter.write_vertex
              (Mesh.vertices mesh)) as (vb & Evb).
  { eapply Forall_impl; [|exact Hv]. intros v. apply write_vertex_written. }
  unfold BinarySceneExporter.vertex_block. rewrite Evb. cbn [rbind].
  rewrite (count_written _ Ci). cbn [rbind].
  destruct (pack_nI_ok _ Hi) as (ib & Eib & _).
  unfold BinarySceneExporter.index_block. rewrite Eib. cbn [rbind].
  eexists. reflexivity.
Qed.

Lemma write_texture_wf (texture : texture_entry) (bs : bytes) :
  BinarySceneExporter.write_texture texture = Ok bs -> texture_wf texture.
Proof.
  intros H. apply write_texture_inv in H.
  destruct H as (pb & Epb & _ & Hu & _).
  destruct texture; now apply (text_written_inv _ pb).
Qed.

Lemma write_material_exportable (mat : Material.t) (bs : bytes) :
  BinarySceneExporter.write_material mat = Ok bs -> material_exportable mat.
Proof.
  rewrite write_material_layout. intros H.
  apply rbind_ok_inv in H. destruct H as (base & Eb & _).
  unfold BinarySceneExporter.material_base in Eb.
  apply name_written_inv in Eb. destruct Eb as (nb & Enb & L & Hu & H).
  apply rbind_ok_inv in H. destruct H as (bc & Ebc & H).
  apply rbind_ok_inv in H. destruct H as (em & Eem & H).
  apply rbind_ok_inv in H. destruct H as (me & Eme & H).
  apply rbind_ok_inv in H. destruct H as (ro & Ero & H).
  apply rbind_ok_inv in H. destruct H as (io & Eio & H).
  apply rbind_ok_inv in H. destruct H as (op & Eop & H).
  apply rbind_ok_inv in H. destruct H as (tx & Etx & _).
  apply pack_nf_arity in Ebc, Eem.
  unfold pystruct.pack_ni in Etx. cbn [List.length Nat.eqb] in Etx.
  apply write_each_inv in Etx.
  assert (S : Forall (fun i => - 2 ^ 31 <= i < 2 ^ 31)
                [BinarySceneExporter.to_texture_index
                   (Material.base_color_texture mat);
                 BinarySceneExporter.to_texture_index
                   (Material.normal_texture mat);
                 BinarySceneExporter.to_texture_index
                   (Material.metallic_roughness_texture mat);
                 BinarySceneExporter.to_texture_index
                   (Material.emission_texture mat)]).
  { eapply Forall_impl; [|exact Etx]. intros i (b & Hb).
    now apply pack_i_inv in Hb. }
  inversion S as [|? ? S1 S']; subst. inversion S' as [|? ? S2 S'']; subst.
  inversion S'' as [|? ? S3 S''']; subst.
  inversion S''' as [|? ? S4 _]; subst.
  split; [now apply (text_written_inv _ nb)|].
  split; [exact Ebc|]. split; [exact Eem|].
  repeat split; now apply slot_exportable_i32.
Qed.

Lemma write_material_written (mat : Material.t) :
  material_exportable mat ->
  exists bs, BinarySceneExporter.write_material mat = Ok bs.
Proof.
  intros (Hn & Hb & He & S1 & S2 & S3 & S4).
  rewrite write_material_layout. unfold BinarySceneExporter.material_base.
  destruct (text_written _ Hn) as (nb & Enb & Elen).
  destruct (pack_nf_written 3 _ Hb) as (b & Eb).
  destruct (pack_nf_written 3 _ He) as (e & Ee).
  rewrite Enb. cbn [rbind]. rewrite Elen. cbn [rbind].
  rewrite Eb. cbn [rbind]. rewrite Ee. cbn [rbind].
  rewrite !pack_f_written. cbn [rbind].
  unfold pystruct.pack_ni. cbn [List.length Nat.eqb write_each].
  rewrite !pack_i_ok by now apply slot_exportable_i32.
  cbn [rbind].
  destruct (material_extension_written mat) as (Hnone & Hsome).
  destruct (Material.transmission mat) as [t|] eqn:Et.
  - destruct (Hsome t eq_refl) as (-> & _). cbn [rbind].
    eexists. reflexivity.
  - rewrite (Hnone eq_refl). cbn [rbind]. eexists. reflexivity.
Qed.

(** X11: [export] returns exactly on the scenes whose every written field
    can be packed: counts and UTF-8 lengths below 2^32, names and paths
    without a lone surrogate, 3 + 3 floats per material and 3 + 3 + 2 + 3
    per vertex, material and vertex indices in [0, 2^32), texture slots
    [None] or in [-2^31, 2^31).  On every other scene it raises.  The value
    of a float never matters: one beyond the range of binary32 is written
    as an infinity. *)
Theorem export_returns_iff_exportable (scene : SceneData.t) :
  (exists bs, BinarySceneExporter.export scene = Ok bs)
  <-> scene_exportable scene.
Proof.
  split.
  - intros (bs & H). apply export_inv in H.
    destruct H as (m & t & s & Em & Et & Es & Um & Ut & Us & _).
    apply write_each_inv in Em, Et, Es.
    split; [|split; [apply Um|split; [|split; [apply Ut|split; [|apply Us]]]]].
    + eapply Forall_impl; [|exact Em]. intros x (b & Hb).
      now apply (write_material_exportable x b).
    + eapply Forall_impl; [|exact Et]. intros x (b & Hb).
      now apply (write_texture_wf x b).
    + eapply Forall_impl; [|exact Es]. intros x (b & Hb).
      now apply (write_mesh_exportable x b).
  - intros (Hm & Cm & Ht & Ct & Hs & Cs).
    destruct (section_written BinarySceneExporter.write_material _
                material_exportable write_material_written Hm Cm)
      as (mb & Emb).
    destruct (section_written BinarySceneExporter.write_texture _ texture_wf
                write_texture_ok Ht Ct) as (tb & Etb).
    destruct (section_written BinarySceneExporter.write_mesh _
                mesh_exportable write_mesh_written Hs Cs) as (sb & Esb).
    unfold BinarySceneExporter.export, BinarySceneExporter._write_header.
    change (pystruct.pack_I BinarySceneExporter.VERSION)
      with (Ok (pystruct.le_bytes 4 1)). cbn [rbind].
    unfold BinarySceneExporter._write_materials,
      BinarySceneExporter._write_textures, BinarySceneExporter._write_meshes.
    rewrite Emb. cbn [rbind]. rewrite Etb. cbn [rbind].
    rewrite Esb. cbn [rbind]. eexists. reflexivity.
Qed.

Lemma export_negative_index (scene : SceneData.t) (mesh : Mesh.t)
      (meshes : list Mesh.t) :
  SceneData.meshes scene = mesh :: meshes ->
  Mesh.material_index mesh < 0 ->
  exists e, BinarySceneExporter.export scene = Raise e.
Proof.
  intros Em Hlt.
  destruct (BinarySceneExporter.export scene) as [bs|e] eqn:Ex;
    [|now exists e].
  exfalso. apply export_inv in Ex.
  destruct Ex as (m & t & s & _ & _ & Es & _).
  rewrite Em in Es. apply write_each_inv in Es.
  inversion Es as [|? ? (b & Hb) _]; subst.
  apply write_mesh_inv in Hb.
  destruct Hb as (nb & vb & ib & _ & _ & _ & (Hge & _) & _). lia.
Qed.

(** X12: [validate_scene] does not look at the sign of [material_index]: a
    scene with meshes whose indices are all negative is validated, and
    [export] raises on the scene so validated. *)
Theorem negative_index_validated_not_exported (scene : SceneData.t) :
  SceneData.meshes scene <> [] ->
  Forall (fun mesh => Mesh.material_index mesh < 0) (SceneData.meshes scene) ->
  fst (BaseLoader.validate_scene scene) = Ok true
  /\ exists e,
      BinarySceneExporter.export (snd (BaseLoader.validate_scene scene))
      = Raise e.
Proof.
  destruct scene as [meshes materials textures].
  cbn [SceneData.meshes]. intros Hne Hneg.
  destruct meshes as [|mesh meshes]; [now contradiction Hne|].
  assert (Hlt : Mesh.material_index mesh < 0) by now inversion Hneg.
  unfold BaseLoader.validate_scene.
  cbn [SceneData.meshes SceneData.materials].
  destruct materials as [|mat materials].
  - cbn [Material.init SceneData.set_materials SceneData.materials
           SceneData.meshes app List.length fst snd].
    split.
    + f_equal. apply indices_valid_true. eapply Forall_impl; [|exact Hneg].
      intros x Hx. cbv beta in Hx. lia.
    + now apply (export_negative_index _ mesh meshes).
  - cbn [SceneData.materials SceneData.meshes fst snd].
    split.
    + f_equal. apply indices_valid_true. eapply Forall_impl; [|exact Hneg].
      intros x Hx. cbv beta in Hx. cbn [List.length]. lia.
    + now apply (export_negative_index _ mesh meshes).
Qed.

Lemma negative_index_validated_not_exported_witness :
  fst (BaseLoader.validate_scene Examples.negative_index_scene) = Ok true
  /\ exists e,
      BinarySceneExporter.export
        (snd (BaseLoader.validate_scene Examples.negative_index_scene))
      = Raise e.
Proof.
  apply (negative_index_validated_not_exported Examples.negative_index_scene).
  - discriminate.
  - repeat constructor.
Defined.

(** ** Dictionaries *)

Lemma str_eqb_eq (a b : pystr) : str_eqb a b = true <-> a = b.
Proof.
  unfold str_eqb. destruct (list_eq_dec Z.eq_dec a b); split;
    congruence.
Qed.

Lemma str_eqb_refl (a : pystr) : str_eqb a a = true.
Proof. now apply str_eqb_eq. Qed.

Lemma str_eqb_neq (a b : pystr) : a <> b -> str_eqb a b = false.
Proof.
  intros H. destruct (str_eqb a b) eqn:E; [|reflexivity].
  apply str_eqb_eq in E. contradiction.
Qed.

Lemma get_set_same {V} (k : pystr) (v : V) (d : pydict.t V) :
  pydict.get k (pydict.set k v d) = Some v.
Proof.
  induction d as [|[k' v'] d IH]; cbn [pydict.set pydict.get].
  - now rewrite str_eqb_refl.
  - destruct (str_eqb k k') eqn:E; cbn [pydict.get]; rewrite E;
      [reflexivity|exact IH].
Qed.

Lemma get_set_other {V} (k k' : pystr) (v : V) (d : pydict.t V) :
  k' <> k -> pydict.get k' (pydict.set k v d) = pydict.get k' d.
Proof.
  intros Hne. induction d as [|[k0 v0] d IH]; cbn [pydict.set pydict.get].
  - now rewrite (str_eqb_neq k' k).
  - destruct (str_eqb k k0) eqn:E; cbn [pydict.get].
    + apply str_eqb_eq in E. subst k0. now rewrite (str_eqb_neq k' k).
    + destruct (str_eqb k' k0); [reflexivity|exact IH].
Qed.

(** ** The loader registry *)

(** X13: after a class [cls] is registered for [extensions], [get_loader]
    answers [cls] for every path whose lower-cased suffix is the lower-cased
    form of one of the extensions, and what it answered before for every
    other path. *)
Theorem get_loader_after_register
        (lower suffix : pystr -> pystr) (loader_class : Type)
        (extensions : list pystr) (cls : loader_class)
        (loaders : pydict.t loader_class) (filepath : pystr) :
  LoaderRegistry.get_loader lower suffix loader_class filepath
    (LoaderRegistry.register lower loader_class extensions cls loaders)
  = if existsb (fun ext => str_eqb (lower (suffix filepath)) (lower ext))
         extensions
    then Some cls
    else LoaderRegistry.get_loader lower suffix loader_class filepath loaders.
Proof.
  unfold LoaderRegistry.get_loader, LoaderRegistry.register.
  set (k := lower (suffix filepath)).
  revert loaders.
  induction extensions as [|ext extensions IH]; intros loaders;
    cbn [fold_left existsb]; [reflexivity|].
  rewrite IH.
  destruct (existsb (fun ext0 => str_eqb k (lower ext0)) extensions).
  - now rewrite orb_true_r.
  - rewrite orb_false_r.
    destruct (str_eqb k (lower ext)) eqn:E.
    + apply str_eqb_eq in E. rewrite E. apply get_set_same.
    + apply get_set_other. intros H. apply str_eqb_eq in H. congruence.
Qed.

(** ** Texture indices of the Wavefront loader *)

Lemma add_texture_nonempty (p : pystr) (st : WavefrontLoader.textures) :
  p <> [] ->
  WavefrontLoader.add_texture p st
  = (let st' :=
       if negb (pydict.contains p (WavefrontLoader.texture_map st)) then
         WavefrontLoader.mk_textures
           (WavefrontLoader.texture_paths st ++ [p])
           (pydict.set p
              (Z.of_nat (List.length (WavefrontLoader.texture_paths st)))
              (WavefrontLoader.texture_map st))
       else st in
     (pydict.get p (WavefrontLoader.texture_map st'), st')).
Proof.
  intros H. destruct p; [now contradiction H|reflexivity].
Qed.

Lemma textures_indexed_in (st : WavefrontLoader.textures) (p : pystr) :
  textures_indexed st ->
  In p (WavefrontLoader.texture_paths st) ->
  exists i, pydict.get p (WavefrontLoader.texture_map st) = Some i.
Proof.
  intros (_ & _ & H) Hin. apply In_nth_error in Hin.
  destruct Hin as (n & Hn). exists (Z.of_nat n). apply H.
  split; [lia|]. now rewrite Nat2Z.id.
Qed.

Lemma NoDup_snoc {A} (l : list A) (a : A) :
  NoDup l -> ~ In a l -> NoDup (l ++ [a]).
Proof.
  induction l as [|b l IH]; intros Hnd Hin; cbn [app].
  - constructor; [intros []|constructor].
  - inversion Hnd as [|? ? Hb Hl]; subst. constructor.
    + intros H. apply in_app_or in H. destruct H as [H|[H|[]]].
      * now apply Hb.
      * subst. apply Hin. now left.
    + apply IH; [exact Hl|]. intros H. apply Hin. now right.
Qed.

Lemma nth_error_snoc {A} (l : list A) (a b : A) (k : nat) :
  nth_error (l ++ [a]) k = Some b <->
  nth_error l k = Some b \/ (k = List.length l /\ b = a).
Proof.
  destruct (Nat.lt_ge_cases k (List.length l)) as [Hlt|Hge].
  - rewrite nth_error_app1 by exact Hlt. split; [now left|].
    intros [H|(H & _)]; [exact H|lia].
  - rewrite nth_error_app2 by exact Hge.
    assert (Hnone : nth_error l k = None) by now apply nth_error_None.
    rewrite Hnone.
    destruct (k - List.length l)%nat as [|j] eqn:E; cbn [nth_error].
    + split.
      * intros H. right. split; [lia|congruence].
      * intros [H|(_ & H)]; [discriminate|congruence].
    + split.
      * destruct j; discriminate.
      * intros [H|(H & _)]; [discriminate|lia].
Qed.

(** X14: [add_texture] keeps the path list and the path map in step.
    From a state in which the map sends each listed path to its position,
    a call leaves such a state, only ever appends to the list (indices given
    out earlier stay right), answers -1 for the empty path without touching
    anything, answers for any other path an index at which the list holds
    that very path, and adds nothing for a path that is listed already. *)
Theorem add_texture_keeps_index (tex_path : pystr)
        (st : WavefrontLoader.textures) :
  textures_indexed st ->
  textures_indexed (snd (WavefrontLoader.add_texture tex_path st))
  /\ (exists added,
        WavefrontLoader.texture_paths
          (snd (WavefrontLoader.add_texture tex_path st))
        = WavefrontLoader.texture_paths st ++ added)
  /\ (tex_path = [] ->
      WavefrontLoader.add_texture tex_path st = (Some (-1), st))
  /\ (tex_path <> [] ->
      exists i,
        fst (WavefrontLoader.add_texture tex_path st) = Some i
        /\ 0 <= i
        /\ nth_error
             (WavefrontLoader.texture_paths
                (snd (WavefrontLoader.add_texture tex_path st)))
             (Z.to_nat i)
           = Some tex_path)
  /\ (In tex_path (WavefrontLoader.texture_paths st) ->
      snd (WavefrontLoader.add_texture tex_path st) = st).
Proof.
  intros Hst. pose proof Hst as (Hnd & Hne & Hmap).
  destruct (list_eq_dec Z.eq_dec tex_path []) as [->|Hp].
  - cbn [WavefrontLoader.add_texture fst snd].
    split; [exact Hst|]. split; [exists []; now rewrite app_nil_r|].
    split; [reflexivity|]. split; [intros H; now contradiction H|].
    reflexivity.
  - rewrite (add_texture_nonempty tex_path st Hp).
    unfold pydict.contains.
    destruct (pydict.get tex_path (WavefrontLoader.texture_map st))
      as [i|] eqn:G; cbn [negb fst snd].
    + split; [exact Hst|]. split; [exists []; now rewrite app_nil_r|].
      split; [intros H; now contradiction Hp|].
      split; [|reflexivity].
      intros _. exists i. split; [exact G|]. now apply Hmap.
    + assert (Hnew : ~ In tex_path (WavefrontLoader.texture_paths st)).
      { intros Hin. destruct (textures_indexed_in st tex_path Hst Hin)
          as (i & Hi). congruence. }
      cbn [WavefrontLoader.texture_paths WavefrontLoader.texture_map].
      split.
      { split; [now apply NoDup_snoc|].
        cbn [WavefrontLoader.texture_paths WavefrontLoader.texture_map].
        split.
        - intros H. apply in_app_or in H. destruct H as [H|[H|[]]];
            [now apply Hne|now apply Hp].
        - intros q i. rewrite nth_error_snoc.
          destruct (list_eq_dec Z.eq_dec q tex_path) as [->|Hq].
          + rewrite get_set_same. split.
            * intros H. injection H as <-. split; [lia|]. right.
              split; [now rewrite Nat2Z.id|reflexivity].
            * intros (Hi & [H|(H & _)]).
              -- exfalso. apply Hnew. now apply (nth_error_In _ _ H).
              -- f_equal. lia.
          + rewrite get_set_other by exact Hq. rewrite Hmap. split.
            * intros (Hi & H). split; [exact Hi|now left].
            * intros (Hi & [H|(_ & H)]); [now split|contradiction]. }
      split; [now exists [tex_path]|].
      split; [intros H; now contradiction Hp|].
      split; [|intros H; now contradiction Hnew].
      intros _.
      exists (Z.of_nat (List.length (WavefrontLoader.texture_paths st))).
      split; [apply get_set_same|]. split; [lia|].
      rewrite Nat2Z.id. apply nth_error_snoc. right. now split.
Qed.

Lemma add_texture_keeps_index_witness :
  textures_indexed
    (snd (WavefrontLoader.add_texture (str_of "a.png")
            WavefrontLoader.no_textures))
  /\ fst (WavefrontLoader.add_texture (str_of "a.png")
            WavefrontLoader.no_textures) = Some 0.
Proof.
  assert (H0 : textures_indexed WavefrontLoader.no_textures).
  { split; [constructor|]. split; [intros []|].
    intros p i. cbn. split; [discriminate|].
    intros (_ & H). destruct (Z.to_nat i); discriminate. }
  destruct (add_texture_keeps_index (str_of "a.png")
              WavefrontLoader.no_textures H0) as (H & _).
  split; [exact H|reflexivity].
Defined.

(** ** Material indices of the loaders *)

Lemma material_map_from_get (name : pystr) (materials : list Material.t)
      (idx : Z) (d : pydict.t Z) :
  pydict.get name (WavefrontLoader.material_map_from idx materials d)
  = match last_named name materials idx with
    | Some i => Some i
    | None => pydict.get name d
    end.
Proof.
  revert idx d. induction materials as [|mat materials IH]; intros idx d;
    cbn [WavefrontLoader.material_map_from last_named]; [reflexivity|].
  rewrite IH. destruct (last_named name materials (idx + 1)); [reflexivity|].
  destruct (str_eqb name (Material.name mat)) eqn:E.
  - apply str_eqb_eq in E. rewrite E. apply get_set_same.
  - apply get_set_other. intros H. apply str_eqb_eq in H. congruence.
Qed.

Lemma last_named_none (name : pystr) (materials : list Material.t) (idx : Z) :
  last_named name materials idx = None <->
  ~ In name (map Material.name materials).
Proof.
  revert idx. induction materials as [|mat materials IH]; intros idx;
    cbn [last_named map In].
  - split; [intros _ []|reflexivity].
  - destruct (last_named name materials (idx + 1)) as [i|] eqn:L.
    + split; [discriminate|]. intros H. exfalso.
      assert (Hn : ~ In name (map Material.name materials))
        by (intros Hin; apply H; now right).
      apply (IH (idx + 1)) in Hn. congruence.
    + apply IH in L. destruct (str_eqb name (Material.name mat)) eqn:E.
      * apply str_eqb_eq in E. split; [discriminate|].
        intros H. exfalso. apply H. now left.
      * split; [|reflexivity]. intros _ [H|H]; [|now apply L].
        symmetry in H. apply str_eqb_eq in H. congruence.
Qed.

Lemma last_named_some (name : pystr) (materials : list Material.t)
      (idx i : Z) :
  last_named name materials idx = Some i ->
  idx <= i < idx + Z.of_nat (List.length materials)
  /\ exists mat,
      nth_error materials (Z.to_nat (i - idx)) = Some mat
      /\ Material.name mat = name
      /\ forall k mat',
          (Z.to_nat (i - idx) < k)%nat ->
          nth_error materials k = Some mat' -> Material.name mat' <> name.
Proof.
  revert idx. induction materials as [|mat materials IH]; intros idx;
    cbn [last_named]; [discriminate|].
  destruct (last_named name materials (idx + 1)) as [i0|] eqn:L.
  - intros H. injection H as ->.
    destruct (IH (idx + 1) L) as (Hb & mat0 & Hn & Hname & Hlast).
    assert (E : Z.to_nat (i - idx) = S (Z.to_nat (i - (idx + 1)))) by lia.
    split; [cbn [List.length]; lia|].
    exists mat0. rewrite E. cbn [nth_error].
    split; [exact Hn|]. split; [exact Hname|].
    intros k mat' Hk. destruct k as [|k]; [lia|]. cbn [nth_error].
    apply Hlast. lia.
  - destruct (str_eqb name (Material.name mat)) eqn:E; [|discriminate].
    intros H. injection H as <-. apply str_eqb_eq in E.
    split; [cbn [List.length]; lia|].
    exists mat. rewrite Z.sub_diag. cbn [Z.to_nat nth_error].
    split; [reflexivity|]. split; [now symmetry|].
    intros k mat' Hk Hn Hname. destruct k as [|k]; [lia|].
    cbn [nth_error] in Hn. apply last_named_none in L. apply L.
    rewrite <- Hname. apply in_map. now apply (nth_error_In _ _ Hn).
Qed.

Lemma material_index_last_named (materials : list Material.t)
      (name : pystr) :
  WavefrontLoader.material_index materials name
  = match last_named name materials 0 with Some i => i | None => 0 end.
Proof.
  unfold WavefrontLoader.material_index, WavefrontLoader.material_map.
  rewrite material_map_from_get.
  now destruct (last_named name materials 0).
Qed.

Lemma material_index_bounds (materials : list Material.t) (name : pystr) :
  0 <= WavefrontLoader.material_index materials name
       < Z.max 1 (Z.of_nat (List.length materials)).
Proof.
  rewrite material_index_last_named.
  destruct (last_named name materials 0) as [i|] eqn:L; [|lia].
  apply last_named_some in L. lia.
Qed.

(** X15: the index that [material_map.get(name, 0)] gives is a position of
    the materials list (0 when the list is empty); when a material bears the
    name it is the position of the last material that does, and it is 0
    when none does. *)
Theorem material_index_resolves_name (materials : list Material.t)
        (name : pystr) :
  0 <= WavefrontLoader.material_index materials name
       < Z.max 1 (Z.of_nat (List.length materials))
  /\ (In name (map Material.name materials) ->
      exists mat,
        material_at materials (WavefrontLoader.material_index materials name)
        = Some mat
        /\ Material.name mat = name
        /\ forall j mat',
            WavefrontLoader.material_index materials name < j ->
            material_at materials j = Some mat' ->
            Material.name mat' <> name)
  /\ (~ In name (map Material.name materials) ->
      WavefrontLoader.material_index materials name = 0).
Proof.
  split; [apply material_index_bounds|].
  rewrite material_index_last_named.
  destruct (last_named name materials 0) as [i|] eqn:L.
  - pose proof (last_named_some _ _ _ _ L) as (Hb & mat & Hn & Hname & Hlast).
    rewrite Z.sub_0_r in Hn, Hlast. split.
    + intros _. exists mat. unfold material_at.
      destruct (Z.ltb_spec i 0); [lia|].
      split; [exact Hn|]. split; [exact Hname|].
      intros j mat' Hj. destruct (Z.ltb_spec j 0); [discriminate|].
      apply Hlast. lia.
    + intros H. apply (last_named_none name materials 0) in H. congruence.
  - split; [|reflexivity].
    intros H. apply last_named_none in L. contradiction.
Qed.

Lemma validate_scene_checks (scene : SceneData.t) :
  SceneData.meshes scene <> [] ->
  fst (BaseLoader.validate_scene scene)
  = Ok (BaseLoader.indices_valid (checked_materials scene)
          (SceneData.meshes scene)).
Proof.
  destruct scene as [meshes materials textures].
  unfold BaseLoader.validate_scene, checked_materials.
  cbn [SceneData.meshes SceneData.materials]. intros Hne.
  destruct meshes as [|mesh meshes]; [now contradiction Hne|].
  destruct materials as [|mat materials].
  - reflexivity.
  - cbn [SceneData.materials SceneData.meshes fst].
    now rewrite Z.max_r by (cbn [List.length]; lia).
Qed.

(** X16: meshes whose [material_index] is 0 or was looked up in the name
    map of the scene's materials, as both loaders assign it, always pass
    the check of [validate_scene]; their indices are not negative, and fit
    the unsigned 32-bit field of the file when the number of materials
    does. *)
Theorem loader_indices_pass_validation (scene : SceneData.t) :
  SceneData.meshes scene <> [] ->
  Forall (assigned_by_loader (SceneData.materials scene))
         (SceneData.meshes scene) ->
  fst (BaseLoader.validate_scene scene) = Ok true
  /\ Forall (fun mesh => 0 <= Mesh.material_index mesh)
            (SceneData.meshes scene)
  /\ (count_wf (SceneData.materials scene) ->
      Forall (fun mesh => is_u32 (Mesh.material_index mesh))
             (SceneData.meshes scene)).
Proof.
  intros Hne Hall.
  assert (B : Forall (fun mesh =>
                        0 <= Mesh.material_index mesh
                             < checked_materials scene)
                (SceneData.meshes scene)).
  { eapply Forall_impl; [|exact Hall]. intros mesh [H|(n & H)]; rewrite H.
    - unfold checked_materials. lia.
    - apply material_index_bounds. }
  split; [|split].
  - rewrite (validate_scene_checks scene Hne). f_equal.
    apply indices_valid_true. eapply Forall_impl; [|exact B].
    intros mesh H. apply H.
  - eapply Forall_impl; [|exact B]. intros mesh H. apply H.
  - intros Hc. eapply Forall_impl; [|exact B]. intros mesh H.
    unfold count_wf in Hc. unfold is_u32, checked_materials in *. lia.
Qed.

Lemma loader_indices_pass_validation_witness :
  fst (BaseLoader.validate_scene Examples.glass_scene) = Ok true
  /\ Forall (fun mesh => 0 <= Mesh.material_index mesh)
            (SceneData.meshes Examples.glass_scene)
  /\ (count_wf (SceneData.materials Examples.glass_scene) ->
      Forall (fun mesh => is_u32 (Mesh.material_index mesh))
             (SceneData.meshes Examples.glass_scene)).
Proof.
  apply (loader_indices_pass_validation Examples.glass_scene).
  - discriminate.
  - constructor; [|constructor]. right. exists (str_of "glass").
    reflexivity.
Defined.

(** ** The layers of the Blender loader *)

Lemma bind_keywords_transmission :
  bind_keywords "TransmissionLayer" BlenderLoader.TransmissionLayer_fields
    ["strength"; "roughness"; "depth"; "color"; "texture_idx"]%string
  = Raise (unexpected_keyword "TransmissionLayer" "texture_idx").
Proof. reflexivity. Qed.

Lemma bind_keywords_clearcoat :
  bind_keywords "ClearcoatLayer" BlenderLoader.ClearcoatLayer_fields
    ["strength"; "roughness"; "ior"; "texture_idx"]%string
  = Raise (unexpected_keyword "ClearcoatLayer" "texture_idx").
Proof. reflexivity. Qed.

Lemma bind_keywords_sheen :
  bind_keywords "SheenLayer" BlenderLoader.SheenLayer_fields
    ["strength"; "roughness"; "color"; "texture_idx"]%string
  = Raise (unexpected_keyword "SheenLayer" "texture_idx").
Proof. reflexivity. Qed.

Lemma bind_keywords_anisotropy :
  bind_keywords "AnisotropyLayer" BlenderLoader.AnisotropyLayer_fields
    ["strength"; "rotation"; "texture_idx"]%string
  = Raise (unexpected_keyword "AnisotropyLayer" "texture_idx").
Proof. reflexivity. Qed.

(** An extractor of the shape the four share: nothing without the socket,
    nothing below the threshold, else the reads and the constructor call of
    [build]. *)
Lemma gated_leaves_or_raises (contains : string -> bool)
      (float_value : string -> result pyfloat) (socket : string)
      (material : Material.t) (build : pyfloat -> result Material.t) :
  (forall s, exists e, build s = Raise e) ->
  leaves_or_raises (below_threshold contains float_value socket) material
    (if negb (contains socket) then Ok material
     else
       (strength <- float_value socket ;;
        if SFltb strength f0_01 then Ok material else build strength)%result).
Proof.
  intros Hb. unfold leaves_or_raises, below_threshold.
  destruct (contains socket) eqn:C; cbn [negb].
  - destruct (float_value socket) as [s|e] eqn:F; cbn [rbind].
    + destruct (SFltb s f0_01) eqn:L.
      * split; [reflexivity|]. intros H. exfalso. apply H. right.
        now exists s.
      * split.
        -- intros [H|(s' & Hs & Hl)]; [discriminate|].
           injection Hs as <-. congruence.
        -- intros _. apply Hb.
    + split.
      * intros [H|(s' & Hs & _)]; discriminate.
      * intros _. now exists e.
  - split; [reflexivity|]. intros H. exfalso. apply H. now left.
Qed.

Lemma read_then_raise {A B} (r : result A) (e : exn) :
  exists e', (x <- r ;; (Raise e : result B))%result = Raise e'.
Proof.
  destruct r as [a|e0]; cbn [rbind]; [now exists e|now exists e0].
Qed.

(** X17: the Blender extractors of the transmission, clearcoat, sheen and
    anisotropy layers never install a layer.  Each returns with the material
    untouched when its strength socket is missing or reads below 0.01, and
    raises in every other case: the layer constructors are called with the
    keyword [texture_idx], and the field is [texture_index]. *)
Theorem blender_layers_never_installed (contains : string -> bool)
        (float_value : string -> result pyfloat)
        (color_value : string -> result (option (list pyfloat)))
        (material : Material.t) :
  leaves_or_raises (below_threshold contains float_value "Transmission")
    material
    (BlenderLoader._extract_transmission contains float_value material)
  /\ leaves_or_raises (below_threshold contains float_value "Clearcoat")
       material
       (BlenderLoader._extract_clearcoat contains float_value material)
  /\ leaves_or_raises (below_threshold contains float_value "Sheen")
       material
       (BlenderLoader._extract_sheen contains float_value color_value
          material)
  /\ leaves_or_raises (below_threshold contains float_value "Anisotropic")
       material
       (BlenderLoader._extract_anisotropy contains float_value material).
Proof.
  split; [|split; [|split]].
  - unfold BlenderLoader._extract_transmission.
    apply gated_leaves_or_raises. intros s.
    rewrite bind_keywords_transmission. cbn [rbind]. apply read_then_raise.
  - unfold BlenderLoader._extract_clearcoat.
    apply gated_leaves_or_raises. intros s.
    rewrite bind_keywords_clearcoat. cbn [rbind]. apply read_then_raise.
  - unfold BlenderLoader._extract_sheen.
    apply gated_leaves_or_raises. intros s.
    rewrite bind_keywords_sheen. cbn [rbind]. apply read_then_raise.
  - unfold BlenderLoader._extract_anisotropy.
    apply gated_leaves_or_raises. intros s.
    rewrite bind_keywords_anisotropy. cbn [rbind]. apply read_then_raise.
Qed.

Lemma gated_raises (contains : string -> bool)
      (float_value : string -> result pyfloat) (socket : string)
      (material : Material.t) (build : pyfloat -> result Material.t)
      (e : exn) :
  (forall s, build s = Raise e) ->
  (exists x, float_value socket = Ok x) ->
  ~ below_threshold contains float_value socket ->
  (if negb (contains socket) then Ok material
   else
     (strength <- float_value socket ;;
      if SFltb strength f0_01 then Ok material else build strength)%result)
  = Raise e.
Proof.
  intros Hb (x & Hx) Hn. unfold below_threshold in Hn.
  destruct (contains socket) eqn:C; cbn [negb];
    [|exfalso; apply Hn; now left].
  rewrite Hx. cbn [rbind].
  destruct (SFltb x f0_01) eqn:L; [|apply Hb].
  exfalso. apply Hn. right. now exists x.
Qed.

(** X18: when the sockets themselves read without an exception, what a
    Blender extractor raises for a strength that is not below 0.01 is the
    TypeError of the constructor call, naming the keyword
    [texture_idx]. *)
Theorem blender_layer_call_raises_type_error (contains : string -> bool)
        (float_value : string -> result pyfloat)
        (color_value : string -> result (option (list pyfloat)))
        (material : Material.t) :
  (forall k, exists x, float_value k = Ok x) ->
  (forall k, exists c, color_value k = Ok c) ->
  (~ below_threshold contains float_value "Transmission" ->
   BlenderLoader._extract_transmission contains float_value material
   = Raise (unexpected_keyword "TransmissionLayer" "texture_idx"))
  /\ (~ below_threshold contains float_value "Clearcoat" ->
      BlenderLoader._extract_clearcoat contains float_value material
      = Raise (unexpected_keyword "ClearcoatLayer" "texture_idx"))
  /\ (~ below_threshold contains float_value "Sheen" ->
      BlenderLoader._extract_sheen contains float_value color_value material
      = Raise (unexpected_keyword "SheenLayer" "texture_idx"))
  /\ (~ below_threshold contains float_value "Anisotropic" ->
      BlenderLoader._extract_anisotropy contains float_value material
      = Raise (unexpected_keyword "AnisotropyLayer" "texture_idx")).
Proof.
  intros Hf Hc. split; [|split; [|split]]; intros Hn.
  - unfold BlenderLoader._extract_transmission.
    apply gated_raises; [|apply Hf|exact Hn]. intros s.
    rewrite bind_keywords_transmission.
    destruct (contains "Transmission Roughness"%string); [|reflexivity].
    destruct (Hf "Transmission Roughness"%string) as (x & ->). reflexivity.
  - unfold BlenderLoader._extract_clearcoat.
    apply gated_raises; [|apply Hf|exact Hn]. intros s.
    rewrite bind_keywords_clearcoat.
    destruct (contains "Clearcoat Roughness"%string); [|reflexivity].
    destruct (Hf "Clearcoat Roughness"%string) as (x & ->). reflexivity.
  - unfold BlenderLoader._extract_sheen.
    apply gated_raises; [|apply Hf|exact Hn]. intros s.
    rewrite bind_keywords_sheen.
    destruct (contains "Sheen Tint"%string); [|reflexivity].
    destruct (Hc "Sheen Tint"%string) as (c & ->). reflexivity.
  - unfold BlenderLoader._extract_anisotropy.
    apply gated_raises; [|apply Hf|exact Hn]. intros s.
    rewrite bind_keywords_anisotropy.
    destruct (contains "Anisotropic Rotation"%string); [|reflexivity].
    destruct (Hf "Anisotropic Rotation"%string) as (x & ->). reflexivity.
Qed.

Lemma blender_layer_call_raises_type_error_witness :
  BlenderLoader._extract_transmission (fun _ => true) (fun _ => Ok f0_5)
    (Material.make (str_of "m"))
  = Raise (unexpected_keyword "TransmissionLayer" "texture_idx")
  /\ BlenderLoader._extract_sheen (fun _ => true) (fun _ => Ok f0_5)
       (fun _ => Ok None) (Material.make (str_of "m"))
     = Raise (unexpected_keyword "SheenLayer" "texture_idx").
Proof.
  destruct (blender_layer_call_raises_type_error
              (fun _ => true) (fun _ => Ok f0_5) (fun _ => Ok None)
              (Material.make (str_of "m")))
    as (Ht & _ & Hs & _).
  - intros k. now exists f0_5.
  - intros k. now exists None.
  - split; [apply Ht|apply Hs];
      (intros [H|(s & Hs' & Hl)]; [discriminate|];
       injection Hs' as <-; vm_compute in Hl; discriminate).
Defined.

(** ** The vertex data of the Blender loader *)

Lemma polygon_loop_inv (loop_vertex : Z -> result Vertex.t)
      (loop_indices : list Z) (vertices : list Vertex.t) (indices : list Z)
      (vertices' : list Vertex.t) (indices' : list Z) :
  BlenderLoader.polygon_loop loop_vertex loop_indices vertices indices
  = Ok (vertices', indices') ->
  exists new,
    Forall2 (fun loop_idx v => loop_vertex loop_idx = Ok v) loop_indices new
    /\ vertices' = vertices ++ new
    /\ indices' = indices
                    ++ map Z.of_nat
                         (seq (List.length vertices) (List.length new)).
Proof.
  revert vertices indices.
  induction loop_indices as [|loop_idx loop_indices IH];
    intros vertices indices H; cbn [BlenderLoader.polygon_loop] in H.
  - injection H as <- <-. exists []. cbn [List.length seq map].
    rewrite !app_nil_r. now repeat split.
  - apply rbind_ok_inv in H. destruct H as (vertex & Ev & H).
    apply IH in H. destruct H as (new & Hnew & -> & ->).
    exists (vertex :: new). split; [now constructor|].
    rewrite <- !app_assoc. split; [reflexivity|].
    rewrite length_app. cbn [List.length seq map app].
    now rewrite Nat.add_1_r.
Qed.

Lemma polygons_loop_inv (loop_vertex : Z -> result Vertex.t)
      (polygons : list (list Z)) (vertices : list Vertex.t)
      (indices : list Z) (vertices' : list Vertex.t) (indices' : list Z) :
  BlenderLoader.polygons_loop loop_vertex polygons vertices indices
  = Ok (vertices', indices') ->
  exists new,
    Forall2 (fun loop_idx v => loop_vertex loop_idx = Ok v)
            (List.concat polygons) new
    /\ vertices' = vertices ++ new
    /\ indices' = indices
                    ++ map Z.of_nat
                         (seq (List.length vertices) (List.length new)).
Proof.
  revert vertices indices.
  induction polygons as [|loop_indices polygons IH];
    intros vertices indices H; cbn [BlenderLoader.polygons_loop] in H.
  - injection H as <- <-. exists []. cbn [List.length seq map List.concat].
    rewrite !app_nil_r. now repeat split.
  - apply rbind_ok_inv in H. destruct H as ([vs1 ix1] & E1 & H).
    cbn [fst snd] in H.
    apply polygon_loop_inv in E1. destruct E1 as (new1 & F1 & -> & ->).
    apply IH in H. destruct H as (new2 & F2 & -> & ->).
    exists (new1 ++ new2). cbn [List.concat].
    split; [now apply Forall2_app|].
    rewrite <- !app_assoc. split; [reflexivity|].
    rewrite !length_app, seq_app, map_app. reflexivity.
Qed.

Lemma Forall2_built {A B} (P : A -> B -> Prop) (l : list A) (l' : list B) :
  Forall2 P l l' -> Forall (fun a => exists b, P a b) l.
Proof.
  induction 1 as [|a b l l' Hab _ IH]; [constructor|].
  constructor; [now exists b|exact IH].
Qed.

Lemma polygon_loop_total (loop_vertex : Z -> result Vertex.t)
      (loop_indices : list Z) (vertices : list Vertex.t) (indices : list Z) :
  Forall (fun loop_idx => exists v, loop_vertex loop_idx = Ok v)
         loop_indices ->
  exists r,
    BlenderLoader.polygon_loop loop_vertex loop_indices vertices indices
    = Ok r.
Proof.
  revert vertices indices.
  induction loop_indices as [|loop_idx loop_indices IH];
    intros vertices indices H; cbn [BlenderLoader.polygon_loop].
  - eexists. reflexivity.
  - inversion H as [|? ? (v & Hv) Hrest]; subst. rewrite Hv. cbn [rbind].
    now apply IH.
Qed.

(** X19: [_extract_vertex_data] returns exactly when the vertex of every
    loop can be built.  It then returns one vertex per loop, in the order of
    the polygons, and the indices 0, 1, ..., n - 1: every index addresses
    the vertex written with it, and no vertex is shared. *)
Theorem extract_vertex_data_indices (loop_vertex : Z -> result Vertex.t)
        (polygons : list (list Z)) :
  ((exists r, BlenderLoader._extract_vertex_data loop_vertex polygons = Ok r)
   <-> Forall (fun loop_idx => exists v, loop_vertex loop_idx = Ok v)
              (List.concat polygons))
  /\ forall vertices indices,
      BlenderLoader._extract_vertex_data loop_vertex polygons
      = Ok (vertices, indices) ->
      Forall2 (fun loop_idx v => loop_vertex loop_idx = Ok v)
              (List.concat polygons) vertices
      /\ indices = map Z.of_nat (seq 0 (List.length vertices)).
Proof.
  unfold BlenderLoader._extract_vertex_data. split.
  - split.
    + intros ([vs ix] & H). apply polygons_loop_inv in H.
      destruct H as (new & F & _).
      now apply (Forall2_built _ _ _ F).
    + generalize (@nil Vertex.t) (@nil Z).
      induction polygons as [|loop_indices polygons IH];
        intros vs ix H; cbn [BlenderLoader.polygons_loop].
      * eexists. reflexivity.
      * cbn [List.concat] in H. apply Forall_app in H. destruct H as (H1 & H2).
        destruct (polygon_loop_total loop_vertex loop_indices vs ix H1)
          as (r & ->).
        cbn [rbind]. now apply IH.
  - intros vertices indices H. apply polygons_loop_inv in H.
    destruct H as (new & F & -> & ->). now split.
Qed.
